(** * The task lifecycle engine of [nbgwas_rest/nbgwas_taskrunner.py]

    A shallow embedding of the file-based task runner: the task record
    ([FileBasedTask]), the task store ([FileBasedSubmittedTaskFactory]) and
    the runner ([NbgwasTaskRunner]), over a model of the Python values,
    exceptions, path functions and file system calls the code uses. *)

From Stdlib Require Import Ascii String.
From stdpp Require Import gmap strings list.
Set Warnings "-register-all".
Open Scope string_scope.
Open Scope list_scope.
Open Scope Z_scope.

(** ** Python values *)

(** What [json.load] returns and [json.dump] accepts.  [JNull] is Python's
    [None]; a number keeps its literal, no arithmetic is done on it here. *)
Inductive json : Type :=
  | JNull
  | JBool (b : bool)
  | JNum (literal : string)
  | JStr (s : string)
  | JArr (items : list json)
  | JObj (fields : gmap string json).

(** The exceptions the engine can meet; all derive from [Exception]. *)
Inductive exn : Type :=
  | KeyError (key : string)
  | TypeError (msg : string)
  | AttributeError (msg : string)
  | ValueError (msg : string)
  | OverflowError (msg : string)
  | FileNotFoundError (path : string)
  | IsADirectoryError (path : string)
  | NotADirectoryError (path : string)
  | FileExistsError (path : string)
  | PermissionError (path : string)
  | JSONDecodeError (msg : string)
  | ShutilError (msg : string)
  | ExternalError (msg : string).

(** [str(e)]: a [KeyError] prints the repr of its key, the others print
    their argument. *)
Definition str_exn (e : exn) : string :=
  match e with
  | KeyError k => "'" +:+ k +:+ "'"
  | TypeError m | AttributeError m | ValueError m | OverflowError m
  | JSONDecodeError m | ShutilError m | ExternalError m => m
  | FileNotFoundError p => "[Errno 2] No such file or directory: '" +:+ p +:+ "'"
  | IsADirectoryError p => "[Errno 21] Is a directory: '" +:+ p +:+ "'"
  | NotADirectoryError p => "[Errno 20] Not a directory: '" +:+ p +:+ "'"
  | FileExistsError p => "[Errno 17] File exists: '" +:+ p +:+ "'"
  | PermissionError p => "[Errno 13] Permission denied: '" +:+ p +:+ "'"
  end.

Inductive outcome (A : Type) : Type :=
  | Return (a : A)
  | Raise (e : exn).
Arguments Return {A} a.
Arguments Raise {A} e.

(** [obj[key]] *)
Definition py_getitem (obj : json) (key : string) : outcome json :=
  match obj with
  | JObj m => match m !! key with
              | Some v => Return v
              | None => Raise (KeyError key)
              end
  | JArr _ => Raise (TypeError "list indices must be integers or slices, not str")
  | JStr _ => Raise (TypeError "string indices must be integers")
  | JNull => Raise (TypeError "'NoneType' object is not subscriptable")
  | JBool _ => Raise (TypeError "'bool' object is not subscriptable")
  | JNum _ => Raise (TypeError "'float' object is not subscriptable")
  end.

(** [x is None] *)
Definition is_None (x : json) : bool :=
  match x with
  | JNull => true
  | _ => false
  end.

(** [x == key] for a string [key] *)
Definition json_eq_str (x : json) (key : string) : bool :=
  match x with
  | JStr s => bool_decide (s = key)
  | _ => false
  end.

(** [key in s] on strings: [key] occurs in [s] *)
Fixpoint substring_of (key s : string) : bool :=
  String.prefix key s ||
  match s with
  | EmptyString => false
  | String _ s' => substring_of key s'
  end.

(** [key in obj] *)
Definition py_contains (obj : json) (key : string) : outcome bool :=
  match obj with
  | JObj m => Return (bool_decide (is_Some (m !! key)))
  | JArr l => Return (existsb (λ x, json_eq_str x key) l)
  | JStr s => Return (substring_of key s)
  | JNull => Raise (TypeError "argument of type 'NoneType' is not iterable")
  | JBool _ => Raise (TypeError "argument of type 'bool' is not iterable")
  | JNum _ => Raise (TypeError "argument of type 'float' is not iterable")
  end.

(** [obj[key] = v] *)
Definition py_setitem (obj : json) (key : string) (v : json) : outcome json :=
  match obj with
  | JObj m => Return (JObj (<[key := v]> m))
  | JArr _ => Raise (TypeError "list indices must be integers or slices, not str")
  | JStr _ => Raise (TypeError "'str' object does not support item assignment")
  | JNull => Raise (TypeError "'NoneType' object does not support item assignment")
  | JBool _ => Raise (TypeError "'bool' object does not support item assignment")
  | JNum _ => Raise (TypeError "'float' object does not support item assignment")
  end.

(** [s.split(sep)] for a one-character separator: never the empty list *)
Fixpoint str_split (sep : ascii) (s : string) : list string :=
  match s with
  | EmptyString => [EmptyString]
  | String c r =>
      if Ascii.eqb c sep then EmptyString :: str_split sep r
      else match str_split sep r with
           | h :: t => String c h :: t
           | [] => [String c EmptyString]
           end
  end.

(** [l.remove(x)]: drops the first item equal to [x], [None] stands for the
    [ValueError] of a list without [x] *)
Fixpoint list_remove_first (x : string) (l : list string) : option (list string) :=
  match l with
  | [] => None
  | y :: l' => if decide (y = x) then Some l'
               else cons y <$> list_remove_first x l'
  end.

(** ** [posixpath] *)

Module posixpath.

Definition sep : ascii := "/"%char.

Definition startswith_sep (p : string) : bool :=
  match p with
  | String c _ => Ascii.eqb c sep
  | EmptyString => false
  end.

Fixpoint endswith_sep (p : string) : bool :=
  match p with
  | EmptyString => false
  | String c EmptyString => Ascii.eqb c sep
  | String _ r => endswith_sep r
  end.

(** [p == sep * len(p)] *)
Fixpoint all_sep (p : string) : bool :=
  match p with
  | EmptyString => true
  | String c r => Ascii.eqb c sep && all_sep r
  end.

(** [p.rstrip(sep)] *)
Fixpoint rstrip_sep (p : string) : string :=
  match p with
  | EmptyString => EmptyString
  | String c r =>
      match rstrip_sep r with
      | EmptyString => if Ascii.eqb c sep then EmptyString else String c EmptyString
      | r' => String c r'
      end
  end.

(** [(p[:i], p[i:])] for [i = p.rfind(sep) + 1] *)
Fixpoint rsplit_sep (p : string) : string * string :=
  match p with
  | EmptyString => (EmptyString, EmptyString)
  | String c r =>
      let '(h, t) := rsplit_sep r in
      match h with
      | String _ _ => (String c h, t)
      | EmptyString =>
          if Ascii.eqb c sep then (String c EmptyString, t)
          else (EmptyString, String c t)
      end
  end.

Definition basename (p : string) : string := (rsplit_sep p).2.

Definition dirname (p : string) : string :=
  let head := (rsplit_sep p).1 in
  match head with
  | EmptyString => head
  | _ => if all_sep head then head else rstrip_sep head
  end.

(** one round of the loop of [join] *)
Definition join2 (path b : string) : string :=
  if startswith_sep b then b
  else match path with
       | EmptyString => b
       | _ => if endswith_sep path then path +:+ b
              else path +:+ "/" +:+ b
       end.

Definition join (a : string) (p : list string) : string :=
  foldl join2 a p.

Fixpoint has_sep (n : string) : bool :=
  match n with
  | EmptyString => false
  | String c r => Ascii.eqb c sep || has_sep r
  end.

End posixpath.

(** ** The file system

    A tree of directories and files.  A path names the node reached from the
    root along its non-empty components: relative paths are taken from the
    root, and there are no links and no permissions on directories. *)

(** The content of a file, as far as the engine can tell files apart. *)
Inductive filedata : Type :=
  | JsonText (j : json)      (* what [json.dump j] writes and [json.load] reads back *)
  | RawText (raw : string)   (* text that [json.load] rejects *)
  | Unreadable.              (* opening or decoding it for reading fails *)

Inductive node : Type :=
  | File (d : filedata)
  | Dir (entries : list (string * node)).

Module FS.

Definition components (p : string) : list string :=
  filter (λ c, c ≠ EmptyString) (str_split posixpath.sep p).

Fixpoint entry_lookup (name : string) (es : list (string * node)) : option node :=
  match es with
  | [] => None
  | (k, n) :: es' => if decide (k = name) then Some n else entry_lookup name es'
  end.

(** replaces the entry in place, a new name goes last *)
Fixpoint entry_set (name : string) (n : node) (es : list (string * node))
  : list (string * node) :=
  match es with
  | [] => [(name, n)]
  | (k, m) :: es' =>
      if decide (k = name) then (k, n) :: es' else (k, m) :: entry_set name n es'
  end.

Fixpoint entry_delete (name : string) (es : list (string * node))
  : list (string * node) :=
  match es with
  | [] => []
  | (k, m) :: es' =>
      if decide (k = name) then es' else (k, m) :: entry_delete name es'
  end.

Fixpoint resolve (cs : list string) (n : node) : option node :=
  match cs with
  | [] => Some n
  | c :: cs' =>
      match n with
      | Dir es =>
          match entry_lookup c es with
          | Some child => resolve cs' child
          | None => None
          end
      | File _ => None
      end
  end.

(** puts [new] at [cs]; with [parents] the missing directories on the way
    are made, as [os.makedirs] does.  [None]: a file is in the way, or a
    parent is missing. *)
Fixpoint graft (parents : bool) (cs : list string) (new : node) (n : node)
  : option node :=
  match cs with
  | [] => Some new
  | c :: cs' =>
      match n with
      | File _ => None
      | Dir es =>
          match entry_lookup c es with
          | Some child =>
              child' ← graft parents cs' new child;
              Some (Dir (entry_set c child' es))
          | None =>
              match cs' with
              | [] => Some (Dir (entry_set c new es))
              | _ =>
                  if parents then
                    child' ← graft parents cs' new (Dir []);
                    Some (Dir (entry_set c child' es))
                  else None
              end
          end
      end
  end.

(** removes the node at [cs], [None] when there is none *)
Fixpoint prune (cs : list string) (n : node) : option node :=
  match cs with
  | [] => None
  | c :: cs' =>
      match n with
      | File _ => None
      | Dir es =>
          match entry_lookup c es with
          | None => None
          | Some child =>
              match cs' with
              | [] => Some (Dir (entry_delete c es))
              | _ =>
                  child' ← prune cs' child;
                  Some (Dir (entry_set c child' es))
              end
          end
      end
  end.

Definition isdir (root : node) (p : string) : bool :=
  match resolve (components p) root with
  | Some (Dir _) => true
  | _ => false
  end.

Definition isfile (root : node) (p : string) : bool :=
  match resolve (components p) root with
  | Some (File _) => true
  | _ => false
  end.

Definition exists_ (root : node) (p : string) : bool :=
  bool_decide (is_Some (resolve (components p) root)).

(** [open(p, 'w')] followed by a complete write of [d] *)
Definition write (root : node) (p : string) (d : filedata) : outcome node :=
  let cs := components p in
  match resolve cs root with
  | Some (Dir _) => Raise (IsADirectoryError p)
  | _ =>
      match cs with
      | [] => Raise (FileNotFoundError p)
      | _ =>
          match graft false cs (File d) root with
          | Some root' => Return root'
          | None => Raise (FileNotFoundError p)
          end
      end
  end.

(** [os.rename], [None] for its [OSError] *)
Definition rename (src dst : list string) (root : node) : option node :=
  match resolve src root with
  | None => None
  | Some sn =>
      if decide (src = dst) then Some root
      else if bool_decide (src `prefix_of` dst) then None
      else
        let replaceable :=
          match resolve dst root, sn with
          | None, _ => true
          | Some (File _), File _ => true
          | Some (Dir []), Dir _ => true
          | _, _ => false
          end in
        if replaceable then root' ← prune src root; graft false dst sn root'
        else None
  end.

End FS.

(** ** The world and the monad of the engine *)

(** What the engine does to the outside, in the order it does it: the file
    writes and moves it calls for, the records it logs at error level (the
    level [_setuplogging] selects by default) and its sleeps. *)
Inductive event : Type :=
  | EvWrite (path : string) (d : filedata)
  | EvMove (src dst : string)
  | EvLogError (msg : string)
  | EvSleep (secs : Z).

Record World := mkWorld { fs : node; trace : list event }.

(** A method of an object of type [O]: it runs on the world and on the
    object, returns or raises, and leaves both changed either way. *)
Definition M (O A : Type) : Type := World * O → outcome A * (World * O).

Global Instance M_ret O : MRet (M O) := λ A a s, (Return a, s).

Global Instance M_bind O : MBind (M O) := λ A B f m s,
  match m s with
  | (Return a, s') => f a s'
  | (Raise e, s') => (Raise e, s')
  end.

Definition raise {O A} (e : exn) : M O A := λ s, (Raise e, s).

(** [try: m  except Exception as e: h e] *)
Definition try_except {O A} (m : M O A) (h : exn → M O A) : M O A := λ s,
  match m s with
  | (Return a, s') => (Return a, s')
  | (Raise e, s') => h e s'
  end.

(** the result of a call that touches neither the world nor the object *)
Definition pure_call {O A} (r : outcome A) : M O A := λ s, (r, s).

Definition get_self {O} : M O O := λ s, (Return s.2, s).
Definition put_self {O} (o : O) : M O unit := λ s, (Return tt, (s.1, o)).
Definition get_fs {O} : M O node := λ s, (Return (fs s.1), s).
Definition put_fs {O} (root : node) : M O unit := λ s,
  (Return tt, (mkWorld root (trace s.1), s.2)).
Definition emit {O} (e : event) : M O unit := λ s,
  (Return tt, (mkWorld (fs s.1) (trace s.1 ++ [e]), s.2)).

(** a method called on another object [o]; the caller keeps its own state
    and receives the callee's when the call returns *)
Definition on {O P A} (o : P) (m : M P A) : M O (A * P) := λ s,
  match m (s.1, o) with
  | (Return a, (w, o')) => (Return (a, o'), (w, s.2))
  | (Raise e, (w, o')) => (Raise e, (w, s.2))
  end.

(** a method called on the object held in a field of [self] *)
Definition on_field {O P A} (get : O → P) (set : P → O → O) (m : M P A)
  : M O A := λ s,
  match m (s.1, get s.2) with
  | (r, (w, p)) => (r, (w, set p s.2))
  end.

(** [for x in lst: body x] over a list the body may change: the iterator
    keeps an index and stops when the index reaches the current length.
    The first argument bounds the rounds; [py_for] starts it at the length
    of the list, which is all the rounds a body that never grows the list
    can make. *)
Fixpoint py_for_from {O A} (rounds : nat) (lst : O → list A)
    (body : A → M O unit) (idx : nat) : M O unit :=
  match rounds with
  | O => mret tt
  | S rounds' => λ s,
      match lst s.2 !! idx with
      | None => (Return tt, s)
      | Some x => (body x ;; py_for_from rounds' lst body (S idx)) s
      end
  end.

Definition py_for {O A} (lst : O → list A) (body : A → M O unit) : M O unit :=
  λ s, py_for_from (length (lst s.2)) lst body 0%nat s.

(** *** File system calls *)

Definition os_path_isdir {O} (p : string) : M O bool :=
  root ← get_fs; mret (FS.isdir root p).

Definition os_path_isfile {O} (p : string) : M O bool :=
  root ← get_fs; mret (FS.isfile root p).

Definition os_path_exists {O} (p : string) : M O bool :=
  root ← get_fs; mret (FS.exists_ root p).

Definition os_listdir {O} (p : string) : M O (list string) :=
  root ← get_fs;
  match FS.resolve (FS.components p) root with
  | Some (Dir es) => mret (es.*1)
  | Some (File _) => raise (NotADirectoryError p)
  | None => raise (FileNotFoundError p)
  end.

(** [open(p, 'r')] and a complete read *)
Definition open_read {O} (p : string) : M O filedata :=
  root ← get_fs;
  match FS.resolve (FS.components p) root with
  | Some (File Unreadable) => raise (PermissionError p)
  | Some (File d) => mret d
  | Some (Dir _) => raise (IsADirectoryError p)
  | None => raise (FileNotFoundError p)
  end.

(** [with open(p, 'r') as f: json.load(f)] *)
Definition json_load_file {O} (p : string) : M O json :=
  d ← open_read p;
  match d with
  | JsonText j => mret j
  | _ => raise (JSONDecodeError "Expecting value")
  end.

(** [with open(p, 'w') as f: json.dump(j, f)] *)
Definition json_dump_file {O} (p : string) (j : json) : M O unit :=
  emit (EvWrite p (JsonText j));;
  root ← get_fs;
  root' ← pure_call (FS.write root p (JsonText j));
  put_fs root'.

(** [shutil.move(src, dst)]: into [dst] when that is a directory; by
    [os.rename] when it can, else by copying the tree (which makes the
    missing parents) and removing the source. *)
Definition shutil_move {O} (src dst : string) : M O string :=
  emit (EvMove src dst);;
  root ← get_fs;
  let csrc := FS.components src in
  if FS.isdir root dst && bool_decide (is_Some (FS.resolve csrc root))
     && bool_decide (csrc = FS.components dst)
  then mret dst
  else
    real_dst ←
      (if FS.isdir root dst then
         let real_dst :=
           posixpath.join dst [posixpath.basename (posixpath.rstrip_sep src)] in
         if FS.exists_ root real_dst then
           raise (ShutilError ("Destination path '" +:+ real_dst +:+ "' already exists"))
         else mret real_dst
       else mret dst);
    let cdst := FS.components real_dst in
    match FS.rename csrc cdst root with
    | Some root' => put_fs root';; mret real_dst
    | None =>
        if FS.isdir root src then
          if bool_decide (csrc `prefix_of` FS.components dst) then
            raise (ShutilError ("Cannot move a directory '" +:+ src +:+
                                "' into itself '" +:+ dst +:+ "'."))
          else if FS.exists_ root real_dst then raise (FileExistsError real_dst)
          else
            match FS.graft true cdst (default (Dir []) (FS.resolve csrc root)) root with
            | None => raise (NotADirectoryError real_dst)
            | Some root1 =>
                match FS.prune csrc root1 with
                | Some root2 => put_fs root2;; mret real_dst
                | None => raise (FileNotFoundError src)
                end
            end
        else raise (FileNotFoundError src)
    end.

(** *** The clock *)

(** [time.sleep(secs)] on an [int]: the length is first turned into
    nanoseconds on 64 bits, an [OverflowError] when they do not go in;
    then a negative length is refused with a [ValueError] *)
Definition time_sleep {O} (secs : Z) : M O unit :=
  if bool_decide (secs < -9223372036 ∨ 9223372036 < secs) then
    raise (OverflowError "timestamp too large to convert to C _PyTime_t")
  else if bool_decide (secs < 0) then
    raise (ValueError "sleep length must be non-negative")
  else emit (EvSleep secs).

(** ** The package [nbgwas_rest] and the collaborators *)

(** The constants of [nbgwas_rest/__init__.py]. *)
Class NbgwasRest := {
  TASK_JSON : string;
  RESULT : string;
  NETWORK_DATA : string;
  SUBMITTED_STATUS : string;
  PROCESSING_STATUS : string;
  DONE_STATUS : string;
  ERROR_STATUS : string;
  ERROR_PARAM : string;
  SEEDS_PARAM : string;
  ALPHA_PARAM : string;
  NDEX_PARAM : string;
  COLUMN_PARAM : string;
  REMOTEIP_PARAM : string;
}.

(** Modelled from the spec: the values of the constants of
    [nbgwas_rest/__init__.py], which is not under src/; the file names, the
    state directories and the record fields are those of the file system
    layout and of the record description of the spec. *)
Definition nbgwas_rest : NbgwasRest := {|
  TASK_JSON := "task.json";
  RESULT := "result.json";
  NETWORK_DATA := "network.dat";
  SUBMITTED_STATUS := "submitted";
  PROCESSING_STATUS := "processing";
  DONE_STATUS := "done";
  ERROR_STATUS := "error";
  ERROR_PARAM := "error";
  SEEDS_PARAM := "seeds";
  ALPHA_PARAM := "alpha";
  NDEX_PARAM := "ndex";
  COLUMN_PARAM := "network_column";
  REMOTEIP_PARAM := "remoteip";
|}.

(** A [networkx] graph, as far as the engine looks at it: [nodes()] in its
    order, labelled by strings. *)
Record Graph := mkGraph { nodes : list string; edges : list (string * string) }.

(** The gene level summary: a row per gene, columns [Genes] and [p-value]. *)
Definition GeneLevelSummary : Type := list (string * Z).

(** The libraries the pipeline calls: pandas and networkx reading a SIF
    file, the NDEx server, and [nbgwas]. Each call returns or raises. *)
Class External := {
  heat : Type;
  (** [nx.from_pandas_dataframe(pd.read_csv(f, sep='\t', names=SIF_NAMES), 'Gene1', 'Gene2')] *)
  read_sif : filedata → outcome Graph;
  (** [create_nice_cx_from_server(server, uuid).to_networkx()], relabelled by name *)
  ndex_network : string → json → outcome Graph;
  (** [Nbgwas(gene_level_summary, 'Genes', 'p-value', network)], then [convert_to_heat()] *)
  nbgwas_heat : option GeneLevelSummary → option Graph → outcome heat;
  (** [diffuse(method='random_walk', alpha)], then [json.loads(heat.iloc[:, -1].to_json())] *)
  nbgwas_diffuse : heat → json → outcome json;
}.

(** ** class [FileBasedTask] *)

Module FileBasedTask.

Record t := mk {
  _taskdir : option string;
  _taskdict : json;
  _networkx_obj : option Graph;
  _genelevelsummary : option GeneLevelSummary;
  _filteredseedlist : option (list string);
  _resultdata : json;
}.

(** [FileBasedTask(taskdir, taskdict)] *)
Definition new (taskdir : option string) (taskdict : json) : t :=
  mk taskdir taskdict None None None JNull.

(** [_get_uuid_ip_state_basedir_from_path] returns a dict of these four *)
Record taskattrib := mkattrib {
  basedir : option string;
  state : option string;
  ipaddr : option string;
  uuid : option string;
}.

Definition set_taskdir (taskdir : option string) : M t unit :=
  self ← get_self;
  put_self (mk taskdir (_taskdict self) (_networkx_obj self)
               (_genelevelsummary self) (_filteredseedlist self) (_resultdata self)).

Definition get_taskdir : M t (option string) :=
  self ← get_self; mret (_taskdir self).

Definition set_taskdict (taskdict : json) : M t unit :=
  self ← get_self;
  put_self (mk (_taskdir self) taskdict (_networkx_obj self)
               (_genelevelsummary self) (_filteredseedlist self) (_resultdata self)).

Definition get_taskdict : M t json :=
  self ← get_self; mret (_taskdict self).

Definition set_networkx_object (networkx_obj : option Graph) : M t unit :=
  self ← get_self;
  put_self (mk (_taskdir self) (_taskdict self) networkx_obj
               (_genelevelsummary self) (_filteredseedlist self) (_resultdata self)).

Definition get_networkx_object : M t (option Graph) :=
  self ← get_self; mret (_networkx_obj self).

Definition set_gene_level_summary (gls : option GeneLevelSummary) : M t unit :=
  self ← get_self;
  put_self (mk (_taskdir self) (_taskdict self) (_networkx_obj self)
               gls (_filteredseedlist self) (_resultdata self)).

Definition get_gene_level_summary : M t (option GeneLevelSummary) :=
  self ← get_self; mret (_genelevelsummary self).

Definition set_filtered_seed_list (seedlist : option (list string)) : M t unit :=
  self ← get_self;
  put_self (mk (_taskdir self) (_taskdict self) (_networkx_obj self)
               (_genelevelsummary self) seedlist (_resultdata self)).

Definition get_filtered_seed_list : M t (option (list string)) :=
  self ← get_self; mret (_filteredseedlist self).

Definition set_result_data (result : json) : M t unit :=
  self ← get_self;
  put_self (mk (_taskdir self) (_taskdict self) (_networkx_obj self)
               (_genelevelsummary self) (_filteredseedlist self) result).

Section methods.
Context `{K : NbgwasRest}.

Definition save_task : M t (option string) :=
  self ← get_self;
  match _taskdir self with
  | None => mret (Some "Task dir is None")
  | Some taskdir =>
      let tjsonfile := posixpath.join taskdir [TASK_JSON] in
      json_dump_file tjsonfile (_taskdict self);;
      if negb (is_None (_resultdata self)) then
        let resultfile := posixpath.join taskdir [RESULT] in
        json_dump_file resultfile (_resultdata self);;
        mret None
      else mret None
  end.

Definition _get_uuid_ip_state_basedir_from_path : M t taskattrib :=
  self ← get_self;
  match _taskdir self with
  | None =>
      emit (EvLogError "Task dir not set");;
      mret (mkattrib None None None None)
  | Some taskdir =>
      let taskuuid := posixpath.basename taskdir in
      let ipdir := posixpath.dirname taskdir in
      let ipaddr := posixpath.basename ipdir in
      let statedir := posixpath.dirname ipdir in
      let state := posixpath.basename statedir in
      let basedir := posixpath.dirname statedir in
      mret (mkattrib (Some basedir) (Some state) (Some ipaddr) (Some taskuuid))
  end.

(** [os.path.join] on values that may be [None] *)
Definition join_attrib (base new_state : string) (ip id : option string)
  : outcome string :=
  match ip, id with
  | Some ip, Some id => Return (posixpath.join base [new_state; ip; id])
  | _, _ => Raise (TypeError "expected str, bytes or os.PathLike object, not NoneType")
  end.

Definition move_task (new_state : string) (error_message : option string)
  : M t (option string) :=
  taskattrib ← _get_uuid_ip_state_basedir_from_path;
  match basedir taskattrib with
  | None => mret (Some "Unable to extract state basedir from task path")
  | Some base =>
      if decide (state taskattrib = Some new_state) then mret None
      else
        new_state ←
          (if decide (new_state = ERROR_STATUS) then
             let emsg := default "Unknown error" error_message in
             self ← get_self;
             taskdict ← pure_call (py_setitem (_taskdict self) ERROR_PARAM (JStr emsg));
             set_taskdict taskdict;;
             save_task;;
             mret DONE_STATUS
           else mret new_state);
        ptaskdir ← pure_call (join_attrib base new_state
                                (ipaddr taskattrib) (uuid taskattrib));
        self ← get_self;
        match _taskdir self with
        | None => raise (TypeError "expected str, bytes or os.PathLike object, not NoneType")
        | Some taskdir =>
            shutil_move taskdir ptaskdir;;
            set_taskdir (Some ptaskdir);;
            mret None
        end
  end.

Definition get_state : M t (option string) :=
  taskattrib ← _get_uuid_ip_state_basedir_from_path; mret (state taskattrib).

Definition get_task_uuid : M t (option string) :=
  taskattrib ← _get_uuid_ip_state_basedir_from_path; mret (uuid taskattrib).

Definition get_alpha : M t json :=
  self ← get_self; pure_call (py_getitem (_taskdict self) ALPHA_PARAM).

Definition get_seeds : M t json :=
  self ← get_self; pure_call (py_getitem (_taskdict self) SEEDS_PARAM).

Definition get_ndex : M t json :=
  self ← get_self;
  present ← pure_call (py_contains (_taskdict self) NDEX_PARAM);
  if negb present then mret JNull
  else pure_call (py_getitem (_taskdict self) NDEX_PARAM).

Definition get_network : M t (option string) :=
  self ← get_self;
  match _taskdir self with
  | None => mret None
  | Some taskdir =>
      let network_dfile := posixpath.join taskdir [NETWORK_DATA] in
      isfile ← os_path_isfile network_dfile;
      if negb isfile then mret None else mret (Some network_dfile)
  end.

(** the second definition of [get_ipaddress] in the class, which replaces
    the first (the one that reads the path) *)
Definition get_ipaddress : M t json :=
  self ← get_self; pure_call (py_getitem (_taskdict self) REMOTEIP_PARAM).

Definition get_bigim : M t json :=
  self ← get_self;
  present ← pure_call (py_contains (_taskdict self) COLUMN_PARAM);
  if negb present then mret JNull
  else pure_call (py_getitem (_taskdict self) COLUMN_PARAM).

(** [str] of the dict; the layout of the text is left out *)
Definition get_task_summary_as_str : M t taskattrib :=
  _get_uuid_ip_state_basedir_from_path.

End methods.

End FileBasedTask.

(** ** class [FileBasedSubmittedTaskFactory] *)

Module FileBasedSubmittedTaskFactory.

Record t := mk {
  _taskdir : string;
  _submitdir : option string;
  _problemlist : list string;
}.

Definition set_problemlist (problemlist : list string) : M t unit :=
  self ← get_self;
  put_self (mk (_taskdir self) (_submitdir self) problemlist).

Section methods.
Context `{K : NbgwasRest}.

(** [FileBasedSubmittedTaskFactory(taskdir)] *)
Definition new (taskdir : string) : t :=
  mk taskdir (Some (posixpath.join taskdir [SUBMITTED_STATUS])) [].

(** The body of the inner loop of [get_next_task] at [subfp]; [Some task]
    is its [return], [None] lets the loop go on. *)
Definition try_subentry (subfp : string) : M t (option FileBasedTask.t) :=
  let tjson := posixpath.join subfp [TASK_JSON] in
  isdir ← os_path_isdir subfp;
  if (isdir : bool) then
    isfile ← os_path_isfile tjson;
    if (isfile : bool) then
      try_except
        (jsondata ← json_load_file tjson;
         mret (Some (FileBasedTask.new (Some subfp) jsondata)))
        (λ e,
           self ← get_self;
           (if bool_decide (subfp ∈ _problemlist self) then mret tt
            else set_problemlist (_problemlist self ++ [subfp]));;
           mret None)
    else mret None
  else mret None.

Fixpoint scan_subentries (fp : string) (subentries : list string)
  : M t (option FileBasedTask.t) :=
  match subentries with
  | [] => mret None
  | subentry :: rest =>
      found ← try_subentry (posixpath.join fp [subentry]);
      match found with
      | Some task => mret (Some task)
      | None => scan_subentries fp rest
      end
  end.

Fixpoint scan_entries (submitdir : string) (entries : list string)
  : M t (option FileBasedTask.t) :=
  match entries with
  | [] => mret None
  | entry :: rest =>
      let fp := posixpath.join submitdir [entry] in
      isdir ← os_path_isdir fp;
      if negb isdir then scan_entries submitdir rest
      else
        subentries ← os_listdir fp;
        found ← scan_subentries fp subentries;
        match found with
        | Some task => mret (Some task)
        | None => scan_entries submitdir rest
        end
  end.

Definition get_next_task : M t (option FileBasedTask.t) :=
  self ← get_self;
  match _submitdir self with
  | None => emit (EvLogError "Submit directory is None");; mret None
  | Some submitdir =>
      isdir ← os_path_isdir submitdir;
      if negb isdir then
        emit (EvLogError (submitdir +:+ " does not exist or is not a directory"));;
        mret None
      else
        entries ← os_listdir submitdir;
        scan_entries submitdir entries
  end.

(** The body of the loop of [clean_up_problem_list]. *)
Definition clean_up_entry (entry : string) : M t unit :=
  let emsg := "Unknown error with task" in
  on (FileBasedTask.new (Some entry) (JObj ∅))
     (FileBasedTask.move_task ERROR_STATUS (Some emsg));;
  self ← get_self;
  match list_remove_first entry (_problemlist self) with
  | Some problemlist => set_problemlist problemlist
  | None => raise (ValueError "list.remove(x): x not in list")
  end.

Definition clean_up_problem_list : M t unit :=
  py_for _problemlist clean_up_entry.

Definition get_size_of_problem_list : M t Z :=
  self ← get_self; mret (Z.of_nat (length (_problemlist self))).

End methods.

End FileBasedSubmittedTaskFactory.

(** ** class [NbgwasTaskRunner] *)

Module NbgwasTaskRunner.

Record t := mk {
  _taskfactory : FileBasedSubmittedTaskFactory.t;
  _wait_time : Z;
  _ndex_server : string;
}.

Definition set_taskfactory (taskfactory : FileBasedSubmittedTaskFactory.t)
    (self : t) : t :=
  mk taskfactory (_wait_time self) (_ndex_server self).

(** [NbgwasTaskRunner(wait_time, taskfactory)] *)
Definition new (wait_time : Z) (taskfactory : FileBasedSubmittedTaskFactory.t) : t :=
  mk taskfactory wait_time "public.ndexbio.org".

Section methods.
Context `{K : NbgwasRest} `{E : External}.

(** The methods below that take a task run as methods of the task; the
    runner [self] is only read. *)

Definition _get_networkx_object_from_sif_file (sif_file : string)
  : M FileBasedTask.t (option Graph) :=
  isfile ← os_path_isfile sif_file;
  if negb isfile then mret None
  else
    f ← open_read sif_file;
    network ← pure_call (read_sif f);
    mret (Some network).

Definition _get_networkx_object_from_ndex (self : t) (ndex_id : json)
  : M FileBasedTask.t Graph :=
  pure_call (ndex_network (_ndex_server self) ndex_id).

Definition _get_networkx_object (self : t) : M FileBasedTask.t (option Graph) :=
  sif_file ← FileBasedTask.get_network;
  match sif_file with
  | Some sif_file => _get_networkx_object_from_sif_file sif_file
  | None =>
      ndex_id ← FileBasedTask.get_ndex;
      if negb (is_None ndex_id) then
        network ← _get_networkx_object_from_ndex self ndex_id;
        mret (Some network)
      else mret None
  end.

(** The body of the loop of [_get_seeds]; the object is the list
    [slist] the loop runs over. *)
Definition check_seed (networkx_obj : option Graph) (s : string)
  : M (list string) unit :=
  match networkx_obj with
  | None => raise (AttributeError "'NoneType' object has no attribute 'nodes'")
  | Some g =>
      if bool_decide (s ∈ nodes g) then mret tt
      else
        slist ← get_self;
        match list_remove_first s slist with
        | Some slist' => put_self slist'
        | None => raise (ValueError "list.remove(x): x not in list")
        end
  end.

Definition _get_seeds : M FileBasedTask.t (option (list string)) :=
  seeds ← FileBasedTask.get_seeds;
  match seeds with
  | JNull => mret None
  | JStr seeds =>
      let slist := str_split "," seeds in
      networkx_obj ← FileBasedTask.get_networkx_object;
      '(_, slist) ← on slist (py_for id (check_seed networkx_obj));
      if bool_decide (length slist = 0%nat) then
        emit (EvLogError "No seeds left after checking them againstnetwork");;
        mret None
      else mret (Some slist)
  | _ => raise (AttributeError "object has no attribute 'split'")
  end.

Definition _create_gene_level_summary
  : M FileBasedTask.t (option GeneLevelSummary) :=
  networkx_obj ← FileBasedTask.get_networkx_object;
  match networkx_obj with
  | None => raise (AttributeError "'NoneType' object has no attribute 'nodes'")
  | Some g =>
      let gls := (λ gene, (gene, 1)) <$> nodes g in
      seeds ← FileBasedTask.get_filtered_seed_list;
      match seeds with
      | None => raise (TypeError "only list-like objects are allowed to be passed to isin()")
      | Some seeds =>
          mret (Some ((λ row : string * Z,
                         if bool_decide (row.1 ∈ seeds) then (row.1, 0) else row)
                      <$> gls))
      end
  end.

Definition _run_nbgwas : M FileBasedTask.t json :=
  gls ← FileBasedTask.get_gene_level_summary;
  network ← FileBasedTask.get_networkx_object;
  g ← pure_call (nbgwas_heat gls network);
  alpha ← FileBasedTask.get_alpha;
  pure_call (nbgwas_diffuse g alpha).

Definition _process_task (self : t) : M FileBasedTask.t unit :=
  taskdir ← FileBasedTask.get_taskdir;
  match taskdir with
  | None => raise (TypeError "must be str, not NoneType")
  | Some _ =>
  FileBasedTask.move_task PROCESSING_STATUS None;;
  n_obj ← _get_networkx_object self;
  match n_obj with
  | None =>
      let emsg := "Unable to get networkx object for task" in
      emit (EvLogError emsg);;
      FileBasedTask.move_task ERROR_STATUS (Some emsg);;
      mret tt
  | Some _ =>
  FileBasedTask.set_networkx_object n_obj;;
  seed_list ← _get_seeds;
  if match seed_list with
     | None => true
     | Some l => bool_decide (length l = 0%nat)
     end
  then
    let emsg := "No seeds are in network" in
    emit (EvLogError emsg);;
    FileBasedTask.move_task ERROR_STATUS (Some emsg);;
    mret tt
  else
  FileBasedTask.set_filtered_seed_list seed_list;;
  gls ← _create_gene_level_summary;
  match gls with
  | None =>
      let emsg := "Unable to create gene level summary" in
      emit (EvLogError emsg);;
      FileBasedTask.move_task ERROR_STATUS (Some emsg);;
      mret tt
  | Some _ =>
  FileBasedTask.set_gene_level_summary gls;;
  result ← _run_nbgwas;
  if is_None result then
    let emsg := "No result generated" in
    emit (EvLogError emsg);;
    FileBasedTask.move_task ERROR_STATUS (Some emsg);;
    mret tt
  else
  FileBasedTask.set_result_data result;;
  FileBasedTask.save_task;;
  FileBasedTask.move_task DONE_STATUS None;;
  mret tt
  end end end.

(** The [except Exception as e] clause of [run_tasks], run on the task. *)
Definition skip_task (e : exn) : M FileBasedTask.t unit :=
  taskdir ← FileBasedTask.get_taskdir;
  match taskdir with
  | None => raise (TypeError "must be str, not NoneType")
  | Some taskdir =>
      let emsg := "Caught exception processing task: " +:+ taskdir +:+
                  " : " +:+ str_exn e in
      emit (EvLogError ("Skipping task cause - " +:+ emsg));;
      FileBasedTask.move_task ERROR_STATUS (Some emsg);;
      mret tt
  end.

Definition on_taskfactory {A} (m : M FileBasedSubmittedTaskFactory.t A) : M t A :=
  on_field _taskfactory set_taskfactory m.

(** One round of the [while True] of [run_tasks]; the local
    [cleanupcounter] goes in and comes out. *)
Definition run_tasks_round (cleanupcounter : Z) : M t Z :=
  task ← on_taskfactory FileBasedSubmittedTaskFactory.get_next_task;
  match task with
  | None =>
      size ← on_taskfactory FileBasedSubmittedTaskFactory.get_size_of_problem_list;
      self ← get_self;
      if bool_decide (size > 0) then
        let cleanupcounter := cleanupcounter + 1 in
        if bool_decide (cleanupcounter >= 3) then
          on_taskfactory FileBasedSubmittedTaskFactory.clean_up_problem_list;;
          mret 0
        else
          time_sleep (_wait_time self);;
          mret cleanupcounter
      else
        time_sleep (_wait_time self);;
        mret cleanupcounter
  | Some task =>
      self ← get_self;
      on task (try_except (_process_task self) skip_task);;
      mret cleanupcounter
  end.

(** The first [rounds] rounds of [run_tasks]; the loop itself has no
    exit but an exception. *)
Fixpoint run_tasks_from (rounds : nat) (cleanupcounter : Z) : M t unit :=
  match rounds with
  | O => mret tt
  | S rounds' =>
      cleanupcounter ← run_tasks_round cleanupcounter;
      run_tasks_from rounds' cleanupcounter
  end.

Definition run_tasks (rounds : nat) : M t unit := run_tasks_from rounds 0.

End methods.

End NbgwasTaskRunner.


(** ** Vocabulary of the statements *)

(** The four parts [_get_uuid_ip_state_basedir_from_path] reads off a task
    directory [{base}/{state}/{client}/{uuid}]. *)
Definition uuid_of_path (taskdir : string) : string :=
  posixpath.basename taskdir.
Definition ipaddr_of_path (taskdir : string) : string :=
  posixpath.basename (posixpath.dirname taskdir).
Definition state_of_path (taskdir : string) : string :=
  posixpath.basename (posixpath.dirname (posixpath.dirname taskdir)).
Definition basedir_of_path (taskdir : string) : string :=
  posixpath.dirname (posixpath.dirname (posixpath.dirname taskdir)).

(** Where [move_task] sends the task at [taskdir] for [new_state]. *)
Definition path_in_state (taskdir new_state : string) : string :=
  posixpath.join (basedir_of_path taskdir)
    [new_state; ipaddr_of_path taskdir; uuid_of_path taskdir].

(** The events of a run from world [w] to world [w']. *)
Definition events_of (w w' : World) (evs : list event) : Prop :=
  trace w' = trace w ++ evs.

(** What [save_task] writes for a task in [taskdir]: the record, then the
    result when there is one. *)
Definition save_events `{K : NbgwasRest} (taskdir : string) (task : FileBasedTask.t)
  : list event :=
  EvWrite (posixpath.join taskdir [TASK_JSON])
          (JsonText (FileBasedTask._taskdict task)) ::
  if is_None (FileBasedTask._resultdata task) then []
  else [EvWrite (posixpath.join taskdir [RESULT])
                (JsonText (FileBasedTask._resultdata task))].

(** A name a directory entry can bear: not empty, no separator. *)
Definition valid_name (n : string) : bool :=
  negb (bool_decide (n = EmptyString)) && negb (posixpath.has_sep n).

(** Every entry of every directory of the tree bears such a name. *)
Fixpoint valid_names (n : node) : bool :=
  match n with
  | File _ => true
  | Dir es => forallb (λ e, valid_name e.1 && valid_names e.2) es
  end.

(** The state directories are names, and four different ones. *)
Definition states_distinct `{K : NbgwasRest} : Prop :=
  valid_name SUBMITTED_STATUS = true ∧
  valid_name PROCESSING_STATUS = true ∧
  valid_name DONE_STATUS = true ∧
  NoDup [SUBMITTED_STATUS; PROCESSING_STATUS; DONE_STATUS; ERROR_STATUS].

(** A move of a task directory that goes forward along
    submitted, processing, done, and keeps the client and the uuid. *)
Definition advances `{K : NbgwasRest} (src dst : string) : Prop :=
  (state_of_path src, state_of_path dst) ∈
    [(SUBMITTED_STATUS, PROCESSING_STATUS);
     (SUBMITTED_STATUS, DONE_STATUS);
     (PROCESSING_STATUS, DONE_STATUS)] ∧
  ipaddr_of_path dst = ipaddr_of_path src ∧
  uuid_of_path dst = uuid_of_path src.

(** [m], run from a state in [P], ends in a state in [Q], whether it
    returns or raises. *)
Definition triple {O A} (P : World * O → Prop) (m : M O A)
    (Q : outcome A → World * O → Prop) : Prop :=
  ∀ s, P s → Q (m s).1 (m s).2.

(** [m] keeps the invariant [I], whether it returns or raises. *)
Definition keeps {O A} (I : World * O → Prop) (m : M O A) : Prop :=
  triple I m (λ _, I).

(** The events after the first [n] of the trace all satisfy [ok]. *)
Definition events_from {O} (n : nat) (ok : event → Prop) (s : World * O) : Prop :=
  Forall ok (drop n (trace s.1)).

(** The error record of the summary stage is not among the events. *)
Definition no_summary_error (e : event) : Prop :=
  e ≠ EvLogError "Unable to create gene level summary".

(** ** The scenarios of the spec

    One task [abc] of client [10.0.0.1] under [/base/submitted], with the
    network of the edges G1-G2 and G2-G3. *)

Definition scenario_graph : Graph :=
  mkGraph ["G1"; "G2"; "G3"] [("G1", "G2"); ("G2", "G3")].

Definition scenario_record (seeds : string) : json :=
  JObj {[ "alpha" := JNum "0.1"; "seeds" := JStr seeds ]}.

Definition scenario_scores : json :=
  JObj {[ "G1" := JNum "0.0"; "G2" := JNum "0.0"; "G3" := JNum "0.0" ]}.

(** Collaborators that read the network of the scenario from any file and
    give every gene a score. *)
Definition scenario_external : External := {|
  heat := unit;
  read_sif := λ _, Return scenario_graph;
  ndex_network := λ _ _, Raise (ExternalError "no such network");
  nbgwas_heat := λ _ _, Return tt;
  nbgwas_diffuse := λ _ _, Return scenario_scores;
|}.

Definition scenario_tree (tasks : list (string * node)) : node :=
  Dir [("base", Dir [("submitted", Dir [("10.0.0.1", Dir tasks)])])].

Definition scenario_world (tasks : list (string * node)) : World :=
  mkWorld (scenario_tree tasks) [].

Definition scenario_network : string * node :=
  ("network.dat", File (RawText "G1	G2	1.0")).

Definition scenario_factory : FileBasedSubmittedTaskFactory.t :=
  FileBasedSubmittedTaskFactory.new (K:=nbgwas_rest) "/base".

Definition scenario_runner : NbgwasTaskRunner.t :=
  NbgwasTaskRunner.new 30 scenario_factory.

(** The task of the scenario, as a task record in the directory of [state]. *)
Definition scenario_task (state : string) (record : json) : FileBasedTask.t :=
  FileBasedTask.new (Some ("/base/" +:+ state +:+ "/10.0.0.1/abc")) record.

(** ** What [get_next_task] looks at *)

(** What the scan finds at a candidate path. *)
Inductive record_status : Type :=
  | NotADirectory            (* the path is no directory *)
  | NoRecord                 (* a directory without a record file *)
  | Broken                   (* the record file cannot be read or parsed *)
  | Readable (jsondata : json).

Definition record_status_of `{K : NbgwasRest} (root : node) (subfp : string)
  : record_status :=
  if FS.isdir root subfp then
    match FS.resolve (FS.components (posixpath.join subfp [TASK_JSON])) root with
    | Some (File (JsonText jsondata)) => Readable jsondata
    | Some (File _) => Broken
    | _ => NoRecord
    end
  else NotADirectory.

(** [os.listdir p], empty when [p] is no directory *)
Definition listing (root : node) (p : string) : list string :=
  match FS.resolve (FS.components p) root with
  | Some (Dir es) => es.*1
  | _ => []
  end.

(** The paths the two loops of [get_next_task] come by, in their order:
    the entries of the directories of [submitdir]. *)
Definition candidates (root : node) (submitdir : string) : list string :=
  entry ← listing root submitdir;
  let fp := posixpath.join submitdir [entry] in
  if FS.isdir root fp then (λ subentry, posixpath.join fp [subentry]) <$> listing root fp
  else [].

(** [if subfp not in problemlist: problemlist.append(subfp)] *)
Definition quarantine (problemlist : list string) (subfp : string) : list string :=
  if bool_decide (subfp ∈ problemlist) then problemlist else problemlist ++ [subfp].

(** The scan over the candidates: the task it returns, and the problem list
    it leaves. *)
Fixpoint scan `{K : NbgwasRest} (root : node) (problemlist : list string)
    (cands : list string) : option FileBasedTask.t * list string :=
  match cands with
  | [] => (None, problemlist)
  | subfp :: rest =>
      match record_status_of root subfp with
      | Readable jsondata => (Some (FileBasedTask.new (Some subfp) jsondata), problemlist)
      | Broken => scan root (quarantine problemlist subfp) rest
      | _ => scan root problemlist rest
      end
  end.

(** A candidate whose record file can be read. *)
Definition readable `{K : NbgwasRest} (root : node) (subfp : string) : Prop :=
  ∃ jsondata, record_status_of root subfp = Readable jsondata.

(** The factory [f] with [problemlist] as its problem list. *)
Definition with_problemlist (f : FileBasedSubmittedTaskFactory.t)
    (problemlist : list string) : FileBasedSubmittedTaskFactory.t :=
  FileBasedSubmittedTaskFactory.mk (FileBasedSubmittedTaskFactory._taskdir f)
    (FileBasedSubmittedTaskFactory._submitdir f) problemlist.

(** ** What the runner keeps *)

(** An event that moves no task backward: a move that advances, or an
    event that is no move. *)
Definition forward_move `{K : NbgwasRest} (e : event) : Prop :=
  match e with
  | EvMove src dst => advances src dst
  | _ => True
  end.

(** The world is sound after its first [n] events: none of the later ones
    moves a task backward, and the files bear valid names. *)
Definition sound_world `{K : NbgwasRest} (n : nat) (w : World) : Prop :=
  Forall forward_move (drop n (trace w)) ∧ valid_names (fs w) = true.

(** A sound world, and an object that satisfies [φ]. *)
Definition inv `{K : NbgwasRest} {O} (n : nat) (φ : O → Prop) (s : World * O)
  : Prop :=
  sound_world n s.1 ∧ φ s.2.

(** The task has a directory of a client, in one of the states [sts]. *)
Definition in_states (sts : list string) (task : FileBasedTask.t) : Prop :=
  ∃ taskdir,
    FileBasedTask._taskdir task = Some taskdir ∧
    ipaddr_of_path taskdir ≠ EmptyString ∧
    state_of_path taskdir ∈ sts.

(** The directory of a submitted task of a client. *)
Definition submitted_path `{K : NbgwasRest} (p : string) : Prop :=
  state_of_path p = SUBMITTED_STATUS ∧ ipaddr_of_path p ≠ EmptyString.

(** The factory looks into the directory of the submitted tasks, and its
    problem list holds directories of submitted tasks. *)
Definition factory_ok `{K : NbgwasRest} (f : FileBasedSubmittedTaskFactory.t)
  : Prop :=
  FileBasedSubmittedTaskFactory._submitdir f =
    Some (posixpath.join (FileBasedSubmittedTaskFactory._taskdir f)
            [SUBMITTED_STATUS]) ∧
  Forall submitted_path (FileBasedSubmittedTaskFactory._problemlist f).

Definition runner_ok `{K : NbgwasRest} (runner : NbgwasTaskRunner.t) : Prop :=
  factory_ok (NbgwasTaskRunner._taskfactory runner).

(** How [_process_task] ends: it returns in a sound world, or it raises
    with the task still in [submitted] or in [processing]. *)
Definition processed `{K : NbgwasRest} (n : nat) (r : outcome unit)
    (s : World * FileBasedTask.t) : Prop :=
  match r with
  | Return _ => inv n (λ _, True) s
  | Raise _ => inv n (in_states [SUBMITTED_STATUS; PROCESSING_STATUS]) s
  end.

(** What [get_next_task] returns is a submitted task. *)
Definition fetched `{K : NbgwasRest} (n : nat)
    (r : outcome (option FileBasedTask.t))
    (s : World * FileBasedSubmittedTaskFactory.t) : Prop :=
  inv n factory_ok s ∧
  ∀ task, r = Return (Some task) → in_states [SUBMITTED_STATUS] task.

(** ** What a loop that removes from its list leaves

    [for x in l: if not keep(x): l.remove(x)], on a list without
    duplicates: the removal moves the next item to the index the iterator
    has just left, so that item is passed over, unchecked. *)
Fixpoint py_remove_loop (keep : string → bool) (l : list string) : list string :=
  match l with
  | [] => []
  | x :: l' =>
      if keep x then x :: py_remove_loop keep l'
      else match l' with
           | [] => []
           | y :: l'' => y :: py_remove_loop keep l''
           end
  end.

(** a path beside [src] and [dst]: none of the three is the start of
    another *)
Definition beside (cs src dst : list string) : Prop :=
  ¬ cs `prefix_of` src ∧ ¬ src `prefix_of` cs ∧
  ¬ cs `prefix_of` dst ∧ ¬ dst `prefix_of` cs.



Fixpoint py_skipped {A} (l : list A) : list A :=
  match l with
  | [] => []
  | _ :: l' => match l' with [] => [] | y :: l'' => y :: py_skipped l'' end
  end.





(** * Properties *)

(** ** Running the monad *)

Lemma run_bind {O A B} (m : M O A) (f : A → M O B) (s : World * O) :
  (m ≫= f) s =
  match m s with
  | (Return a, s') => f a s'
  | (Raise e, s') => (Raise e, s')
  end.
Proof. reflexivity. Qed.

Lemma run_ret {O A} (a : A) (s : World * O) : (mret a : M O A) s = (Return a, s).
Proof. reflexivity. Qed.

Ltac run :=
  cbv [mbind M_bind mret M_ret get_fs put_fs emit pure_call get_self put_self
       raise];
  cbn [fst snd fs trace].

Section task_methods.
Context `{K : NbgwasRest}.

Lemma json_dump_file_run {O} (p : string) (j : json) (w : World) (o : O) :
  json_dump_file p j (w, o) =
  match FS.write (fs w) p (JsonText j) with
  | Return root' => (Return tt, (mkWorld root' (trace w ++ [EvWrite p (JsonText j)]), o))
  | Raise e => (Raise e, (mkWorld (fs w) (trace w ++ [EvWrite p (JsonText j)]), o))
  end.
Proof.
  unfold json_dump_file. run.
  destruct (FS.write (fs w) p (JsonText j)); reflexivity.
Qed.

Lemma shutil_move_events {O} (src dst : string) (w w' : World) (o o' : O) r :
  shutil_move src dst (w, o) = (r, (w', o')) →
  o' = o ∧ events_of w w' [EvMove src dst].
Proof.
  unfold shutil_move, events_of. run.
  repeat (match goal with
          | |- context [if ?b then _ else _] => destruct b
          | |- context [match ?x with _ => _ end] => destruct x
          end; cbn);
  intros [= <- <- <-]; auto.
Qed.

Lemma attrib_run (w : World) (task : FileBasedTask.t) (taskdir : string) :
  FileBasedTask._taskdir task = Some taskdir →
  FileBasedTask._get_uuid_ip_state_basedir_from_path (w, task) =
  (Return (FileBasedTask.mkattrib (Some (basedir_of_path taskdir))
             (Some (state_of_path taskdir)) (Some (ipaddr_of_path taskdir))
             (Some (uuid_of_path taskdir))), (w, task)).
Proof.
  intros H. unfold FileBasedTask._get_uuid_ip_state_basedir_from_path.
  run. rewrite H. reflexivity.
Qed.

(** C5: [move_task] with the state the task directory already encodes
    returns [None] and leaves the world (files and trace) and the task
    (directory and record) as they were. *)
Theorem move_task_same_state (w : World) (task : FileBasedTask.t)
    (taskdir new_state : string) (error_message : option string) :
  FileBasedTask._taskdir task = Some taskdir →
  state_of_path taskdir = new_state →
  FileBasedTask.move_task new_state error_message (w, task) = (Return None, (w, task)).
Proof.
  intros Hdir Hstate. unfold FileBasedTask.move_task.
  rewrite run_bind, (attrib_run _ _ _ Hdir). cbn [FileBasedTask.basedir FileBasedTask.state].
  rewrite Hstate. destruct (decide (Some new_state = Some new_state)); [reflexivity | congruence].
Qed.

Lemma save_task_events (w w' : World) (task task' : FileBasedTask.t)
    (taskdir : string) r :
  FileBasedTask._taskdir task = Some taskdir →
  FileBasedTask.save_task (w, task) = (r, (w', task')) →
  task' = task ∧
  ∃ evs, events_of w w' evs ∧ evs ≠ [] ∧
         evs `prefix_of` save_events taskdir task ∧
         (∀ x, r = Return x → x = None ∧ evs = save_events taskdir task).
Proof.
  intros Hdir. unfold FileBasedTask.save_task, save_events, events_of.
  run. rewrite Hdir, json_dump_file_run.
  destruct (FS.write (fs w) _ _) as [root1|e1]; cbn [trace].
  - destruct (is_None (FileBasedTask._resultdata task)); cbn [negb].
    + intros [= <- <- <-]. split; [reflexivity|].
      eexists; split; [reflexivity|]. split; [discriminate|].
      split; [reflexivity|]. by intros x [= <-].
    + rewrite json_dump_file_run. cbn [fs trace].
      destruct (FS.write root1 _ _) as [root2|e2];
        intros [= <- <- <-]; (split; [reflexivity|]);
        eexists; (split; [rewrite <- app_assoc; reflexivity|]);
        (split; [discriminate|]); (split; [reflexivity|]);
        intros x [= <-]; auto.
  - intros [= <- <- <-]. split; [reflexivity|].
    eexists; split; [reflexivity|]. split; [discriminate|].
    split; [by eexists|]. discriminate.
Qed.

(** The events of [move_task] to [ERROR_STATUS] on a task whose record is
    a mapping, whether the call returns or raises: the message ([None]
    becomes ["Unknown error"]) is stored in the record, the write of the
    record in the current directory comes first and the move to
    [{base}/DONE_STATUS/{client}/{uuid}] last; an exception of the file
    system cuts the sequence short and leaves the task where it was. *)
Lemma move_task_error_events (w w' : World)
    (task task' : FileBasedTask.t) (taskdir : string)
    (fields : gmap string json) (error_message : option string) r :
  FileBasedTask._taskdir task = Some taskdir →
  FileBasedTask._taskdict task = JObj fields →
  state_of_path taskdir ≠ ERROR_STATUS →
  FileBasedTask.move_task ERROR_STATUS error_message (w, task) = (r, (w', task')) →
  let emsg := default "Unknown error" error_message in
  let done := path_in_state taskdir DONE_STATUS in
  FileBasedTask._taskdict task' = JObj (<[ERROR_PARAM := JStr emsg]> fields) ∧
  ∃ evs,
    events_of w w' evs ∧
    head evs = Some (EvWrite (posixpath.join taskdir [TASK_JSON])
                       (JsonText (JObj (<[ERROR_PARAM := JStr emsg]> fields)))) ∧
    evs `prefix_of` save_events taskdir task' ++ [EvMove taskdir done] ∧
    match r with
    | Return x =>
        x = None ∧ evs = save_events taskdir task' ++ [EvMove taskdir done] ∧
        FileBasedTask._taskdir task' = Some done
    | Raise _ => FileBasedTask._taskdir task' = Some taskdir
    end.
Proof.
  intros Hdir Hdict Hstate. unfold FileBasedTask.move_task.
  rewrite run_bind, (attrib_run _ _ _ Hdir).
  cbn [FileBasedTask.basedir FileBasedTask.state FileBasedTask.ipaddr
       FileBasedTask.uuid].
  destruct (decide (Some (state_of_path taskdir) = Some ERROR_STATUS)) as [[=]|_];
    [done|].
  destruct (decide (ERROR_STATUS = ERROR_STATUS)) as [_|]; [|done].
  unfold FileBasedTask.set_taskdict, FileBasedTask.join_attrib,
    FileBasedTask.set_taskdir.
  run. rewrite Hdict. cbn [py_setitem FileBasedTask._taskdir
    FileBasedTask._taskdict FileBasedTask._networkx_obj
    FileBasedTask._genelevelsummary FileBasedTask._filteredseedlist
    FileBasedTask._resultdata].
  set (task1 := FileBasedTask.mk _ _ _ _ _ _).
  destruct (FileBasedTask.save_task (w, task1)) as [r1 [w1 t1]] eqn:Hsave.
  apply (save_task_events _ _ _ _ taskdir) in Hsave as (-> & evs & Hev & Hne & Hpre & Hret);
    [|by subst task1; cbn; rewrite Hdir].
  destruct r1 as [x|e].
  - destruct (Hret x eq_refl) as [-> ->].
    subst task1. cbn [fst snd FileBasedTask._taskdir]. rewrite Hdir.
    cbn [fst snd FileBasedTask._taskdir].
    match goal with
    | |- context [shutil_move ?a ?b ?s] =>
        destruct (shutil_move a b s) as [r2 [w2 t2]] eqn:Hmove
    end.
    apply shutil_move_events in Hmove as [-> Hev2].
    unfold events_of in *.
    destruct r2; intros [= <- <- <-]; cbn;
      (split; [reflexivity|]); eexists;
      (split; [rewrite Hev2, Hev, <- app_assoc; reflexivity|]);
      (split; [reflexivity|]); (split; [reflexivity|]); auto.
  - intros [= <- <- <-]. split; [reflexivity|].
    exists evs. split; [exact Hev|]. split.
    + destruct Hpre as [k Hk]. destruct evs as [|ev evs']; [done|].
      injection Hk as <- _. reflexivity.
    + split; [by apply prefix_app_r|]. subst task1. cbn. exact Hdir.
Qed.

End task_methods.

(** ** Paths *)

Module path_facts.
Import posixpath.

Lemma append_nil_l (s : string) : EmptyString +:+ s = s.
Proof. reflexivity. Qed.

Lemma append_cons (c : ascii) (a s : string) :
  String c a +:+ s = String c (a +:+ s).
Proof. reflexivity. Qed.

Lemma rsplit_sep_free (n : string) :
  has_sep n = false → rsplit_sep n = (EmptyString, n).
Proof.
  induction n as [|c n IH]; [reflexivity|]. cbn [has_sep rsplit_sep].
  intros [Hc Hn]%orb_false_iff. rewrite (IH Hn), Hc. reflexivity.
Qed.

Lemma rsplit_sep_app (a n : string) :
  has_sep n = false →
  rsplit_sep (a +:+ String sep n) = (a +:+ String sep EmptyString, n).
Proof.
  intros Hn. induction a as [|c a IH].
  - rewrite !append_nil_l. cbn [rsplit_sep].
    rewrite (rsplit_sep_free n Hn), Ascii.eqb_refl. reflexivity.
  - rewrite !append_cons. cbn [rsplit_sep]. rewrite IH.
    destruct a; reflexivity.
Qed.

Lemma endswith_sep_app (p : string) :
  endswith_sep p = true → ∃ a, p = a +:+ String sep EmptyString.
Proof.
  induction p as [|c p IH]; [discriminate|].
  destruct p as [|c' p'].
  - cbn [endswith_sep]. intros ->%Ascii.eqb_eq. by exists EmptyString.
  - intros [a Ha]%IH. exists (String c a). by rewrite append_cons, Ha.
Qed.

Lemma app_assoc_sep (a n : string) :
  (a +:+ String sep EmptyString) +:+ n = a +:+ String sep n.
Proof.
  induction a as [|c a IH]; [reflexivity|].
  by rewrite !append_cons, IH.
Qed.

Lemma startswith_sep_free (n : string) :
  has_sep n = false → startswith_sep n = false.
Proof. destruct n; cbn [has_sep startswith_sep]; [done|]. by intros [? ?]%orb_false_iff. Qed.

(** [join2] puts a separator-free name after the last separator *)
Lemma join2_shape (path n : string) :
  has_sep n = false →
  join2 path n = n ∨ ∃ a, join2 path n = a +:+ String sep n.
Proof.
  intros Hn. unfold join2. rewrite (startswith_sep_free n Hn).
  destruct path as [|c path]; [by left|]. right.
  remember (String c path) as p eqn:Hp. clear Hp.
  destruct (endswith_sep p) eqn:He.
  - apply endswith_sep_app in He as [a Ha]. exists a.
    rewrite Ha. apply app_assoc_sep.
  - by exists p.
Qed.

Lemma basename_join2 (path n : string) :
  has_sep n = false → basename (join2 path n) = n.
Proof.
  intros Hn. unfold basename.
  destruct (join2_shape path n Hn) as [->|[a ->]].
  - by rewrite rsplit_sep_free.
  - by rewrite rsplit_sep_app.
Qed.

Lemma all_sep_app_false (p : string) :
  p ≠ EmptyString → endswith_sep p = false →
  all_sep (p +:+ String sep EmptyString) = false.
Proof.
  induction p as [|c p IH]; [done|]. intros _.
  rewrite append_cons. cbn [all_sep].
  destruct p as [|c' p'].
  - cbn [endswith_sep]. intros ->. reflexivity.
  - intros He. rewrite (IH ltac:(done) He). apply andb_false_r.
Qed.

Lemma rstrip_sep_app (p : string) :
  p ≠ EmptyString → endswith_sep p = false →
  rstrip_sep (p +:+ String sep EmptyString) = p.
Proof.
  induction p as [|c p IH]; [done|]. intros _.
  rewrite append_cons. cbn [rstrip_sep].
  destruct p as [|c' p'].
  - cbn [endswith_sep]. intros ->. rewrite append_nil_l. cbn [rstrip_sep].
    rewrite Ascii.eqb_refl. reflexivity.
  - intros He. rewrite (IH ltac:(done) He). reflexivity.
Qed.

Lemma dirname_join2 (path n : string) :
  has_sep n = false → path ≠ EmptyString → endswith_sep path = false →
  dirname (join2 path n) = path.
Proof.
  intros Hn Hne He. unfold join2, dirname.
  rewrite (startswith_sep_free n Hn), He.
  destruct path as [|c path]; [done|].
  change (String c path +:+ "/" +:+ n) with (String c path +:+ String sep n).
  rewrite rsplit_sep_app by done. cbn [fst].
  rewrite all_sep_app_false, rstrip_sep_app by done.
  rewrite append_cons. reflexivity.
Qed.

Lemma endswith_sep_name (n : string) :
  has_sep n = false → endswith_sep n = false.
Proof.
  induction n as [|c n IH]; [done|]. cbn [has_sep endswith_sep].
  intros [Hc Hn]%orb_false_iff. destruct n; [done | by apply IH].
Qed.

Lemma endswith_sep_app_name (a n : string) :
  n ≠ EmptyString → has_sep n = false → endswith_sep (a +:+ n) = false.
Proof.
  intros Hne Hn. induction a as [|c a IH].
  - by apply endswith_sep_name.
  - rewrite append_cons. cbn [endswith_sep].
    destruct (a +:+ n) eqn:E; [|exact IH].
    destruct a, n; done.
Qed.

Lemma join2_proper (path n : string) :
  n ≠ EmptyString → has_sep n = false →
  join2 path n ≠ EmptyString ∧ endswith_sep (join2 path n) = false.
Proof.
  intros Hne Hn. split.
  - unfold join2. rewrite (startswith_sep_free n Hn).
    destruct path; [done|]. by destruct (endswith_sep _).
  - destruct (join2_shape path n Hn) as [->|[a ->]].
    + by apply endswith_sep_name.
    + rewrite <- (app_assoc_sep a n).
      by apply endswith_sep_app_name.
Qed.

Lemma has_sep_basename (p : string) : has_sep (basename p) = false.
Proof.
  unfold basename. induction p as [|c p IH]; [reflexivity|].
  cbn [rsplit_sep]. destruct (rsplit_sep p) as [h t]. cbn [snd] in *.
  destruct h; [|exact IH].
  destruct (Ascii.eqb c sep) eqn:E; [exact IH|]. cbn [snd has_sep]. by rewrite E.
Qed.

Lemma valid_name_spec (n : string) :
  valid_name n = true ↔ n ≠ EmptyString ∧ has_sep n = false.
Proof.
  unfold valid_name. rewrite andb_true_iff, !negb_true_iff, bool_decide_eq_false.
  reflexivity.
Qed.

(** A path of three names under a base reads back as these names. *)
Lemma parse_join3 (base st ip id : string) :
  valid_name st = true → valid_name ip = true → has_sep id = false →
  let p := join base [st; ip; id] in
  state_of_path p = st ∧ ipaddr_of_path p = ip ∧ uuid_of_path p = id.
Proof.
  intros [Hst1 Hst2]%valid_name_spec [Hip1 Hip2]%valid_name_spec Hid.
  unfold state_of_path, ipaddr_of_path, uuid_of_path, join. cbn [foldl].
  destruct (join2_proper base st Hst1 Hst2) as [? ?].
  destruct (join2_proper (join2 base st) ip Hip1 Hip2) as [? ?].
  rewrite !dirname_join2, !basename_join2 by done. done.
Qed.

Lemma path_in_state_parse (taskdir st : string) :
  valid_name st = true → ipaddr_of_path taskdir ≠ EmptyString →
  state_of_path (path_in_state taskdir st) = st ∧
  ipaddr_of_path (path_in_state taskdir st) = ipaddr_of_path taskdir ∧
  uuid_of_path (path_in_state taskdir st) = uuid_of_path taskdir.
Proof.
  intros Hst Hip. apply parse_join3; [done| |apply has_sep_basename].
  apply valid_name_spec. split; [done|apply has_sep_basename].
Qed.

End path_facts.

(** ** The file system keeps its names valid *)

Module FS_facts.
Import FS.

Lemma valid_names_dir (es : list (string * node)) :
  valid_names (Dir es) = true ↔
  Forall (λ e, valid_name e.1 = true ∧ valid_names e.2 = true) es.
Proof.
  cbn [valid_names]. rewrite forallb_forall, Forall_forall.
  split; intros H e He.
  - apply andb_true_iff, H. by apply list_elem_of_In.
  - apply andb_true_iff, H. by apply list_elem_of_In.
Qed.

Lemma entry_lookup_elem (name : string) (es : list (string * node)) (n : node) :
  entry_lookup name es = Some n → (name, n) ∈ es.
Proof.
  induction es as [|[k m] es IH]; [done|]. cbn [entry_lookup].
  destruct (decide (k = name)) as [->|_].
  - intros [= ->]. left.
  - intros H. right. by apply IH.
Qed.

Lemma entry_set_forall (P : string * node → Prop) name n es :
  P (name, n) → Forall P es → Forall P (entry_set name n es).
Proof.
  intros Hn. induction 1 as [|[k m] es Hk Hes IH]; cbn [entry_set].
  - by constructor.
  - destruct (decide (k = name)) as [->|_]; by constructor.
Qed.

Lemma entry_delete_forall (P : string * node → Prop) name es :
  Forall P es → Forall P (entry_delete name es).
Proof.
  induction 1 as [|[k m] es Hk Hes IH]; cbn [entry_delete]; [done|].
  destruct (decide (k = name)); [done | by constructor].
Qed.

Lemma valid_names_entry name es n :
  valid_names (Dir es) = true → entry_lookup name es = Some n →
  valid_name name = true ∧ valid_names n = true.
Proof.
  rewrite valid_names_dir, Forall_forall. intros H Hl.
  exact (H _ (entry_lookup_elem _ _ _ Hl)).
Qed.

Lemma valid_names_resolve (cs : list string) (n m : node) :
  valid_names n = true → resolve cs n = Some m → valid_names m = true.
Proof.
  revert n. induction cs as [|c cs IH]; intros n Hn; cbn [resolve].
  - by intros [= <-].
  - destruct n as [|es]; [done|].
    destruct (entry_lookup c es) as [child|] eqn:Hl; [|done].
    apply IH. by eapply valid_names_entry.
Qed.

Lemma valid_names_graft (parents : bool) (cs : list string) (new n n' : node) :
  Forall (λ c, valid_name c = true) cs →
  valid_names new = true → valid_names n = true →
  graft parents cs new n = Some n' → valid_names n' = true.
Proof.
  intros Hcs Hnew. revert n n'.
  induction Hcs as [|c cs Hc Hcs IH]; intros n n' Hn; cbn [graft].
  - by intros [= <-].
  - destruct n as [|es]; [done|].
    destruct (entry_lookup c es) as [child|] eqn:Hl.
    + destruct (graft parents cs new child) as [child'|] eqn:Hg; [|done].
      cbn. intros [= <-]. apply valid_names_dir, entry_set_forall.
      * split; [done|]. eapply IH; [|done]. by eapply valid_names_entry.
      * by apply valid_names_dir.
    + destruct cs as [|c' cs'].
      * intros [= <-]. apply valid_names_dir, entry_set_forall; [done|].
        by apply valid_names_dir.
      * destruct parents; [|done].
        destruct (graft true (c' :: cs') new (Dir [])) as [child'|] eqn:Hg; [|done].
        cbn. intros [= <-]. apply valid_names_dir, entry_set_forall.
        -- split; [done|]. eapply IH; [|exact Hg]. reflexivity.
        -- by apply valid_names_dir.
Qed.

Lemma valid_names_prune (cs : list string) (n n' : node) :
  valid_names n = true → prune cs n = Some n' → valid_names n' = true.
Proof.
  revert n n'. induction cs as [|c cs IH]; intros n n' Hn; cbn [prune]; [done|].
  destruct n as [|es]; [done|].
  destruct (entry_lookup c es) as [child|] eqn:Hl; [|done].
  destruct cs as [|c' cs'].
  - intros [= <-]. apply valid_names_dir, entry_delete_forall.
    by apply valid_names_dir.
  - destruct (prune (c' :: cs') child) as [child'|] eqn:Hp; [|done].
    cbn. intros [= <-].
    destruct (valid_names_entry _ _ _ Hn Hl) as [Hc Hchild].
    apply valid_names_dir, entry_set_forall.
    + split; [done|]. by eapply IH.
    + by apply valid_names_dir.
Qed.

Lemma str_split_sep_free (s : string) :
  Forall (λ c, posixpath.has_sep c = false) (str_split posixpath.sep s).
Proof.
  induction s as [|c s IH]; cbn [str_split].
  - by constructor.
  - destruct (Ascii.eqb c posixpath.sep) eqn:E.
    + by constructor.
    + destruct (str_split posixpath.sep s) as [|h t].
      * constructor; [|done]. cbn. by rewrite E.
      * inversion IH; subst. constructor; [|done]. cbn. by rewrite E.
Qed.

Lemma components_valid (p : string) :
  Forall (λ c, valid_name c = true) (components p).
Proof.
  unfold components. apply Forall_forall.
  intros c [Hne Hc]%list_elem_of_filter.
  apply path_facts.valid_name_spec. split; [done|].
  by eapply (proj1 (Forall_forall _ _) (str_split_sep_free p)).
Qed.

Lemma valid_names_write (root root' : node) (p : string) (d : filedata) :
  valid_names root = true → write root p d = Return root' →
  valid_names root' = true.
Proof.
  intros Hroot. unfold write.
  destruct (resolve (components p) root) as [[|]|];
    (destruct (components p) eqn:Hcs; [done|]);
    try done;
    (destruct (graft false _ _ root) eqn:Hg; [|done]);
    intros [= <-];
    (eapply valid_names_graft; [| | |exact Hg]; [|done|done]);
    rewrite <- Hcs; apply components_valid.
Qed.

Lemma valid_names_rename (src dst : list string) (root root' : node) :
  Forall (λ c, valid_name c = true) dst →
  valid_names root = true → rename src dst root = Some root' →
  valid_names root' = true.
Proof.
  intros Hdst Hroot. unfold rename.
  destruct (resolve src root) as [sn|] eqn:Hsrc; [|done].
  destruct (decide (src = dst)); [by intros [= <-]|].
  destruct (bool_decide _); [done|].
  match goal with |- context [if ?b then _ else _] => destruct b end; [|done].
  destruct (prune src root) as [root1|] eqn:Hp; [|done]. cbn.
  intros Hg. eapply valid_names_graft; [| | |exact Hg]; [done| |].
  - by eapply valid_names_resolve.
  - by eapply valid_names_prune.
Qed.

End FS_facts.

(** ** A program logic for the monad *)

Section logic.
Context {O : Type}.
Implicit Types (P I : World * O → Prop).

Lemma triple_conseq {A} P P' (m : M O A) (Q Q' : outcome A → World * O → Prop) :
  triple P' m Q' → (∀ s, P s → P' s) → (∀ r s, Q' r s → Q r s) →
  triple P m Q.
Proof. intros H HP HQ s Hs. apply HQ, H, HP, Hs. Qed.

Lemma triple_ret {A} P (a : A) (Q : outcome A → World * O → Prop) :
  (∀ s, P s → Q (Return a) s) → triple P (mret a) Q.
Proof. intros H s Hs. by apply H. Qed.

Lemma triple_raise {A} P (e : exn) (Q : outcome A → World * O → Prop) :
  (∀ s, P s → Q (Raise e) s) → triple P (raise e) Q.
Proof. intros H s Hs. by apply H. Qed.

Lemma triple_bind {A B} P (R : outcome A → World * O → Prop)
    (Q : outcome B → World * O → Prop) (m : M O A) (f : A → M O B) :
  triple P m R →
  (∀ a, triple (R (Return a)) (f a) Q) →
  (∀ e s, R (Raise e) s → Q (Raise e) s) →
  triple P (m ≫= f) Q.
Proof.
  intros Hm Hf He s Hs. specialize (Hm s Hs). rewrite run_bind.
  destruct (m s) as [[a|e] s1]; cbn [fst snd] in *.
  - by apply Hf.
  - by apply He.
Qed.

Lemma triple_try {A} P (R Q : outcome A → World * O → Prop)
    (m : M O A) (h : exn → M O A) :
  triple P m R →
  (∀ a s, R (Return a) s → Q (Return a) s) →
  (∀ e, triple (R (Raise e)) (h e) Q) →
  triple P (try_except m h) Q.
Proof.
  intros Hm Hr Hh s Hs. specialize (Hm s Hs). unfold try_except.
  destruct (m s) as [[a|e] s1]; cbn [fst snd] in *.
  - by apply Hr.
  - by apply Hh.
Qed.

Lemma keeps_ret {A} I (a : A) : keeps I (mret a : M O A).
Proof. by intros s Hs. Qed.

Lemma keeps_raise {A} I (e : exn) : keeps I (raise e : M O A).
Proof. by intros s Hs. Qed.

Lemma keeps_pure_call {A} I (r : outcome A) : keeps I (pure_call r : M O A).
Proof. by intros s Hs. Qed.

Lemma keeps_get_self I : keeps I (get_self : M O O).
Proof. by intros [w o] Hs. Qed.

Lemma keeps_get_fs I : keeps I (get_fs : M O node).
Proof. by intros [w o] Hs. Qed.

Lemma keeps_bind {A B} I (m : M O A) (f : A → M O B) :
  keeps I m → (∀ a, keeps I (f a)) → keeps I (m ≫= f).
Proof. intros Hm Hf. eapply triple_bind; [exact Hm|exact Hf|done]. Qed.

(** the continuation may use what [m] returns *)
Lemma keeps_bind_val {A B} I (R : A → Prop) (m : M O A) (f : A → M O B) :
  triple I m (λ r s, I s ∧ ∀ a, r = Return a → R a) →
  (∀ a, R a → keeps I (f a)) → keeps I (m ≫= f).
Proof.
  intros Hm Hf s Hs. specialize (Hm s Hs). rewrite run_bind.
  destruct (m s) as [[a|e] s1]; cbn [fst snd] in *.
  - destruct Hm as [HI HR]. by apply Hf; [apply HR|].
  - by destruct Hm.
Qed.

Lemma keeps_try {A} I (m : M O A) (h : exn → M O A) :
  keeps I m → (∀ e, keeps I (h e)) → keeps I (try_except m h).
Proof. intros Hm Hh. eapply triple_try; [exact Hm|done|exact Hh]. Qed.

Lemma keeps_py_for_from {A} I (lst : O → list A) (body : A → M O unit)
    (rounds idx : nat) :
  (∀ x, keeps I (body x)) → keeps I (py_for_from rounds lst body idx).
Proof.
  intros Hbody. revert idx. induction rounds as [|n IH]; intros idx.
  - apply keeps_ret.
  - intros s Hs. cbn [py_for_from].
    destruct (lst s.2 !! idx) as [x|]; [|done].
    by apply keeps_bind.
Qed.

Lemma keeps_py_for {A} I (lst : O → list A) (body : A → M O unit) :
  (∀ x, keeps I (body x)) → keeps I (py_for lst body).
Proof.
  intros Hbody s Hs. unfold py_for.
  by apply (keeps_py_for_from I lst body (length (lst s.2)) 0 Hbody s).
Qed.

End logic.

Lemma keeps_on {O P A} (I : World * O → Prop) (J : World * P → Prop)
    (o : P) (m : M P A) :
  keeps J m →
  (∀ w s, I (w, s) → J (w, o)) →
  (∀ w w' s p, I (w, s) → J (w', p) → I (w', s)) →
  keeps I (on o m).
Proof.
  intros Hm Hin Hout [w s] Hs. specialize (Hm (w, o) (Hin _ _ Hs)).
  unfold on. cbn [fst snd] in *.
  destruct (m (w, o)) as [[a|e] [w' p]]; cbn [fst snd] in *; by eapply Hout.
Qed.

Lemma keeps_on_field {O P A} (I : World * O → Prop) (J : World * P → Prop)
    (get : O → P) (set : P → O → O) (m : M P A) :
  keeps J m →
  (∀ w s, I (w, s) → J (w, get s)) →
  (∀ w w' s p, I (w, s) → J (w', p) → I (w', set p s)) →
  keeps I (on_field get set m).
Proof.
  intros Hm Hin Hout [w s] Hs. specialize (Hm (w, get s) (Hin _ _ Hs)).
  unfold on_field. cbn [fst snd] in *.
  destruct (m (w, get s)) as [r [w' p]]; cbn [fst snd] in *; by eapply Hout.
Qed.

(** *** Invariants of the trace alone *)

Lemma events_from_emit {O} (n : nat) (ok : event → Prop) (e : event) :
  ok e → keeps (events_from n ok) (emit e : M O unit).
Proof.
  intros He [w o] Hs. unfold events_from in *. cbn [emit fst snd trace] in *.
  rewrite drop_app. apply Forall_app. split; [done|].
  apply Forall_drop. by constructor.
Qed.

Lemma events_from_put_self {O} (n : nat) (ok : event → Prop) (o : O) :
  keeps (events_from n ok) (put_self o).
Proof. by intros [w o'] Hs. Qed.

Lemma events_from_put_fs {O} (n : nat) (ok : event → Prop) (root : node) :
  keeps (events_from n ok) (put_fs root : M O unit).
Proof. by intros [w o'] Hs. Qed.

Lemma events_from_on {O P A} (n : nat) (ok : event → Prop) (o : P) (m : M P A) :
  keeps (events_from n ok) m → keeps (O:=O) (events_from n ok) (on o m).
Proof. intros Hm. by eapply keeps_on. Qed.

Lemma events_from_on_field {O P A} (n : nat) (ok : event → Prop)
    (get : O → P) (set : P → O → O) (m : M P A) :
  keeps (events_from n ok) m → keeps (events_from n ok) (on_field get set m).
Proof. intros Hm. by eapply keeps_on_field. Qed.

Lemma events_from_start {O} (ok : event → Prop) (s : World * O) :
  events_from (length (trace s.1)) ok s.
Proof. unfold events_from. by rewrite drop_all. Qed.

(** Splits a goal [keeps (events_from n ok) m] along the structure of [m],
    down to the events [m] emits. *)
Ltac trace_step :=
  lazymatch goal with
  | |- keeps _ (mbind _ _) => apply keeps_bind; [|intros ?]
  | |- keeps _ (_ ≫= _) => apply keeps_bind; [|intros ?]
  | |- keeps _ (mret _) => apply keeps_ret
  | |- keeps _ (raise _) => apply keeps_raise
  | |- keeps _ (pure_call _) => apply keeps_pure_call
  | |- keeps _ get_self => apply keeps_get_self
  | |- keeps _ get_fs => apply keeps_get_fs
  | |- keeps _ (put_self _) => apply events_from_put_self
  | |- keeps _ (put_fs _) => apply events_from_put_fs
  | |- keeps _ (emit _) => apply events_from_emit
  | |- keeps _ (try_except _ _) => apply keeps_try; [|intros ?]
  | |- keeps _ (on _ _) => apply events_from_on
  | |- keeps _ (on_field _ _ _) => apply events_from_on_field
  | |- keeps _ (py_for _ _) => apply keeps_py_for; intros ?
  | |- keeps _ (match ?x with _ => _ end) => destruct x
  | |- keeps _ (let _ := _ in _) => cbv zeta
  end.

(** ** The gene level summary *)

Ltac head_of t :=
  lazymatch t with
  | ?f _ => head_of f
  | _ => t
  end.

(** as [trace_step], and opens the definition of a method when nothing
    else applies *)
Ltac trace_walk :=
  first
    [ trace_step
    | lazymatch goal with
      | |- keeps _ ?m => let h := head_of m in progress unfold h
      end ].

Section gene_level_summary.
Context `{K : NbgwasRest} `{E : External}.

(** the table of [_create_gene_level_summary]: a row per node of the graph,
    p-value 0 for the filtered seeds and 1 for the other genes *)
Lemma create_gene_level_summary_table (w : World) (task : FileBasedTask.t)
    (g : Graph) (seeds : list string) :
  FileBasedTask._networkx_obj task = Some g →
  FileBasedTask._filteredseedlist task = Some seeds →
  NbgwasTaskRunner._create_gene_level_summary (w, task) =
  (Return (Some ((λ gene, (gene, if bool_decide (gene ∈ seeds) then 0 else 1))
                 <$> nodes g)),
   (w, task)).
Proof.
  intros Hg Hseeds.
  unfold NbgwasTaskRunner._create_gene_level_summary,
    FileBasedTask.get_networkx_object, FileBasedTask.get_filtered_seed_list.
  run. rewrite Hg. run. rewrite Hseeds. do 2 f_equal. f_equal.
  rewrite <- list_fmap_compose. apply list_fmap_ext.
  intros i gene _. cbn. by destruct (bool_decide (gene ∈ seeds)).
Qed.

(** [_create_gene_level_summary] raises or returns a table, never [None] *)
Lemma create_gene_level_summary_not_None (I : World * FileBasedTask.t → Prop) :
  triple I NbgwasTaskRunner._create_gene_level_summary
    (λ r s, I s ∧ ∀ a, r = Return a → a ≠ None).
Proof.
  intros [w task] Hs.
  unfold NbgwasTaskRunner._create_gene_level_summary,
    FileBasedTask.get_networkx_object, FileBasedTask.get_filtered_seed_list.
  run.
  destruct (FileBasedTask._networkx_obj task); [|by split]. run.
  destruct (FileBasedTask._filteredseedlist task);
    (split; [done|]); intros a [=]; by subst.
Qed.

Lemma process_task_no_summary_error (self : NbgwasTaskRunner.t) (n : nat) :
  keeps (events_from n no_summary_error) (NbgwasTaskRunner._process_task self).
Proof.
  unfold NbgwasTaskRunner._process_task.
  repeat first
    [ lazymatch goal with
      | |- keeps _ (NbgwasTaskRunner._create_gene_level_summary ≫= _) =>
          eapply (keeps_bind_val _ (λ a, a ≠ None));
          [apply create_gene_level_summary_not_None | intros [?|] ?; [|done]]
      end
    | trace_walk
    | discriminate ].
Qed.

(** C10: for a task with a graph and a filtered seed list,
    [_create_gene_level_summary] returns a table, never [None], with one row
    per node of the graph, p-value 0 for the filtered seeds and 1 for the
    others; and no run of [_process_task] reports
    "Unable to create gene level summary": that branch is never taken. *)
Theorem gene_level_summary_is_always_built :
  (∀ (w : World) (task : FileBasedTask.t) (g : Graph) (seeds : list string),
     FileBasedTask._networkx_obj task = Some g →
     FileBasedTask._filteredseedlist task = Some seeds →
     NbgwasTaskRunner._create_gene_level_summary (w, task) =
     (Return (Some ((λ gene, (gene, if bool_decide (gene ∈ seeds) then 0 else 1))
                    <$> nodes g)),
      (w, task))) ∧
  (∀ (self : NbgwasTaskRunner.t) (w : World) (task : FileBasedTask.t),
     events_from (length (trace w)) no_summary_error
       (NbgwasTaskRunner._process_task self (w, task)).2).
Proof.
  split.
  - apply create_gene_level_summary_table.
  - intros self w task.
    apply (process_task_no_summary_error self (length (trace w)) (w, task)).
    apply (events_from_start _ (w, task)).
Qed.

End gene_level_summary.

Lemma gene_level_summary_is_always_built_witness :
  NbgwasTaskRunner._create_gene_level_summary
    (scenario_world [],
     FileBasedTask.mk (Some "/base/processing/10.0.0.1/abc")
       (scenario_record "G1,G2") (Some scenario_graph) None (Some ["G1"; "G2"]) JNull) =
  (Return (Some [("G1", 0); ("G2", 0); ("G3", 1)]),
   (scenario_world [],
    FileBasedTask.mk (Some "/base/processing/10.0.0.1/abc")
      (scenario_record "G1,G2") (Some scenario_graph) None (Some ["G1"; "G2"]) JNull)).
Proof.
  apply (proj1 (gene_level_summary_is_always_built (K:=nbgwas_rest)
                  (E:=scenario_external))
           (scenario_world [])
           (FileBasedTask.mk (Some "/base/processing/10.0.0.1/abc")
              (scenario_record "G1,G2") (Some scenario_graph) None
              (Some ["G1"; "G2"]) JNull)
           scenario_graph ["G1"; "G2"]); reflexivity.
Defined.

(** ** The moves of a task on the scenario *)

Lemma move_task_same_state_witness :
  FileBasedTask.move_task (K:=nbgwas_rest) "done" None
    (scenario_world [], scenario_task "done" (scenario_record "G1")) =
  (Return None, (scenario_world [], scenario_task "done" (scenario_record "G1"))).
Proof.
  apply (move_task_same_state (K:=nbgwas_rest) (scenario_world [])
           (scenario_task "done" (scenario_record "G1"))
           "/base/done/10.0.0.1/abc" "done" None); reflexivity.
Defined.

(** ** The scenarios, run *)

(** C2 (and C1): on the seeds ["X1,X2"], none of them a node of the network,
    the loop of [_get_seeds] removes ["X1"], which moves ["X2"] to the index
    the iterator has just left, and ends: ["X2"] is returned as a seed of
    the network, where the filter by membership is empty. *)
Theorem get_seeds_keeps_a_seed_outside_the_network :
  let task := FileBasedTask.mk (Some "/base/processing/10.0.0.1/abc")
                (scenario_record "X1,X2") (Some scenario_graph) None None JNull in
  filter (λ s, s ∈ nodes scenario_graph) (str_split "," "X1,X2") = [] ∧
  NbgwasTaskRunner._get_seeds (K:=nbgwas_rest) (scenario_world [], task) =
  (Return (Some ["X2"]), (scenario_world [], task)).
Proof. split; reflexivity. Qed.

(** C1: the seed mismatch scenario of the spec.  One round of [run_tasks] on
    the task with seeds ["X1,X2"] returns, reports no seed error, and leaves
    the task in [done] with a result and a record without error field. *)
Theorem seed_mismatch_ends_with_a_result :
  let record := File (JsonText (scenario_record "X1,X2")) in
  ∃ w' runner',
    NbgwasTaskRunner.run_tasks_round (K:=nbgwas_rest) (E:=scenario_external) 0
      (scenario_world [("abc", Dir [("task.json", record); scenario_network])],
       scenario_runner) = (Return 0, (w', runner')) ∧
    trace w' =
      [EvMove "/base/submitted/10.0.0.1/abc" "/base/processing/10.0.0.1/abc";
       EvWrite "/base/processing/10.0.0.1/abc/task.json"
         (JsonText (scenario_record "X1,X2"));
       EvWrite "/base/processing/10.0.0.1/abc/result.json"
         (JsonText scenario_scores);
       EvMove "/base/processing/10.0.0.1/abc" "/base/done/10.0.0.1/abc"] ∧
    FS.resolve (FS.components "/base/done/10.0.0.1/abc") (fs w') =
      Some (Dir [("task.json", record); scenario_network;
                 ("result.json", File (JsonText scenario_scores))]).
Proof. do 2 eexists. split; [vm_compute; reflexivity|]. split; reflexivity. Qed.

(** C3: a quarantine list of two.  The pass of [clean_up_problem_list]
    retires the first entry and removes it, which moves the second to the
    index the iterator has just left: the pass ends with the second entry
    still listed and its task still in [submitted]. *)
Theorem clean_up_leaves_every_second_entry :
  let corrupt := Dir [("task.json", File (RawText "{"))] in
  ∃ w' problemlist',
    FileBasedSubmittedTaskFactory.clean_up_problem_list (K:=nbgwas_rest)
      (scenario_world [("abc", corrupt); ("def", corrupt)],
       FileBasedSubmittedTaskFactory.mk "/base" (Some "/base/submitted")
         ["/base/submitted/10.0.0.1/abc"; "/base/submitted/10.0.0.1/def"]) =
    (Return tt,
     (w', FileBasedSubmittedTaskFactory.mk "/base" (Some "/base/submitted")
            problemlist')) ∧
    problemlist' = ["/base/submitted/10.0.0.1/def"] ∧
    trace w' =
      [EvWrite "/base/submitted/10.0.0.1/abc/task.json"
         (JsonText (JObj {[ "error" := JStr "Unknown error with task" ]}));
       EvMove "/base/submitted/10.0.0.1/abc" "/base/done/10.0.0.1/abc"] ∧
    FS.resolve (FS.components "/base/submitted/10.0.0.1/def") (fs w') =
      Some corrupt.
Proof. do 2 eexists. split; [vm_compute; reflexivity|]. repeat split. Qed.

(** C7: a record file that holds the JSON array [[]].  [get_next_task]
    returns it as a task; [_process_task] finds no network and raises a
    [TypeError] when [move_task] stores the error in the record; the handler
    of [run_tasks] calls [move_task] again, which raises the same way, and
    the exception leaves the loop with the task still in [processing]. *)
Theorem a_record_that_is_no_mapping_ends_the_runner :
  ∃ e w' runner',
    NbgwasTaskRunner.run_tasks (K:=nbgwas_rest) (E:=scenario_external) 1
      (scenario_world [("abc", Dir [("task.json", File (JsonText (JArr [])))])],
       scenario_runner) = (Raise e, (w', runner')) ∧
    e = TypeError "list indices must be integers or slices, not str" ∧
    trace w' =
      [EvMove "/base/submitted/10.0.0.1/abc" "/base/processing/10.0.0.1/abc";
       EvLogError "Unable to get networkx object for task";
       EvLogError ("Skipping task cause - Caught exception processing task: " +:+
                   "/base/processing/10.0.0.1/abc : " +:+
                   "list indices must be integers or slices, not str")] ∧
    FS.resolve (FS.components "/base/processing/10.0.0.1/abc") (fs w') =
      Some (Dir [("task.json", File (JsonText (JArr [])))]).
Proof. do 3 eexists. split; [vm_compute; reflexivity|]. repeat split. Qed.

(** ** What a move does *)

Section moves.
Context `{K : NbgwasRest}.

Lemma json_dump_file_valid {O} (p : string) (j : json) (s : World * O) :
  valid_names (fs s.1) = true →
  valid_names (fs (json_dump_file p j s).2.1) = true.
Proof.
  destruct s as [w o]. intros Hv. rewrite json_dump_file_run.
  destruct (FS.write (fs w) p (JsonText j)) as [root'|e] eqn:Hw; [|done].
  by eapply FS_facts.valid_names_write.
Qed.

Lemma shutil_move_valid {O} (src dst : string) (s : World * O) :
  valid_names (fs s.1) = true →
  valid_names (fs (shutil_move src dst s).2.1) = true.
Proof.
  destruct s as [w o]. intros Hv. unfold shutil_move. run.
  destruct (FS.isdir (fs w) dst && _ && _); [done|].
  destruct (FS.isdir (fs w) dst).
  - destruct (FS.exists_ (fs w) _); [done|].
    destruct (FS.rename _ _ _) as [root'|] eqn:Hr.
    { eapply FS_facts.valid_names_rename; [|done|exact Hr].
      apply FS_facts.components_valid. }
    destruct (FS.isdir (fs w) src); [|done].
    destruct (bool_decide _); [done|].
    destruct (FS.exists_ _ _); [done|].
    destruct (FS.graft _ _ _ _) as [root1|] eqn:Hg; [|done].
    destruct (FS.prune _ root1) as [root2|] eqn:Hp; [|done].
    cbn. eapply FS_facts.valid_names_prune; [|exact Hp].
    eapply FS_facts.valid_names_graft; [| | |exact Hg];
      [apply FS_facts.components_valid| |done].
    destruct (FS.resolve _ _) eqn:Hs; [|done].
    by eapply FS_facts.valid_names_resolve.
  - destruct (FS.rename _ _ _) as [root'|] eqn:Hr.
    { eapply FS_facts.valid_names_rename; [|done|exact Hr].
      apply FS_facts.components_valid. }
    destruct (FS.isdir (fs w) src); [|done].
    destruct (bool_decide _); [done|].
    destruct (FS.exists_ _ _); [done|].
    destruct (FS.graft _ _ _ _) as [root1|] eqn:Hg; [|done].
    destruct (FS.prune _ root1) as [root2|] eqn:Hp; [|done].
    cbn. eapply FS_facts.valid_names_prune; [|exact Hp].
    eapply FS_facts.valid_names_graft; [| | |exact Hg];
      [apply FS_facts.components_valid| |done].
    destruct (FS.resolve _ _) eqn:Hs; [|done].
    by eapply FS_facts.valid_names_resolve.
Qed.

Lemma save_task_valid (s : World * FileBasedTask.t) :
  valid_names (fs s.1) = true →
  valid_names (fs (FileBasedTask.save_task s).2.1) = true.
Proof.
  destruct s as [w task]. intros Hv. unfold FileBasedTask.save_task. run.
  destruct (FileBasedTask._taskdir task) as [taskdir|]; [|done].
  pose proof (json_dump_file_valid (posixpath.join taskdir [TASK_JSON])
                (FileBasedTask._taskdict task) (w, task) Hv) as H1.
  destruct (json_dump_file _ _ (w, task)) as [[[]|e] [w1 t1]]; [|done].
  destruct (negb _); [|done].
  pose proof (json_dump_file_valid (posixpath.join taskdir [RESULT])
                (FileBasedTask._resultdata task) (w1, t1) H1) as H2.
  by destruct (json_dump_file _ _ (w1, t1)) as [[[]|e] [w2 t2]].
Qed.

(** A run of [move_task] to another state than that of the path: the
    events it calls for, in their order, where it leaves the task, and what
    becomes of the record. *)
Lemma move_task_run (w w' : World) (task task' : FileBasedTask.t)
    (taskdir new_state : string) (error_message : option string) r :
  FileBasedTask._taskdir task = Some taskdir →
  state_of_path taskdir ≠ new_state →
  FileBasedTask.move_task new_state error_message (w, task) = (r, (w', task')) →
  let to_error := bool_decide (new_state = ERROR_STATUS) in
  let target := path_in_state taskdir (if to_error then DONE_STATUS else new_state) in
  let full := (if to_error then save_events taskdir task' else []) ++
              [EvMove taskdir target] in
  (valid_names (fs w) = true → valid_names (fs w') = true) ∧
  FileBasedTask._resultdata task' = FileBasedTask._resultdata task ∧
  ∃ evs,
    events_of w w' evs ∧ evs `prefix_of` full ∧
    match r with
    | Return x => x = None ∧ evs = full ∧ FileBasedTask._taskdir task' = Some target
    | Raise _ => FileBasedTask._taskdir task' = Some taskdir
    end ∧
    if to_error then
      match FileBasedTask._taskdict task with
      | JObj fields =>
          FileBasedTask._taskdict task' =
            JObj (<[ERROR_PARAM := JStr (default "Unknown error" error_message)]> fields) ∧
          evs ≠ []
      | _ => task' = task ∧ evs = []
      end
    else FileBasedTask._taskdict task' = FileBasedTask._taskdict task.
Proof.
  intros Hdir Hstate. unfold FileBasedTask.move_task.
  rewrite run_bind, (attrib_run _ _ _ Hdir).
  cbn [FileBasedTask.basedir FileBasedTask.state FileBasedTask.ipaddr
       FileBasedTask.uuid].
  destruct (decide (Some (state_of_path taskdir) = Some new_state)) as [[=]|_];
    [done|].
  unfold FileBasedTask.set_taskdict, FileBasedTask.join_attrib,
    FileBasedTask.set_taskdir, path_in_state.
  destruct (decide (new_state = ERROR_STATUS)) as [->|Hne].
  - rewrite bool_decide_eq_true_2 by done. run.
    destruct (FileBasedTask._taskdict task) as [| | | | |fields] eqn:Hdict;
      cbn [py_setitem];
      try (intros [= <- <- <-]; split; [done|]; split; [done|];
           exists []; unfold events_of; rewrite app_nil_r, ?Hdict;
           split; [done|]; split; [apply prefix_nil|]; by split).
    cbn [FileBasedTask._taskdir FileBasedTask._taskdict FileBasedTask._networkx_obj
         FileBasedTask._genelevelsummary FileBasedTask._filteredseedlist
         FileBasedTask._resultdata].
    set (task1 := FileBasedTask.mk _ _ _ _ _ _).
    pose proof (save_task_valid (w, task1)) as Hvalid.
    destruct (FileBasedTask.save_task (w, task1)) as [r1 [w1 t1]] eqn:Hsave.
    apply (save_task_events _ _ _ _ taskdir) in Hsave
      as (-> & evs & Hev & Hnil & Hpre & Hret);
      [|by subst task1; cbn; rewrite Hdir].
    cbn [fst snd] in Hvalid.
    destruct r1 as [x|e].
    + destruct (Hret x eq_refl) as [-> ->].
      subst task1. cbn [fst snd FileBasedTask._taskdir]. rewrite Hdir.
      cbn [fst snd FileBasedTask._taskdir].
      match goal with
      | |- context [shutil_move ?a ?b ?s] =>
          pose proof (shutil_move_valid a b s) as Hvalid2;
          destruct (shutil_move a b s) as [r2 [w2 t2]] eqn:Hmove
      end.
      apply shutil_move_events in Hmove as [-> Hev2].
      cbn [fst snd] in Hvalid2. unfold events_of in *.
      destruct r2; intros [= <- <- <-]; cbn;
        (split; [by auto|]); (split; [done|]); eexists;
        (split; [rewrite Hev2, Hev, <- app_assoc; reflexivity|]);
        (split; [reflexivity|]); auto.
    + intros [= <- <- <-]. split; [done|]. split; [done|].
      exists evs. split; [exact Hev|].
      split; [by apply prefix_app_r|]. subst task1. cbn. by rewrite Hdir.
  - rewrite bool_decide_eq_false_2 by done. run. rewrite Hdir.
    cbn [fst snd].
    match goal with
    | |- context [shutil_move ?a ?b ?s] =>
        pose proof (shutil_move_valid a b s) as Hvalid2;
        destruct (shutil_move a b s) as [r2 [w2 t2]] eqn:Hmove
    end.
    apply shutil_move_events in Hmove as [-> Hev2].
    cbn [fst snd] in Hvalid2. unfold events_of in *.
    destruct r2; intros [= <- <- <-]; cbn;
      (split; [done|]); (split; [done|]); eexists;
      (split; [exact Hev2|]); (split; [reflexivity|]); auto.
Qed.

End moves.

(** ** The cleanup of a quarantined task *)

Section cleanup.
Context `{K : NbgwasRest}.

(** The events of the body of the loop of [clean_up_problem_list] on a
    path whose state is not [ERROR_STATUS], whether it returns or raises:
    it starts from a fresh record [{}], so the first event is the write of
    the record file with a record that holds the error field only, and the
    only other one there may be is the move to [done]. *)
Lemma clean_up_entry_events (w w' : World)
    (factory factory' : FileBasedSubmittedTaskFactory.t) (entry : string) r :
  state_of_path entry ≠ ERROR_STATUS →
  FileBasedSubmittedTaskFactory.clean_up_entry entry (w, factory) =
    (r, (w', factory')) →
  let record := JsonText (JObj {[ ERROR_PARAM := JStr "Unknown error with task" ]}) in
  ∃ evs,
    events_of w w' evs ∧
    head evs = Some (EvWrite (posixpath.join entry [TASK_JSON]) record) ∧
    evs `prefix_of`
      [EvWrite (posixpath.join entry [TASK_JSON]) record;
       EvMove entry (path_in_state entry DONE_STATUS)].
Proof.
  intros Hstate. unfold FileBasedSubmittedTaskFactory.clean_up_entry.
  rewrite run_bind. unfold on at 1. cbn [fst snd].
  destruct (FileBasedTask.move_task _ _ _) as [r1 [w1 task1]] eqn:Hmove.
  apply (move_task_run _ _ _ _ entry) in Hmove
    as (_ & Hres & evs & Hev & Hpre & Hr & Hrec); [|done|done].
  rewrite bool_decide_eq_true_2 in Hpre, Hrec by done.
  cbn in Hrec. destruct Hrec as [Hrec Hnil].
  assert (save_events entry task1 =
          [EvWrite (posixpath.join entry [TASK_JSON])
             (JsonText (JObj {[ ERROR_PARAM := JStr "Unknown error with task" ]}))])
    as Hsave.
  { unfold save_events. rewrite Hres, Hrec, insert_empty. reflexivity. }
  rewrite Hsave in Hpre.
  intros Hrun. assert (w' = w1) as ->.
  { revert Hrun. unfold FileBasedSubmittedTaskFactory.set_problemlist.
    destruct r1; run; [|by intros [= <- <- <-]].
    destruct (list_remove_first _ _); by intros [= <- <- <-]. }
  exists evs. split; [done|]. split; [|done].
  destruct Hpre as [k Hk]. destruct evs as [|ev evs']; [done|].
  by injection Hk as <- _.
Qed.

End cleanup.

(** ** The scan of [get_next_task] *)

Section scanning.
Context `{K : NbgwasRest}.

Local Abbreviation factory := FileBasedSubmittedTaskFactory.t.

Lemma with_problemlist_same (f : factory) :
  with_problemlist f (FileBasedSubmittedTaskFactory._problemlist f) = f.
Proof. by destruct f. Qed.

Lemma try_subentry_run (w : World) (f : factory) (subfp : string) :
  FileBasedSubmittedTaskFactory.try_subentry subfp (w, f) =
  (Return (match record_status_of (fs w) subfp with
           | Readable jsondata => Some (FileBasedTask.new (Some subfp) jsondata)
           | _ => None
           end),
   (w, with_problemlist f
         (match record_status_of (fs w) subfp with
          | Broken => quarantine (FileBasedSubmittedTaskFactory._problemlist f) subfp
          | _ => FileBasedSubmittedTaskFactory._problemlist f
          end))).
Proof.
  unfold FileBasedSubmittedTaskFactory.try_subentry, record_status_of,
    os_path_isdir, os_path_isfile, json_load_file, open_read, try_except,
    FileBasedSubmittedTaskFactory.set_problemlist, FS.isfile, quarantine,
    with_problemlist.
  run.
  destruct (FS.isdir (fs w) subfp); [|by destruct f]. run.
  destruct (FS.resolve _ (fs w)) as [[[j|raw|]|es]|] eqn:Hres;
    run; rewrite ?Hres; run;
    try (by destruct f);
    by destruct (bool_decide _); destruct f.
Qed.

Lemma scan_subentries_run (w : World) (f : factory) (fp : string)
    (subentries : list string) :
  FileBasedSubmittedTaskFactory.scan_subentries fp subentries (w, f) =
  let res := scan (fs w) (FileBasedSubmittedTaskFactory._problemlist f)
               ((λ subentry, posixpath.join fp [subentry]) <$> subentries) in
  (Return res.1, (w, with_problemlist f res.2)).
Proof.
  revert f. induction subentries as [|subentry rest IH]; intros f.
  - cbn. by rewrite with_problemlist_same.
  - cbn [FileBasedSubmittedTaskFactory.scan_subentries fmap list_fmap scan].
    rewrite run_bind, try_subentry_run.
    destruct (record_status_of (fs w) _) eqn:Hst; cbn [fst snd];
      try (rewrite IH; by destruct f).
    by rewrite with_problemlist_same.
Qed.

Lemma scan_app (root : node) (problemlist : list string) (cs1 cs2 : list string) :
  scan root problemlist (cs1 ++ cs2) =
  match (scan root problemlist cs1).1 with
  | Some task => scan root problemlist cs1
  | None => scan root (scan root problemlist cs1).2 cs2
  end.
Proof.
  revert problemlist. induction cs1 as [|c cs1 IH]; intros pl; [done|].
  cbn [app scan]. destruct (record_status_of root c); by rewrite ?IH.
Qed.

Lemma scan_entries_run (w : World) (f : factory) (submitdir : string)
    (entries : list string) :
  FileBasedSubmittedTaskFactory.scan_entries submitdir entries (w, f) =
  let res := scan (fs w) (FileBasedSubmittedTaskFactory._problemlist f)
               (entry ← entries;
                let fp := posixpath.join submitdir [entry] in
                if FS.isdir (fs w) fp
                then (λ subentry, posixpath.join fp [subentry]) <$> listing (fs w) fp
                else []) in
  (Return res.1, (w, with_problemlist f res.2)).
Proof.
  revert f. induction entries as [|entry rest IH]; intros f.
  - cbn. by rewrite with_problemlist_same.
  - cbn [FileBasedSubmittedTaskFactory.scan_entries mbind list_bind].
    unfold os_path_isdir, os_listdir, listing. run.
    destruct (FS.isdir (fs w) _) eqn:Hdir; cbn [negb].
    + unfold FS.isdir in Hdir.
      destruct (FS.resolve _ (fs w)) as [[|es]|] eqn:Hres; try done.
      run. rewrite ?Hres. run.
      rewrite scan_subentries_run. cbn zeta. cbn [fst snd].
      rewrite scan_app.
      destruct (scan (fs w) _ _) as [[task|] pl']; cbn [fst snd]; [done|].
      rewrite IH. unfold listing. by destruct f.
    + rewrite IH. done.
Qed.

Lemma get_next_task_run (w : World) (f : factory) (submitdir : string) :
  FileBasedSubmittedTaskFactory._submitdir f = Some submitdir →
  FileBasedSubmittedTaskFactory.get_next_task (w, f) =
  if FS.isdir (fs w) submitdir then
    let res := scan (fs w) (FileBasedSubmittedTaskFactory._problemlist f)
                 (candidates (fs w) submitdir) in
    (Return res.1, (w, with_problemlist f res.2))
  else
    (Return None,
     (mkWorld (fs w)
        (trace w ++ [EvLogError (submitdir +:+ " does not exist or is not a directory")]),
      f)).
Proof.
  intros Hsub. unfold FileBasedSubmittedTaskFactory.get_next_task,
    os_path_isdir, os_listdir, candidates, listing.
  run. rewrite Hsub. run.
  destruct (FS.isdir (fs w) submitdir) eqn:Hdir; run; rewrite ?Hdir; cbn [negb];
    [|done].
  unfold FS.isdir in Hdir.
  destruct (FS.resolve _ (fs w)) as [[|es]|] eqn:Hres; try done.
  run. rewrite ?Hres. run.
  by rewrite scan_entries_run.
Qed.

End scanning.

(** ** What the scan leaves in the problem list *)

Section quarantine_facts.
Context `{K : NbgwasRest}.

Lemma quarantine_elem (problemlist : list string) (subfp c : string) :
  c ∈ quarantine problemlist subfp ↔ c ∈ problemlist ∨ c = subfp.
Proof.
  unfold quarantine. case_bool_decide as Hin.
  - split; [by left|]. intros [?| ->]; done.
  - rewrite elem_of_app, list_elem_of_singleton. done.
Qed.

Lemma quarantine_NoDup (problemlist : list string) (subfp : string) :
  NoDup problemlist → NoDup (quarantine problemlist subfp).
Proof.
  intros Hnd. unfold quarantine. case_bool_decide as Hin; [done|].
  apply NoDup_app. split; [done|]. split; [|apply NoDup_singleton].
  intros x Hx ->%list_elem_of_singleton. done.
Qed.

Lemma quarantine_prefix (problemlist : list string) (subfp : string) :
  problemlist `prefix_of` quarantine problemlist subfp.
Proof.
  unfold quarantine. case_bool_decide; [done|]. by apply prefix_app_r.
Qed.

Lemma scan_spec (root : node) (problemlist cands : list string) :
  ∃ scanned rest,
    cands = scanned ++ rest ∧
    Forall (λ c, ¬ readable root c) scanned ∧
    (∀ c, c ∈ (scan root problemlist cands).2 ↔
          c ∈ problemlist ∨ (c ∈ scanned ∧ record_status_of root c = Broken)) ∧
    problemlist `prefix_of` (scan root problemlist cands).2 ∧
    (NoDup problemlist → NoDup (scan root problemlist cands).2) ∧
    match rest with
    | [] => (scan root problemlist cands).1 = None
    | subfp :: _ =>
        ∃ jsondata,
          record_status_of root subfp = Readable jsondata ∧
          (scan root problemlist cands).1 =
            Some (FileBasedTask.new (Some subfp) jsondata)
    end.
Proof.
  revert problemlist. induction cands as [|subfp cands IH]; intros pl.
  - exists [], []. cbn. repeat split; try done.
    + by left.
    + intros [?|[[]%elem_of_nil _]]; done.
  - cbn [scan]. destruct (record_status_of root subfp) as [| | |j] eqn:Hst.
    1,2: destruct (IH pl) as (scanned & rest & -> & Hskip & Hin & Hpre & Hnd & Hres);
      exists (subfp :: scanned), rest; repeat split; try done;
      [constructor; [intros [j Hj]; congruence|done]
      |intros Hc; apply Hin in Hc as [?|[? ?]]; [by left|right; split; [by right|done]]
      |intros [?|[Hc Hb]]; apply Hin; [by left|];
       apply elem_of_cons in Hc as [->|Hc]; [congruence|by right]].
    + destruct (IH (quarantine pl subfp))
        as (scanned & rest & -> & Hskip & Hin & Hpre & Hnd & Hres).
      exists (subfp :: scanned), rest. repeat split; try done.
      * constructor; [intros [j Hj]; congruence|done].
      * intros Hc. apply Hin in Hc as [Hc|[? ?]].
        -- apply quarantine_elem in Hc as [?| ->]; [by left|].
           right. split; [by left|done].
        -- right. split; [by right|done].
      * intros [?|[Hc Hb]]; apply Hin.
        -- left. apply quarantine_elem. by left.
        -- apply elem_of_cons in Hc as [->|Hc].
           ++ left. apply quarantine_elem. by right.
           ++ by right.
      * etrans; [apply quarantine_prefix|done].
      * intros ?. by apply Hnd, quarantine_NoDup.
    + exists [], (subfp :: cands). cbn. repeat split; try done.
      * by left.
      * intros [?|[[]%elem_of_nil _]]; done.
      * by exists j.
Qed.

Lemma candidates_no_dir (root : node) (submitdir : string) :
  FS.isdir root submitdir = false → candidates root submitdir = [].
Proof.
  unfold FS.isdir, candidates, listing.
  by destruct (FS.resolve _ root) as [[|es]|].
Qed.

(** C6 (amended): one call of [get_next_task] on a factory with a submit
    directory returns, and leaves the files as they are.  It goes through
    the candidates in their order up to the first whose record file can be
    read, and returns the task of that one, or [None] when there is none,
    as when the submit directory is no directory.  Of the candidates it
    went through, those whose record file is there but cannot be read or
    parsed, and no others, are added to the problem list, behind the
    entries it had; a list without duplicates stays so. *)
Theorem get_next_task_quarantines_unreadable_records
    (w : World) (f : FileBasedSubmittedTaskFactory.t) (submitdir : string) :
  FileBasedSubmittedTaskFactory._submitdir f = Some submitdir →
  ∃ result w' problemlist' scanned rest,
    FileBasedSubmittedTaskFactory.get_next_task (w, f) =
      (Return result, (w', with_problemlist f problemlist')) ∧
    fs w' = fs w ∧
    candidates (fs w) submitdir = scanned ++ rest ∧
    Forall (λ c, ¬ readable (fs w) c) scanned ∧
    (∀ c, c ∈ problemlist' ↔
          c ∈ FileBasedSubmittedTaskFactory._problemlist f ∨
          (c ∈ scanned ∧ record_status_of (fs w) c = Broken)) ∧
    FileBasedSubmittedTaskFactory._problemlist f `prefix_of` problemlist' ∧
    (NoDup (FileBasedSubmittedTaskFactory._problemlist f) → NoDup problemlist') ∧
    match rest with
    | [] => result = None
    | subfp :: _ =>
        ∃ jsondata,
          record_status_of (fs w) subfp = Readable jsondata ∧
          result = Some (FileBasedTask.new (Some subfp) jsondata)
    end ∧
    (FS.isdir (fs w) submitdir = false → scanned = [] ∧ rest = []).
Proof.
  intros Hsub.
  destruct (scan_spec (fs w) (FileBasedSubmittedTaskFactory._problemlist f)
              (candidates (fs w) submitdir))
    as (scanned & rest & Hcands & Hskip & Hin & Hpre & Hnd & Hres).
  rewrite (get_next_task_run w f submitdir Hsub).
  destruct (FS.isdir (fs w) submitdir) eqn:Hdir.
  - eexists _, w, _, scanned, rest. cbn zeta. repeat split; try done.
    + by apply Hin.
    + by apply Hin.
  - rewrite (candidates_no_dir _ _ Hdir) in *.
    symmetry in Hcands. apply app_eq_nil in Hcands as [-> ->].
    eexists None, _, _, [], []. rewrite with_problemlist_same.
    repeat split; try done.
    + by left.
    + intros [?|[[]%elem_of_nil _]]; done.
Qed.

End quarantine_facts.

(** The scenario of the amended claim: of three task directories the first
    has a record file that does not parse, the second none, the third one
    that can be read. *)
Lemma get_next_task_quarantines_unreadable_records_witness :
  ∃ result w' problemlist' scanned rest,
    FileBasedSubmittedTaskFactory.get_next_task (K:=nbgwas_rest)
      (scenario_world
         [("abc", Dir [("task.json", File (RawText "{"))]);
          ("def", Dir []);
          ("ghi", Dir [("task.json", File (JsonText (scenario_record "G1")))])],
       scenario_factory) =
      (Return result, (w', with_problemlist scenario_factory problemlist')) ∧
    problemlist' = ["/base/submitted/10.0.0.1/abc"] ∧
    scanned = ["/base/submitted/10.0.0.1/abc"; "/base/submitted/10.0.0.1/def"] ∧
    rest = ["/base/submitted/10.0.0.1/ghi"] ∧
    result = Some (FileBasedTask.new (Some "/base/submitted/10.0.0.1/ghi")
                     (scenario_record "G1")).
Proof.
  pose (w := scenario_world
         [("abc", Dir [("task.json", File (RawText "{"))]);
          ("def", Dir []);
          ("ghi", Dir [("task.json", File (JsonText (scenario_record "G1")))])]).
  destruct (get_next_task_quarantines_unreadable_records (K:=nbgwas_rest)
              w scenario_factory "/base/submitted" eq_refl)
    as (result & w' & pl' & scanned & rest & Hrun & _).
  vm_compute in Hrun. injection Hrun as <- <- <-.
  eexists _, _, _, _, _. split; [vm_compute; reflexivity|]. repeat split.
Defined.

(** C6: a task directory without a record file.  [get_next_task] comes by
    it, returns [None], and its problem list stays empty. *)
Theorem a_directory_without_record_is_not_quarantined :
  ∃ w,
    w = scenario_world [("abc", Dir [])] ∧
    candidates (fs w) "/base/submitted" = ["/base/submitted/10.0.0.1/abc"] ∧
    record_status_of (K:=nbgwas_rest) (fs w) "/base/submitted/10.0.0.1/abc" = NoRecord ∧
    FileBasedSubmittedTaskFactory._problemlist scenario_factory = [] ∧
    FileBasedSubmittedTaskFactory.get_next_task (K:=nbgwas_rest) (w, scenario_factory) =
      (Return None, (w, scenario_factory)).
Proof. eexists. split; [reflexivity|]. repeat split. Qed.

(** ** No task moves backward *)

Section forward.
Context `{K : NbgwasRest} `{E : External}.
Variable n : nat.

Lemma sound_world_events (w w' : World) (evs : list event) :
  sound_world n w → events_of w w' evs → Forall forward_move evs →
  valid_names (fs w') = true → sound_world n w'.
Proof.
  intros [Hev _] Hevs Hok Hv. split; [|done].
  rewrite Hevs, drop_app. apply Forall_app. split; [done|].
  by apply Forall_drop.
Qed.

Lemma inv_weaken {O} (φ ψ : O → Prop) (s : World * O) :
  (∀ o, φ o → ψ o) → inv n φ s → inv n ψ s.
Proof. intros H [? ?]. split; [done|]. by apply H. Qed.

Lemma inv_emit {O} (φ : O → Prop) (e : event) :
  forward_move e → keeps (inv n φ) (emit e : M O unit).
Proof.
  intros He [w o] [Hw Ho]. split; [|done]. cbn [emit fst snd].
  eapply (sound_world_events w _ [e]); [done|done|by constructor|apply Hw].
Qed.

Lemma inv_put_self {O} (φ : O → Prop) (o : O) :
  φ o → keeps (inv n φ) (put_self o).
Proof. by intros Ho [w o'] [Hw _]. Qed.

Lemma inv_json_dump_file {O} (φ : O → Prop) (p : string) (j : json) :
  keeps (inv n φ) (json_dump_file p j : M O unit).
Proof.
  intros [w o] [Hw Ho].
  pose proof (json_dump_file_valid p j (w, o) (proj2 Hw)) as Hv.
  rewrite json_dump_file_run in *.
  destruct (FS.write (fs w) p (JsonText j)); (split; [|done]);
    by eapply (sound_world_events w _ [EvWrite p (JsonText j)]);
      [done|done|by constructor|].
Qed.

Lemma inv_on {O P A} (φ : O → Prop) (ψ : P → Prop) (o : P) (m : M P A) :
  keeps (inv n ψ) m → ψ o → keeps (inv n φ) (on o m).
Proof.
  intros Hm Ho. eapply keeps_on; [exact Hm| |].
  - by intros w s [Hw _].
  - by intros w w' s p [_ Hs] [Hw' _].
Qed.

End forward.

(** Splits a goal [keeps (inv n φ) m] along the structure of [m]. *)
Ltac inv_step :=
  lazymatch goal with
  | |- keeps _ (mbind _ _) => apply keeps_bind; [|intros ?]
  | |- keeps _ (_ ≫= _) => apply keeps_bind; [|intros ?]
  | |- keeps _ (mret _) => apply keeps_ret
  | |- keeps _ (raise _) => apply keeps_raise
  | |- keeps _ (pure_call _) => apply keeps_pure_call
  | |- keeps _ get_self => apply keeps_get_self
  | |- keeps _ get_fs => apply keeps_get_fs
  | |- keeps _ (json_dump_file _ _) => apply inv_json_dump_file
  | |- keeps _ (put_self _) => apply inv_put_self
  | |- keeps _ (emit _) => apply inv_emit
  | |- keeps _ (try_except _ _) => apply keeps_try; [|intros ?]
  | |- keeps _ (on _ _) => eapply (inv_on _ _ (λ _, True))
  | |- keeps _ (py_for _ _) => apply keeps_py_for; intros ?
  | |- keeps _ (match ?x with _ => _ end) => destruct x
  | |- keeps _ (let _ := _ in _) => cbv zeta
  end.

Section forward_task.
Context `{K : NbgwasRest} `{E : External}.
Variable n : nat.
Variable sts : list string.

Local Abbreviation I := (inv n (in_states sts)).

Lemma set_networkx_object_inv networkx_obj :
  keeps I (FileBasedTask.set_networkx_object networkx_obj).
Proof. by intros [w task] [Hw Ht]. Qed.

Lemma set_gene_level_summary_inv gls :
  keeps I (FileBasedTask.set_gene_level_summary gls).
Proof. by intros [w task] [Hw Ht]. Qed.

Lemma set_filtered_seed_list_inv seedlist :
  keeps I (FileBasedTask.set_filtered_seed_list seedlist).
Proof. by intros [w task] [Hw Ht]. Qed.

Lemma set_result_data_inv result :
  keeps I (FileBasedTask.set_result_data result).
Proof. by intros [w task] [Hw Ht]. Qed.

Lemma set_taskdict_inv taskdict :
  keeps I (FileBasedTask.set_taskdict taskdict).
Proof. by intros [w task] [Hw Ht]. Qed.

Lemma get_taskdir_inv : keeps I FileBasedTask.get_taskdir.
Proof. unfold FileBasedTask.get_taskdir. repeat inv_step. Qed.

Lemma save_task_inv : keeps I FileBasedTask.save_task.
Proof. unfold FileBasedTask.save_task. repeat inv_step. Qed.

Lemma get_networkx_object_inv self :
  keeps I (NbgwasTaskRunner._get_networkx_object self).
Proof.
  unfold NbgwasTaskRunner._get_networkx_object, FileBasedTask.get_network,
    FileBasedTask.get_ndex, NbgwasTaskRunner._get_networkx_object_from_sif_file,
    NbgwasTaskRunner._get_networkx_object_from_ndex, os_path_isfile, open_read.
  repeat inv_step.
Qed.

Lemma get_seeds_inv : keeps I NbgwasTaskRunner._get_seeds.
Proof.
  unfold NbgwasTaskRunner._get_seeds, FileBasedTask.get_seeds,
    FileBasedTask.get_networkx_object, NbgwasTaskRunner.check_seed.
  repeat inv_step; done.
Qed.

Lemma create_gene_level_summary_inv :
  keeps I NbgwasTaskRunner._create_gene_level_summary.
Proof.
  unfold NbgwasTaskRunner._create_gene_level_summary,
    FileBasedTask.get_networkx_object, FileBasedTask.get_filtered_seed_list.
  repeat inv_step.
Qed.

Lemma run_nbgwas_inv : keeps I NbgwasTaskRunner._run_nbgwas.
Proof.
  unfold NbgwasTaskRunner._run_nbgwas, FileBasedTask.get_gene_level_summary,
    FileBasedTask.get_networkx_object, FileBasedTask.get_alpha.
  repeat inv_step.
Qed.

End forward_task.

(** ** Loops and calls on other objects *)

Section calls.
Context {O : Type}.

(** the body of the loop may use that its item is in the list *)
Lemma keeps_py_for_from_in {A} (I : World * O → Prop) (lst : O → list A)
    (body : A → M O unit) (rounds idx : nat) :
  (∀ x, triple (λ s, I s ∧ x ∈ lst s.2) (body x) (λ _, I)) →
  keeps I (py_for_from rounds lst body idx).
Proof.
  intros Hbody. revert idx. induction rounds as [|k IH]; intros idx.
  - apply keeps_ret.
  - intros s Hs. cbn [py_for_from].
    destruct (lst s.2 !! idx) as [x|] eqn:Hx; [|done].
    apply (triple_bind (λ s', I s' ∧ x ∈ lst s'.2) (λ _, I) (λ _, I) (body x)
             (λ _, py_for_from k lst body (S idx))).
    + apply Hbody.
    + intros _. apply IH.
    + done.
    + split; [done|]. by eapply list_elem_of_lookup_2.
Qed.

Lemma keeps_py_for_in {A} (I : World * O → Prop) (lst : O → list A)
    (body : A → M O unit) :
  (∀ x, triple (λ s, I s ∧ x ∈ lst s.2) (body x) (λ _, I)) →
  keeps I (py_for lst body).
Proof.
  intros Hbody s Hs. unfold py_for.
  by apply (keeps_py_for_from_in I lst body (length (lst s.2)) 0 Hbody s).
Qed.

Lemma triple_on_field {P A} (I : World * O → Prop) (J : World * P → Prop)
    (R : outcome A → World * P → Prop) (Q : outcome A → World * O → Prop)
    (get : O → P) (set : P → O → O) (m : M P A) :
  triple J m R →
  (∀ w s, I (w, s) → J (w, get s)) →
  (∀ r w w' s p, I (w, s) → R r (w', p) → Q r (w', set p s)) →
  triple I (on_field get set m) Q.
Proof.
  intros Hm Hin Hout [w s] Hs. specialize (Hm (w, get s) (Hin _ _ Hs)).
  unfold on_field. cbn [fst snd] in *.
  destruct (m (w, get s)) as [r [w' p]]; cbn [fst snd] in *; by eapply Hout.
Qed.

Lemma triple_on {P A} (I : World * O → Prop) (J : World * P → Prop)
    (R : outcome A → World * P → Prop) (Q : World * O → Prop)
    (o : P) (m : M P A) :
  triple J m R →
  (∀ w s, I (w, s) → J (w, o)) →
  (∀ r w w' s p, I (w, s) → R r (w', p) → Q (w', s)) →
  triple I (on o m) (λ _, Q).
Proof.
  intros Hm Hin Hout [w s] Hs. specialize (Hm (w, o) (Hin _ _ Hs)).
  unfold on. cbn [fst snd] in *.
  destruct (m (w, o)) as [[a|e] [w' p]]; cbn [fst snd] in *; by eapply Hout.
Qed.

End calls.

Section forward_moves.
Context `{K : NbgwasRest} `{E : External}.
Variable n : nat.
Hypothesis Hstates : states_distinct.

Lemma save_events_forward (taskdir : string) (task : FileBasedTask.t) :
  Forall forward_move (save_events taskdir task).
Proof.
  unfold save_events. constructor; [done|].
  destruct (is_None _); by repeat constructor.
Qed.

(** Where [new_state] sends a task: [ERROR_STATUS] is folded into
    [DONE_STATUS]. *)
Lemma move_task_inv (st new_state : string) (error_message : option string) :
  let target := if bool_decide (new_state = ERROR_STATUS) then DONE_STATUS
                else new_state in
  st ≠ new_state →
  (st, target) ∈ [(SUBMITTED_STATUS, PROCESSING_STATUS);
                  (SUBMITTED_STATUS, DONE_STATUS);
                  (PROCESSING_STATUS, DONE_STATUS)] →
  triple (inv n (in_states [st]))
    (FileBasedTask.move_task new_state error_message)
    (λ r, match r with
          | Return _ => inv n (in_states [target])
          | Raise _ => inv n (in_states [st])
          end).
Proof.
  intros target Hne Hstep [w task] [Hw (taskdir & Hdir & Hip & Hst)].
  apply list_elem_of_singleton in Hst. cbn [fst snd] in *.
  destruct (FileBasedTask.move_task new_state error_message (w, task))
    as [r [w' task']] eqn:Hrun.
  apply (move_task_run _ _ _ _ taskdir) in Hrun
    as (Hvalid & _ & evs & Hevs & Hpre & Hr & _); [|done|by rewrite Hst].
  fold target in Hpre, Hr.
  assert (valid_name target = true) as Htarget.
  { destruct Hstates as (HS & HP & HD & _).
    repeat (apply elem_of_cons in Hstep as [[= _ ->]|Hstep]; [done|]).
    by apply elem_of_nil in Hstep. }
  destruct (path_facts.path_in_state_parse taskdir target Htarget Hip)
    as (Hst' & Hip' & Huuid').
  assert (sound_world n w') as Hw'.
  { eapply sound_world_events; [exact Hw|exact Hevs| |apply Hvalid, Hw].
    destruct Hpre as [k Hk].
    assert (Forall forward_move (evs ++ k)) as Hall; [|by apply Forall_app in Hall as [? ?]].
    rewrite <- Hk. apply Forall_app. split.
    - destruct (bool_decide _); [apply save_events_forward|constructor].
    - constructor; [|constructor]. unfold forward_move, advances.
      fold target. rewrite Hst', Hip', Huuid', Hst. by split. }
  cbn [fst snd]. destruct r as [x|e].
  - destruct Hr as (_ & _ & Hdir'). split; [done|].
    exists (path_in_state taskdir target).
    split; [done|]. split; [by rewrite Hip'|]. rewrite Hst'. by left.
  - split; [done|]. exists taskdir. split; [done|]. split; [done|].
    rewrite Hst. by left.
Qed.

Lemma states_ne :
  SUBMITTED_STATUS ≠ PROCESSING_STATUS ∧ SUBMITTED_STATUS ≠ DONE_STATUS ∧
  SUBMITTED_STATUS ≠ ERROR_STATUS ∧ PROCESSING_STATUS ≠ DONE_STATUS ∧
  PROCESSING_STATUS ≠ ERROR_STATUS ∧ DONE_STATUS ≠ ERROR_STATUS.
Proof.
  destruct Hstates as (_ & _ & _ & Hnd).
  rewrite !NoDup_cons, !not_elem_of_cons in Hnd.
  destruct Hnd as [(? & ? & ? & _) [(? & ? & _) [(? & _) _]]]. by repeat split.
Qed.

Lemma in_states_weaken (sts sts' : list string) (task : FileBasedTask.t) :
  sts ⊆ sts' → in_states sts task → in_states sts' task.
Proof.
  intros Hsub (taskdir & ? & ? & ?). exists taskdir. repeat split; try done.
  by apply Hsub.
Qed.

Lemma raises_in (st : string) (e : exn) (s : World * FileBasedTask.t) :
  st ∈ [SUBMITTED_STATUS; PROCESSING_STATUS] →
  inv n (in_states [st]) s → processed n (Raise e) s.
Proof.
  intros Hst. apply inv_weaken. intros task. apply in_states_weaken.
  by intros x ->%list_elem_of_singleton.
Qed.

Lemma processing_raises (e : exn) (s : World * FileBasedTask.t) :
  inv n (in_states [PROCESSING_STATUS]) s → processed n (Raise e) s.
Proof. apply raises_in. right. left. Qed.

(** The steps of [_process_task] after the move to [processing] that
    leave the task where it is. *)
Lemma process_step {A} (m : M FileBasedTask.t A) (f : A → M FileBasedTask.t unit) :
  keeps (inv n (in_states [PROCESSING_STATUS])) m →
  (∀ a, triple (inv n (in_states [PROCESSING_STATUS])) (f a) (processed n)) →
  triple (inv n (in_states [PROCESSING_STATUS])) (m ≫= f) (processed n).
Proof.
  intros Hm Hf. eapply triple_bind; [exact Hm|exact Hf|].
  intros e s. apply processing_raises.
Qed.

Lemma move_to_done (new_state : string) (error_message : option string) :
  new_state ∈ [DONE_STATUS; ERROR_STATUS] →
  triple (inv n (in_states [PROCESSING_STATUS]))
    (FileBasedTask.move_task new_state error_message;; mret tt) (processed n).
Proof.
  intros Hnew. destruct states_ne as (_ & _ & _ & HPD & HPE & HDE).
  assert ((if bool_decide (new_state = ERROR_STATUS) then DONE_STATUS
           else new_state) = DONE_STATUS) as Htarget.
  { case_bool_decide as He; [done|].
    apply elem_of_cons in Hnew as [->|Hnew]; [done|].
    by apply list_elem_of_singleton in Hnew. }
  assert (PROCESSING_STATUS ≠ new_state) as Hne.
  { intros <-. apply elem_of_cons in Hnew as [?|Hnew]; [done|].
    by apply list_elem_of_singleton in Hnew. }
  eapply triple_bind.
  - apply (move_task_inv PROCESSING_STATUS); [done|]. rewrite Htarget.
    right. right. left.
  - intros a. apply triple_ret. intros s. by apply inv_weaken.
  - intros e s. apply processing_raises.
Qed.

Lemma error_exit (emsg : string) :
  triple (inv n (in_states [PROCESSING_STATUS]))
    (emit (EvLogError emsg);;
     FileBasedTask.move_task ERROR_STATUS (Some emsg);; mret tt) (processed n).
Proof.
  apply process_step; [by apply inv_emit|]. intros _.
  apply move_to_done. right. left.
Qed.

Lemma process_task_inv (self : NbgwasTaskRunner.t) :
  triple (inv n (in_states [SUBMITTED_STATUS]))
    (NbgwasTaskRunner._process_task self) (processed n).
Proof.
  destruct states_ne as (HSP & _ & _ & _ & HPE & _).
  unfold NbgwasTaskRunner._process_task.
  eapply triple_bind; [apply get_taskdir_inv| |intros e s; apply raises_in; left].
  intros [taskdir|]; [|apply triple_raise; intros s; apply raises_in; left].
  eapply triple_bind;
    [apply (move_task_inv SUBMITTED_STATUS PROCESSING_STATUS);
       [done|rewrite bool_decide_eq_false_2 by done; left]
    | |intros e s; apply raises_in; left].
  intros ?. cbv beta iota. rewrite bool_decide_eq_false_2 by done.
  apply process_step; [apply get_networkx_object_inv|]. intros [g|].
  2:{ apply error_exit. }
  apply process_step; [apply set_networkx_object_inv|]. intros _.
  apply process_step; [apply get_seeds_inv|]. intros seed_list.
  destruct (match seed_list with None => true | Some l => _ end).
  { apply error_exit. }
  apply process_step; [apply set_filtered_seed_list_inv|]. intros _.
  apply process_step; [apply create_gene_level_summary_inv|]. intros [gls|].
  2:{ apply error_exit. }
  apply process_step; [apply set_gene_level_summary_inv|]. intros _.
  apply process_step; [apply run_nbgwas_inv|]. intros result.
  destruct (is_None result).
  { apply error_exit. }
  apply process_step; [apply set_result_data_inv|]. intros _.
  apply process_step; [apply save_task_inv|]. intros _.
  apply move_to_done. left.
Qed.

Lemma skip_task_inv (e : exn) :
  triple (inv n (in_states [SUBMITTED_STATUS; PROCESSING_STATUS]))
    (NbgwasTaskRunner.skip_task e) (λ _, inv n (λ _, True)).
Proof.
  assert (∀ st, st ∈ [SUBMITTED_STATUS; PROCESSING_STATUS] →
            triple (inv n (in_states [st])) (NbgwasTaskRunner.skip_task e)
              (λ _, inv n (λ _, True))) as Hone.
  { intros st Hst. unfold NbgwasTaskRunner.skip_task.
    eapply triple_bind; [apply get_taskdir_inv| |intros e' s; by apply inv_weaken].
    intros [taskdir|]; [|apply triple_raise; intros s; by apply inv_weaken].
    eapply triple_bind;
      [by apply inv_emit| |intros e' s; by apply inv_weaken].
    intros ?. cbv beta. destruct states_ne as (_ & HSD & HSE & HPD & HPE & _).
    eapply triple_bind.
    - apply (move_task_inv st ERROR_STATUS).
      + apply elem_of_cons in Hst as [->|Hst]; [done|].
        by apply list_elem_of_singleton in Hst as ->.
      + rewrite bool_decide_eq_true_2 by done.
        apply elem_of_cons in Hst as [->|Hst]; [right; left|].
        apply list_elem_of_singleton in Hst as ->. right. right. left.
    - intros ?. apply triple_ret. intros s. by apply inv_weaken.
    - intros e' s. by apply inv_weaken. }
  intros s [Hw (taskdir & Hdir & Hip & Hst)].
  apply (Hone (state_of_path taskdir) Hst). split; [done|].
  exists taskdir. repeat split; try done. by left.
Qed.



Lemma listing_valid (root : node) (p name : string) :
  valid_names root = true → name ∈ listing root p → valid_name name = true.
Proof.
  intros Hv. unfold listing.
  destruct (FS.resolve _ root) as [[|es]|] eqn:Hres; try by intros ?%elem_of_nil.
  apply (FS_facts.valid_names_resolve _ _ _ Hv) in Hres.
  apply FS_facts.valid_names_dir in Hres.
  intros ([name' child] & -> & Hin)%list_elem_of_fmap.
  by apply (proj1 (Forall_forall _ _) Hres _ Hin).
Qed.

(** The candidates of the scan are directories of submitted tasks. *)
Lemma candidates_submitted (root : node) (taskdir c : string) :
  valid_names root = true →
  c ∈ candidates root (posixpath.join taskdir [SUBMITTED_STATUS]) →
  submitted_path c.
Proof.
  intros Hv. unfold candidates.
  intros (entry & Hc & Hentry)%list_elem_of_bind. cbv zeta in Hc.
  destruct (FS.isdir root _); [|by apply elem_of_nil in Hc].
  apply list_elem_of_fmap in Hc as (subentry & -> & Hsub).
  apply (listing_valid _ _ _ Hv) in Hentry, Hsub.
  destruct Hstates as (HS & _).
  destruct (path_facts.parse_join3 taskdir SUBMITTED_STATUS entry subentry)
    as (Hst & Hip & _); [done|done|by apply path_facts.valid_name_spec in Hsub as [_ ?]|].
  split; [exact Hst|].
  change (ipaddr_of_path (posixpath.join taskdir [SUBMITTED_STATUS; entry; subentry])
          ≠ EmptyString).
  rewrite Hip. by apply path_facts.valid_name_spec in Hentry as [? _].
Qed.

Lemma submitted_in_states (taskdir : string) (jsondata : json) :
  submitted_path taskdir →
  in_states [SUBMITTED_STATUS] (FileBasedTask.new (Some taskdir) jsondata).
Proof.
  intros [Hst Hip]. exists taskdir. repeat split; [done|]. rewrite Hst. left.
Qed.

Lemma get_next_task_inv :
  triple (inv n factory_ok) FileBasedSubmittedTaskFactory.get_next_task (fetched n).
Proof.
  intros [w f] [Hw [Hsub Hpl]]. cbn [fst snd] in *.
  rewrite (get_next_task_run w f _ Hsub).
  destruct (FS.isdir (fs w) _) eqn:Hdir.
  - destruct (scan_spec (fs w) (FileBasedSubmittedTaskFactory._problemlist f)
                (candidates (fs w)
                   (posixpath.join (FileBasedSubmittedTaskFactory._taskdir f)
                      [SUBMITTED_STATUS])))
      as (scanned & rest & Hcands & _ & Hin & _ & _ & Hres).
    cbv zeta. cbn [fst snd]. split.
    + split; [done|]. split; [done|]. cbn.
      apply Forall_forall. intros c [Hc|[Hc _]]%Hin.
      * by apply (proj1 (Forall_forall _ _) Hpl).
      * apply (candidates_submitted (fs w) (FileBasedSubmittedTaskFactory._taskdir f));
          [apply Hw|]. rewrite Hcands. apply elem_of_app. by left.
    + intros task Htask. injection Htask as Htask.
      change (posixpath.join2 (FileBasedSubmittedTaskFactory._taskdir f) SUBMITTED_STATUS)
        with (posixpath.join (FileBasedSubmittedTaskFactory._taskdir f) [SUBMITTED_STATUS])
        in Htask.
      destruct rest as [|c rest]; [congruence|].
      destruct Hres as (jsondata & _ & Hres). rewrite Htask in Hres.
      injection Hres as ->. apply submitted_in_states.
      apply (candidates_submitted (fs w) (FileBasedSubmittedTaskFactory._taskdir f));
        [apply Hw|]. rewrite Hcands. apply elem_of_app. right. left.
  - split; [|done]. split; [|done]. cbn [fst].
    eapply (sound_world_events n w _ [EvLogError _]);
      [done|reflexivity|by repeat constructor|apply Hw].
Qed.

Lemma list_remove_first_Forall (P : string → Prop) (x : string) (l l' : list string) :
  list_remove_first x l = Some l' → Forall P l → Forall P l'.
Proof.
  revert l'. induction l as [|y l IH]; intros l'; [done|].
  cbn [list_remove_first]. intros Hrm [Hy Hl]%Forall_cons.
  destruct (decide _) as [?|?] in Hrm.
  - by injection Hrm as <-.
  - destruct (list_remove_first x l) as [l1|]; [|done].
    injection Hrm as <-. constructor; [done|]. by apply IH.
Qed.

Lemma clean_up_entry_inv (entry : string) :
  triple (λ s, inv n factory_ok s ∧
               entry ∈ FileBasedSubmittedTaskFactory._problemlist s.2)
    (FileBasedSubmittedTaskFactory.clean_up_entry entry)
    (λ _, inv n factory_ok).
Proof.
  destruct states_ne as (_ & HSD & HSE & _).
  unfold FileBasedSubmittedTaskFactory.clean_up_entry. cbv zeta.
  eapply triple_bind with (R := λ _, inv n factory_ok);
    [| |intros e s Hs; exact Hs].
  - eapply (triple_on _ (inv n (in_states [SUBMITTED_STATUS]))
              (λ _, inv n (λ _, True)) (inv n factory_ok)).
    + eapply triple_conseq;
        [apply (move_task_inv SUBMITTED_STATUS ERROR_STATUS);
           [done|rewrite bool_decide_eq_true_2 by done; right; left]
        |done|].
      intros [?|?] s; by apply inv_weaken.
    + intros w f [[Hw [_ Hpl]] Hin]. split; [done|].
      apply submitted_in_states.
      by apply (proj1 (Forall_forall _ _) Hpl).
    + intros r w w' f task [[_ Hf] _] [Hw' _]. by split.
  - intros ? [w f] [Hw [Hsub Hpl]].
    unfold FileBasedSubmittedTaskFactory.set_problemlist. run.
    destruct (list_remove_first entry _) as [problemlist|] eqn:Hrm; [|by split].
    split; [done|]. split; [done|]. cbn.
    by eapply list_remove_first_Forall.
Qed.

Lemma clean_up_problem_list_inv :
  keeps (inv n factory_ok) FileBasedSubmittedTaskFactory.clean_up_problem_list.
Proof. apply keeps_py_for_in, clean_up_entry_inv. Qed.

Lemma get_size_of_problem_list_inv :
  keeps (inv n factory_ok) FileBasedSubmittedTaskFactory.get_size_of_problem_list.
Proof.
  unfold FileBasedSubmittedTaskFactory.get_size_of_problem_list.
  repeat inv_step.
Qed.

Lemma on_taskfactory_inv {A} (m : M FileBasedSubmittedTaskFactory.t A) :
  keeps (inv n factory_ok) m →
  keeps (inv n runner_ok) (NbgwasTaskRunner.on_taskfactory m).
Proof.
  intros Hm. unfold NbgwasTaskRunner.on_taskfactory.
  eapply keeps_on_field; [exact Hm| |].
  - by intros w runner [Hw Hf].
  - by intros w w' runner f _ [Hw Hf].
Qed.

Lemma run_tasks_round_inv (cleanupcounter : Z) :
  keeps (inv n runner_ok) (NbgwasTaskRunner.run_tasks_round cleanupcounter).
Proof.
  unfold NbgwasTaskRunner.run_tasks_round.
  eapply (triple_bind _
            (λ r s, inv n runner_ok s ∧
                    ∀ task, r = Return (Some task) →
                            in_states [SUBMITTED_STATUS] task)).
  - unfold NbgwasTaskRunner.on_taskfactory.
    eapply triple_on_field; [apply get_next_task_inv| |].
    + by intros w runner [Hw Hf].
    + intros r w w' runner f _ [[Hw Hf] Htask]. by split.
  - intros [task|].
    + eapply triple_bind with (R := λ _ s, inv n runner_ok s ∧
                                 in_states [SUBMITTED_STATUS] task).
      * intros [w runner] [Hs Htask]. split; [done|]. by apply Htask.
      * intros self.
        eapply triple_bind with (R := λ _, inv n runner_ok);
          [| |intros e s Hs; exact Hs].
        -- eapply (triple_on _ (inv n (in_states [SUBMITTED_STATUS]))
                     (λ _, inv n (λ _, True)) (inv n runner_ok)).
           ++ eapply triple_try;
                [apply process_task_inv|by intros a s|apply skip_task_inv].
           ++ by intros w runner [[Hw _] Htask].
           ++ intros r w w' runner task' [[_ Hr] _] [Hw' _]. by split.
        -- intros ?. apply keeps_ret.
      * by intros e s [Hs _].
    + eapply triple_conseq with (P' := inv n runner_ok) (Q' := λ _, inv n runner_ok);
        [|by intros s [Hs _]|done].
      apply keeps_bind;
        [apply on_taskfactory_inv, get_size_of_problem_list_inv|intros size].
      apply keeps_bind; [apply keeps_get_self|intros self].
      destruct (bool_decide (size > 0)); [destruct (bool_decide _)|].
      * apply keeps_bind;
          [apply on_taskfactory_inv, clean_up_problem_list_inv|intros ?].
        apply keeps_ret.
      * unfold time_sleep. by repeat inv_step.
      * unfold time_sleep. by repeat inv_step.
  - by intros e s [Hs _].
Qed.

Lemma run_tasks_from_inv (rounds : nat) (cleanupcounter : Z) :
  keeps (inv n runner_ok) (NbgwasTaskRunner.run_tasks_from rounds cleanupcounter).
Proof.
  revert cleanupcounter. induction rounds as [|rounds IH]; intros cleanupcounter.
  - apply keeps_ret.
  - cbn [NbgwasTaskRunner.run_tasks_from].
    apply keeps_bind; [apply run_tasks_round_inv|apply IH].
Qed.

End forward_moves.

(** C8: the runner on a fresh factory, for any number of rounds of its loop,
    on files with valid names and with four different state names.  Every
    move of a task directory it asks for, from the start of the run on,
    takes the task from [submitted] to [processing], from [submitted] to
    [done] or from [processing] to [done], and keeps the client and the
    uuid; this holds when the run ends by an exception as well. *)
Theorem run_tasks_never_moves_a_task_backward `{K : NbgwasRest} `{E : External}
    (rounds : nat) (w : World) (wait_time : Z) (taskdir : string) :
  states_distinct →
  valid_names (fs w) = true →
  events_from (length (trace w)) forward_move
    (NbgwasTaskRunner.run_tasks rounds
       (w, NbgwasTaskRunner.new wait_time
             (FileBasedSubmittedTaskFactory.new taskdir))).2.
Proof.
  intros Hstates Hvalid.
  apply (run_tasks_from_inv (length (trace w)) Hstates rounds 0
           (w, NbgwasTaskRunner.new wait_time
                 (FileBasedSubmittedTaskFactory.new taskdir))).
  split.
  - split; [|done]. cbn [fst]. rewrite drop_all. constructor.
  - split; [reflexivity|constructor].
Qed.

Lemma states_distinct_nbgwas_rest : states_distinct (K:=nbgwas_rest).
Proof.
  repeat split; try reflexivity.
  apply (bool_decide_unpack _). vm_compute. exact I.
Qed.

Lemma run_tasks_never_moves_a_task_backward_witness :
  events_from 0 (forward_move (K:=nbgwas_rest))
    (NbgwasTaskRunner.run_tasks (K:=nbgwas_rest) (E:=scenario_external) 2
       (scenario_world
          [("abc", Dir [("task.json", File (JsonText (scenario_record "G1,G2")));
                        scenario_network]);
           ("def", Dir [("task.json", File (RawText "{"))])],
        scenario_runner)).2.
Proof.
  apply (run_tasks_never_moves_a_task_backward (K:=nbgwas_rest) (E:=scenario_external) 2
           (scenario_world
              [("abc", Dir [("task.json", File (JsonText (scenario_record "G1,G2")));
                            scenario_network]);
               ("def", Dir [("task.json", File (RawText "{"))])])
           30 "/base").
  - exact states_distinct_nbgwas_rest.
  - reflexivity.
Defined.

(** ** Loops that remove from the list they run over *)

Lemma list_remove_first_app (x : string) (pre l : list string) :
  x ∉ pre → list_remove_first x (pre ++ x :: l) = Some (pre ++ l).
Proof.
  induction pre as [|y pre IH]; intros Hx; cbn [app list_remove_first].
  - by rewrite decide_True.
  - apply not_elem_of_cons in Hx as [Hxy Hx].
    rewrite decide_False by done. by rewrite IH.
Qed.

Lemma py_remove_loop_keep_all (keep : string → bool) (l : list string) :
  Forall (λ x, keep x = true) l → py_remove_loop keep l = l.
Proof.
  induction 1 as [|x l Hx _ IH]; [done|]. cbn. by rewrite Hx, IH.
Qed.

Lemma py_remove_loop_drop_all_length (l : list string) :
  length (py_remove_loop (λ _, false) l) = Nat.div2 (length l).
Proof.
  assert (∀ k l, (length l ≤ k)%nat →
            length (py_remove_loop (λ _, false) l) = Nat.div2 (length l)) as H.
  { intros k. induction k as [|k IH]; intros [|x [|y l']] Hk; cbn in *; try done.
    - lia.
    - f_equal. apply IH. lia. }
  by apply (H (length l)).
Qed.

Section remove_loop.
Context {O : Type}.
Variable lst : O → list string.
Variable body : string → M O unit.
Variable keep : string → bool.
Hypothesis Hkeep : ∀ x s, keep x = true → lst (body x s).2.2 = lst s.2.
Hypothesis Hdrop :
  ∀ x s, keep x = false → (body x s).1 = Return tt →
         list_remove_first x (lst s.2) = Some (lst (body x s).2.2).

Lemma py_for_from_end (rounds idx : nat) (s : World * O) :
  lst s.2 !! idx = None → py_for_from rounds lst body idx s = (Return tt, s).
Proof. destruct rounds; [done|]. cbn [py_for_from]. by intros ->. Qed.

Lemma py_for_from_remove (rounds : nat) (pre l : list string) (s : World * O) :
  lst s.2 = pre ++ l → NoDup (pre ++ l) → (length l ≤ rounds)%nat →
  (py_for_from rounds lst body (length pre) s).1 = Return tt →
  lst (py_for_from rounds lst body (length pre) s).2.2 =
    pre ++ py_remove_loop keep l.
Proof.
  revert pre l s. induction rounds as [|k IH]; intros pre l s Hl Hnd Hlen.
  { destruct l; [|cbn in Hlen; lia]. by intros _. }
  destruct l as [|x l'].
  { rewrite py_for_from_end; [done|]. rewrite Hl, app_nil_r.
    by apply lookup_ge_None_2. }
  cbn [py_for_from]. rewrite Hl, list_lookup_middle by done.
  rewrite run_bind.
  pose proof (Hkeep x s) as Hk. pose proof (Hdrop x s) as Hd.
  destruct (body x s) as [[[]|e] s1]; cbn [fst snd] in *; [|done].
  destruct (keep x) eqn:Hx.
  - specialize (Hk eq_refl). rewrite Hl in Hk.
    replace (S (length pre)) with (length (pre ++ [x]))
      by (rewrite length_app; cbn; lia).
    intros Hret. rewrite (IH (pre ++ [x]) l'); try done.
    + cbn [py_remove_loop]. by rewrite Hx, <- app_assoc.
    + by rewrite <- app_assoc.
    + by rewrite <- app_assoc.
    + cbn in Hlen. lia.
  - specialize (Hd eq_refl eq_refl). rewrite Hl in Hd.
    rewrite list_remove_first_app in Hd.
    2:{ apply NoDup_app in Hnd as (_ & Hnd & _). intros Hin.
        apply (Hnd x Hin). left. }
    injection Hd as Hd. destruct l' as [|y l''].
    + rewrite py_for_from_end.
      * intros _. cbn [snd py_remove_loop]. by rewrite Hx, <- Hd.
      * rewrite <- Hd, app_nil_r. apply lookup_ge_None_2. lia.
    + replace (S (length pre)) with (length (pre ++ [y]))
        by (rewrite length_app; cbn; lia).
      intros Hret. rewrite (IH (pre ++ [y]) l''); try done.
      * cbn [py_remove_loop]. by rewrite Hx, <- app_assoc.
      * by rewrite <- app_assoc, <- Hd.
      * rewrite <- app_assoc. cbn [app].
        eapply sublist_NoDup; [exact Hnd|].
        apply sublist_app; [done|]. by apply sublist_cons.
      * cbn in Hlen. lia.
Qed.

Lemma py_for_remove (s : World * O) :
  NoDup (lst s.2) →
  (py_for lst body s).1 = Return tt →
  lst (py_for lst body s).2.2 = py_remove_loop keep (lst s.2).
Proof.
  intros Hnd. unfold py_for.
  by apply (py_for_from_remove (length (lst s.2)) [] (lst s.2) s).
Qed.

(** a body that returns on the items of the list makes the loop return *)
Lemma py_for_from_returns (rounds idx : nat) (s : World * O) :
  (∀ x s, x ∈ lst s.2 → (body x s).1 = Return tt) →
  (py_for_from rounds lst body idx s).1 = Return tt.
Proof.
  intros Hret. revert idx s. induction rounds as [|k IH]; intros idx s; [done|].
  cbn [py_for_from]. destruct (lst s.2 !! idx) as [x|] eqn:Hx; [|done].
  rewrite run_bind. pose proof (Hret x s (list_elem_of_lookup_2 _ _ _ Hx)) as Hb.
  destruct (body x s) as [[[]|e] s1]; cbn [fst] in *; [|done]. apply IH.
Qed.

(** a body that leaves the world alone makes a loop that does *)
Lemma py_for_from_world (rounds idx : nat) (s : World * O) :
  (∀ x s, (body x s).2.1 = s.1) →
  (py_for_from rounds lst body idx s).2.1 = s.1.
Proof.
  intros Hw. revert idx s. induction rounds as [|k IH]; intros idx s; [done|].
  cbn [py_for_from]. destruct (lst s.2 !! idx) as [x|] eqn:Hx; [|done].
  rewrite run_bind. pose proof (Hw x s) as Hb.
  destruct (body x s) as [[[]|e] s1]; cbn [fst snd] in *; [|done].
  by rewrite IH.
Qed.

End remove_loop.

Lemma str_split_nonempty (sep : ascii) (s : string) : str_split sep s ≠ [].
Proof.
  destruct s as [|c r]; [done|]. cbn [str_split].
  destruct (Ascii.eqb c sep); [done|]. by destruct (str_split sep r).
Qed.

Lemma list_remove_first_elem (x : string) (l : list string) :
  x ∈ l → is_Some (list_remove_first x l).
Proof.
  induction l as [|y l IH]; [by intros ?%elem_of_nil|].
  cbn [list_remove_first]. intros Hx. destruct (decide (y = x)) as [->|Hne]; [done|].
  apply elem_of_cons in Hx as [->|Hx]; [done|].
  destruct (IH Hx) as [l' ->]. done.
Qed.

Section seeds.
Context `{K : NbgwasRest}.

Lemma check_seed_loop (w : World) (g : Graph) (slist : list string) :
  NoDup slist →
  py_for id (NbgwasTaskRunner.check_seed (Some g)) (w, slist) =
  (Return tt, (w, py_remove_loop (λ s, bool_decide (s ∈ nodes g)) slist)).
Proof.
  intros Hnd.
  pose (body := NbgwasTaskRunner.check_seed (Some g)).
  pose (keep := λ s : string, bool_decide (s ∈ nodes g)).
  assert (∀ x s, keep x = true → id (body x s).2.2 = id s.2) as Hkeep.
  { intros x [w' l] Hx. unfold body, NbgwasTaskRunner.check_seed.
    unfold keep in Hx. by rewrite Hx. }
  assert (∀ x s, keep x = false → (body x s).1 = Return tt →
            list_remove_first x (id s.2) = Some (id (body x s).2.2)) as Hdrop.
  { intros x [w' l] Hx. unfold body, NbgwasTaskRunner.check_seed.
    unfold keep in Hx. rewrite Hx. run. unfold id.
    by destruct (list_remove_first x l). }
  assert (∀ x (s : World * list string), x ∈ id s.2 → (body x s).1 = Return tt)
    as Hret.
  { intros x [w' l] Hx. unfold body, NbgwasTaskRunner.check_seed.
    destruct (bool_decide _); [done|]. run.
    by destruct (list_remove_first_elem x l Hx) as [l' ->]. }
  assert (∀ x (s : World * list string), (body x s).2.1 = s.1) as Hworld.
  { intros x [w' l]. unfold body, NbgwasTaskRunner.check_seed.
    destruct (bool_decide _); [done|]. run.
    by destruct (list_remove_first x l). }
  pose proof (py_for_remove id body keep Hkeep Hdrop (w, slist) Hnd) as Hlist.
  pose proof (py_for_from_returns id body (length slist) 0 (w, slist) Hret) as Hr.
  pose proof (py_for_from_world id body (length slist) 0 (w, slist) Hworld) as Hw.
  unfold py_for in *. fold body. cbn [fst snd id] in *.
  destruct (py_for_from _ id body 0 (w, slist)) as [r [w' l']].
  cbn [fst snd] in *. rewrite Hr in Hlist. subst. by rewrite Hlist.
Qed.

(** X1: what [_get_seeds] returns for a task with a network and a seed
    string whose items are all different.  The loop checks the items one by
    one, but passes over the item that follows one it removes: the result
    is [py_remove_loop] of the items, [None] with an error record when
    that is empty; the task and the files are as they were. *)
Theorem get_seeds_passes_over_the_item_after_a_removed_one
    (w : World) (task : FileBasedTask.t) (seeds : string) (g : Graph) :
  py_getitem (FileBasedTask._taskdict task) SEEDS_PARAM = Return (JStr seeds) →
  FileBasedTask._networkx_obj task = Some g →
  NoDup (str_split "," seeds) →
  let slist := py_remove_loop (λ s, bool_decide (s ∈ nodes g))
                 (str_split "," seeds) in
  NbgwasTaskRunner._get_seeds (w, task) =
  match slist with
  | [] =>
      (Return None,
       (mkWorld (fs w)
          (trace w ++ [EvLogError "No seeds left after checking them againstnetwork"]),
        task))
  | _ => (Return (Some slist), (w, task))
  end.
Proof.
  intros Hseeds Hg Hnd slist.
  unfold NbgwasTaskRunner._get_seeds, FileBasedTask.get_seeds,
    FileBasedTask.get_networkx_object.
  run. rewrite Hseeds. run. rewrite Hg. unfold on. cbn [fst snd].
  rewrite (check_seed_loop w g _ Hnd). fold slist.
  by destruct slist.
Qed.

(** X2: when every item of the seed string is a node of the network,
    [_get_seeds] returns the items as they are, in their order, and leaves
    the task and the world as they were. *)
Theorem get_seeds_returns_the_seeds_of_the_network
    (w : World) (task : FileBasedTask.t) (seeds : string) (g : Graph) :
  py_getitem (FileBasedTask._taskdict task) SEEDS_PARAM = Return (JStr seeds) →
  FileBasedTask._networkx_obj task = Some g →
  Forall (λ s, s ∈ nodes g) (str_split "," seeds) →
  NbgwasTaskRunner._get_seeds (w, task) =
  (Return (Some (str_split "," seeds)), (w, task)).
Proof.
  intros Hseeds Hg Hall.
  unfold NbgwasTaskRunner._get_seeds, FileBasedTask.get_seeds,
    FileBasedTask.get_networkx_object.
  run. rewrite Hseeds. run. rewrite Hg. unfold on. cbn [fst snd].
  assert (∀ rounds idx,
            py_for_from rounds id (NbgwasTaskRunner.check_seed (Some g)) idx
              (w, str_split "," seeds) = (Return tt, (w, str_split "," seeds)))
    as Hloop.
  { intros rounds. induction rounds as [|k IH]; intros idx; [done|].
    cbn [py_for_from snd id].
    destruct (str_split "," seeds !! idx) as [x|] eqn:Hx; [|done].
    rewrite run_bind. unfold NbgwasTaskRunner.check_seed at 1.
    rewrite bool_decide_eq_true_2.
    2:{ apply (proj1 (Forall_forall _ _) Hall). by eapply list_elem_of_lookup_2. }
    apply IH. }
  unfold py_for. cbn [snd id]. rewrite Hloop.
  pose proof (str_split_nonempty "," seeds) as Hne.
  destruct (str_split "," seeds); [done|]. reflexivity.
Qed.

(** X3: a pass of [clean_up_problem_list] that returns, on a problem list
    without duplicates, retires the entries at the even indices only: the
    removal of an entry moves the next one to the index the iterator has
    left.  What stays listed is every second entry, half of the list
    (rounded down). *)
Theorem clean_up_problem_list_leaves_half_of_the_list
    (w : World) (f : FileBasedSubmittedTaskFactory.t) :
  NoDup (FileBasedSubmittedTaskFactory._problemlist f) →
  (FileBasedSubmittedTaskFactory.clean_up_problem_list (w, f)).1 = Return tt →
  let f' := (FileBasedSubmittedTaskFactory.clean_up_problem_list (w, f)).2.2 in
  FileBasedSubmittedTaskFactory._problemlist f' =
    py_remove_loop (λ _, false) (FileBasedSubmittedTaskFactory._problemlist f) ∧
  length (FileBasedSubmittedTaskFactory._problemlist f') =
    Nat.div2 (length (FileBasedSubmittedTaskFactory._problemlist f)).
Proof.
  intros Hnd Hret f'.
  assert (FileBasedSubmittedTaskFactory._problemlist f' =
          py_remove_loop (λ _, false) (FileBasedSubmittedTaskFactory._problemlist f))
    as Hlist.
  { apply (py_for_remove FileBasedSubmittedTaskFactory._problemlist
             FileBasedSubmittedTaskFactory.clean_up_entry (λ _, false));
      [done| |done|done].
    intros entry [w1 f1] _. unfold FileBasedSubmittedTaskFactory.clean_up_entry.
    cbv zeta. rewrite run_bind. unfold on. cbn [fst snd].
    destruct (FileBasedTask.move_task _ _ _) as [[a|e] [w2 task2]]; [|done].
    unfold FileBasedSubmittedTaskFactory.set_problemlist. run.
    by destruct (list_remove_first entry _). }
  split; [done|]. rewrite Hlist. apply py_remove_loop_drop_all_length.
Qed.

End seeds.

Lemma get_seeds_passes_over_the_item_after_a_removed_one_witness :
  NbgwasTaskRunner._get_seeds (K:=nbgwas_rest)
    (scenario_world [],
     FileBasedTask.mk (Some "/base/processing/10.0.0.1/abc")
       (scenario_record "X1,G1,X2,X3,G2") (Some scenario_graph) None None JNull) =
  (Return (Some ["G1"; "X3"; "G2"]),
   (scenario_world [],
    FileBasedTask.mk (Some "/base/processing/10.0.0.1/abc")
      (scenario_record "X1,G1,X2,X3,G2") (Some scenario_graph) None None JNull)).
Proof.
  apply (get_seeds_passes_over_the_item_after_a_removed_one (K:=nbgwas_rest)
           (scenario_world [])
           (FileBasedTask.mk (Some "/base/processing/10.0.0.1/abc")
              (scenario_record "X1,G1,X2,X3,G2") (Some scenario_graph) None None JNull)
           "X1,G1,X2,X3,G2" scenario_graph).
  - reflexivity.
  - reflexivity.
  - apply (bool_decide_unpack _). vm_compute. exact I.
Defined.

Lemma get_seeds_returns_the_seeds_of_the_network_witness :
  NbgwasTaskRunner._get_seeds (K:=nbgwas_rest)
    (scenario_world [],
     FileBasedTask.mk (Some "/base/processing/10.0.0.1/abc")
       (scenario_record "G3,G1") (Some scenario_graph) None None JNull) =
  (Return (Some ["G3"; "G1"]),
   (scenario_world [],
    FileBasedTask.mk (Some "/base/processing/10.0.0.1/abc")
      (scenario_record "G3,G1") (Some scenario_graph) None None JNull)).
Proof.
  apply (get_seeds_returns_the_seeds_of_the_network (K:=nbgwas_rest)
           (scenario_world [])
           (FileBasedTask.mk (Some "/base/processing/10.0.0.1/abc")
              (scenario_record "G3,G1") (Some scenario_graph) None None JNull)
           "G3,G1" scenario_graph).
  - reflexivity.
  - reflexivity.
  - apply (bool_decide_unpack _). vm_compute. exact I.
Defined.

Lemma clean_up_problem_list_leaves_half_of_the_list_witness :
  let corrupt := Dir [("task.json", File (RawText "{"))] in
  let w := scenario_world [("abc", corrupt); ("def", corrupt); ("ghi", corrupt)] in
  let f := FileBasedSubmittedTaskFactory.mk "/base" (Some "/base/submitted")
             ["/base/submitted/10.0.0.1/abc"; "/base/submitted/10.0.0.1/def";
              "/base/submitted/10.0.0.1/ghi"] in
  let f' := (FileBasedSubmittedTaskFactory.clean_up_problem_list (K:=nbgwas_rest)
               (w, f)).2.2 in
  FileBasedSubmittedTaskFactory._problemlist f' =
    py_remove_loop (λ _, false) (FileBasedSubmittedTaskFactory._problemlist f) ∧
  length (FileBasedSubmittedTaskFactory._problemlist f') =
    Nat.div2 (length (FileBasedSubmittedTaskFactory._problemlist f)).
Proof.
  intros corrupt w f.
  apply (clean_up_problem_list_leaves_half_of_the_list (K:=nbgwas_rest) w f).
  - apply (bool_decide_unpack _). vm_compute. exact I.
  - vm_compute. reflexivity.
Defined.

(** ** The task directory and the state it encodes *)

Section task_paths.
Context `{K : NbgwasRest}.

Lemma get_state_run (w : World) (task : FileBasedTask.t) (taskdir : string) :
  FileBasedTask._taskdir task = Some taskdir →
  FileBasedTask.get_state (w, task) =
  (Return (Some (state_of_path taskdir)), (w, task)).
Proof.
  intros Hdir. unfold FileBasedTask.get_state.
  by rewrite run_bind, (attrib_run _ _ _ Hdir).
Qed.

Lemma get_task_uuid_run (w : World) (task : FileBasedTask.t) (taskdir : string) :
  FileBasedTask._taskdir task = Some taskdir →
  FileBasedTask.get_task_uuid (w, task) =
  (Return (Some (uuid_of_path taskdir)), (w, task)).
Proof.
  intros Hdir. unfold FileBasedTask.get_task_uuid.
  by rewrite run_bind, (attrib_run _ _ _ Hdir).
Qed.

(** X4: a task without a directory.  [save_task] and [move_task] return
    their messages instead of raising, [get_state], [get_task_uuid] and
    [get_network] return [None]; no file is written or moved and the task
    stays as it is; the calls that parse the path leave the error record
    [Task dir not set]. *)
Theorem a_task_without_directory_is_left_alone
    (w : World) (task : FileBasedTask.t) (new_state : string)
    (error_message : option string) :
  FileBasedTask._taskdir task = None →
  let w' := mkWorld (fs w) (trace w ++ [EvLogError "Task dir not set"]) in
  FileBasedTask.save_task (w, task) = (Return (Some "Task dir is None"), (w, task)) ∧
  FileBasedTask.move_task new_state error_message (w, task) =
    (Return (Some "Unable to extract state basedir from task path"), (w', task)) ∧
  FileBasedTask.get_state (w, task) = (Return None, (w', task)) ∧
  FileBasedTask.get_task_uuid (w, task) = (Return None, (w', task)) ∧
  FileBasedTask.get_network (w, task) = (Return None, (w, task)).
Proof.
  intros Hdir w'.
  unfold FileBasedTask.save_task, FileBasedTask.move_task, FileBasedTask.get_state,
    FileBasedTask.get_task_uuid, FileBasedTask.get_network,
    FileBasedTask._get_uuid_ip_state_basedir_from_path.
  run. rewrite Hdir. by repeat split.
Qed.

(** X5: the path of a task reads back.  For a task whose directory is
    [base/state/ip/uuid], with a base that is not empty and does not end
    in a separator, and names without separator for the three others
    ([state] and [ip] not empty), [_get_uuid_ip_state_basedir_from_path]
    returns just these four parts. *)
Theorem the_task_path_reads_back
    (w : World) (task : FileBasedTask.t) (base st ip id : string) :
  base ≠ EmptyString → posixpath.endswith_sep base = false →
  valid_name st = true → valid_name ip = true → posixpath.has_sep id = false →
  FileBasedTask._taskdir task = Some (posixpath.join base [st; ip; id]) →
  FileBasedTask._get_uuid_ip_state_basedir_from_path (w, task) =
  (Return (FileBasedTask.mkattrib (Some base) (Some st) (Some ip) (Some id)),
   (w, task)).
Proof.
  intros Hbase Hend Hst Hip Hid Hdir.
  rewrite (attrib_run _ _ _ Hdir).
  destruct (path_facts.parse_join3 base st ip id Hst Hip Hid) as (-> & -> & ->).
  do 4 f_equal.
  apply path_facts.valid_name_spec in Hst as [Hst1 Hst2].
  apply path_facts.valid_name_spec in Hip as [Hip1 Hip2].
  unfold basedir_of_path, posixpath.join. cbn [foldl].
  destruct (path_facts.join2_proper base st Hst1 Hst2) as [? ?].
  destruct (path_facts.join2_proper (posixpath.join2 base st) ip Hip1 Hip2) as [? ?].
  by rewrite !path_facts.dirname_join2.
Qed.

(** X6: [move_task] and [get_state] agree.  When [move_task] to a state
    other than the current one returns, on a task in the directory of a
    client, the task reports the new state ([DONE_STATUS] when it was sent
    to [ERROR_STATUS]) and its uuid as before; the call returned [None]. *)
Theorem move_task_then_get_state
    (w w' : World) (task task' : FileBasedTask.t) (taskdir new_state : string)
    (error_message : option string) (x : option string) :
  let target := if bool_decide (new_state = ERROR_STATUS) then DONE_STATUS
                else new_state in
  FileBasedTask._taskdir task = Some taskdir →
  ipaddr_of_path taskdir ≠ EmptyString →
  valid_name target = true →
  state_of_path taskdir ≠ new_state →
  FileBasedTask.move_task new_state error_message (w, task) =
    (Return x, (w', task')) →
  x = None ∧
  FileBasedTask.get_state (w', task') = (Return (Some target), (w', task')) ∧
  FileBasedTask.get_task_uuid (w', task') =
    (Return (Some (uuid_of_path taskdir)), (w', task')).
Proof.
  intros target Hdir Hip Htarget Hne Hrun.
  apply (move_task_run _ _ _ _ taskdir) in Hrun
    as (_ & _ & evs & _ & _ & (-> & _ & Hdir') & _); [|done|done].
  fold target in Hdir'.
  destruct (path_facts.path_in_state_parse taskdir target Htarget Hip)
    as (Hst & _ & Huuid).
  rewrite (get_state_run _ _ _ Hdir'), (get_task_uuid_run _ _ _ Hdir').
  by rewrite Hst, Huuid.
Qed.

(** X7: [move_task] to [ERROR_STATUS] on a task whose record is no mapping
    (a JSON array, string, number, ...) raises on the assignment of the
    error message: nothing is written, nothing is moved, the task stays
    where it is. *)
Theorem move_task_error_needs_a_mapping
    (w : World) (task : FileBasedTask.t) (taskdir : string)
    (error_message : option string) :
  FileBasedTask._taskdir task = Some taskdir →
  state_of_path taskdir ≠ ERROR_STATUS →
  (∀ fields, FileBasedTask._taskdict task ≠ JObj fields) →
  ∃ e,
    FileBasedTask.move_task ERROR_STATUS error_message (w, task) =
      (Raise e, (w, task)) ∧
    py_setitem (FileBasedTask._taskdict task) ERROR_PARAM
      (JStr (default "Unknown error" error_message)) = Raise e.
Proof.
  intros Hdir Hne Hdict. unfold FileBasedTask.move_task.
  rewrite run_bind, (attrib_run _ _ _ Hdir).
  cbn [FileBasedTask.basedir FileBasedTask.state].
  destruct (decide (Some (state_of_path taskdir) = Some ERROR_STATUS)) as [[=]|_];
    [done|].
  rewrite decide_True by done. run.
  destruct (FileBasedTask._taskdict task) as [| | | | |fields];
    try (eexists; split; reflexivity).
  by destruct (Hdict fields).
Qed.

End task_paths.

Lemma a_task_without_directory_is_left_alone_witness :
  FileBasedTask.save_task (K:=nbgwas_rest)
    (scenario_world [], FileBasedTask.new None (scenario_record "G1")) =
  (Return (Some "Task dir is None"),
   (scenario_world [], FileBasedTask.new None (scenario_record "G1"))).
Proof.
  apply (a_task_without_directory_is_left_alone (K:=nbgwas_rest) (scenario_world [])
           (FileBasedTask.new None (scenario_record "G1")) "processing" None).
  reflexivity.
Defined.

Lemma the_task_path_reads_back_witness :
  FileBasedTask._get_uuid_ip_state_basedir_from_path
    (scenario_world [], scenario_task "submitted" (scenario_record "G1")) =
  (Return (FileBasedTask.mkattrib (Some "/base") (Some "submitted")
             (Some "10.0.0.1") (Some "abc")),
   (scenario_world [], scenario_task "submitted" (scenario_record "G1"))).
Proof.
  apply (the_task_path_reads_back (scenario_world [])
           (scenario_task "submitted" (scenario_record "G1"))
           "/base" "submitted" "10.0.0.1" "abc"); try reflexivity.
  discriminate.
Defined.

Lemma move_task_then_get_state_witness :
  ∃ w' task',
    FileBasedTask.get_state (w', task') =
      (Return (Some "done"), (w', task')) ∧
    FileBasedTask._taskdir task' = Some "/base/done/10.0.0.1/abc".
Proof.
  destruct (FileBasedTask.move_task (K:=nbgwas_rest) "error" (Some "No result generated")
              (scenario_world [("abc", Dir [])],
               scenario_task "submitted" (scenario_record "G1")))
    as [r [w' task']] eqn:Hrun.
  exists w', task'.
  vm_compute in Hrun. injection Hrun as <- <- <-.
  split; [|reflexivity].
  apply (move_task_then_get_state (K:=nbgwas_rest)
           (scenario_world [("abc", Dir [])]) _
           (scenario_task "submitted" (scenario_record "G1")) _
           "/base/submitted/10.0.0.1/abc" "error" (Some "No result generated") None);
    try reflexivity; try discriminate.
Defined.

Lemma move_task_error_needs_a_mapping_witness :
  ∃ e,
    FileBasedTask.move_task (K:=nbgwas_rest) "error" None
      (scenario_world [("abc", Dir [])], scenario_task "submitted" (JArr [])) =
      (Raise e, (scenario_world [("abc", Dir [])], scenario_task "submitted" (JArr []))) ∧
    py_setitem (JArr []) "error" (JStr "Unknown error") = Raise e.
Proof.
  apply (move_task_error_needs_a_mapping (K:=nbgwas_rest)
           (scenario_world [("abc", Dir [])]) (scenario_task "submitted" (JArr []))
           "/base/submitted/10.0.0.1/abc" None); try reflexivity; discriminate.
Defined.

(** ** What the factory hands out, and the idle rounds of the runner *)

Section fetch.
Context `{K : NbgwasRest} `{E : External}.

Lemma candidates_shape (root : node) (submitdir c : string) :
  c ∈ candidates root submitdir →
  ∃ entry subentry,
    c = posixpath.join submitdir [entry; subentry] ∧
    entry ∈ listing root submitdir ∧
    subentry ∈ listing root (posixpath.join submitdir [entry]).
Proof.
  unfold candidates.
  intros (entry & Hc & Hentry)%list_elem_of_bind. cbv zeta in Hc.
  destruct (FS.isdir root _); [|by apply elem_of_nil in Hc].
  apply list_elem_of_fmap in Hc as (subentry & -> & Hsub).
  by exists entry, subentry.
Qed.

Lemma scan_none (root : node) (problemlist cands : list string) :
  Forall (λ c, ¬ readable root c) cands →
  (scan root problemlist cands).1 = None.
Proof.
  intros Hnone. revert problemlist.
  induction Hnone as [|c cands Hc _ IH]; intros pl; [done|].
  cbn [scan]. destruct (record_status_of root c) as [| | |j] eqn:Hst; try apply IH.
  destruct Hc. by exists j.
Qed.

(** X8: the task [get_next_task] hands out.  On files with valid names,
    for a factory that looks into [taskdir/SUBMITTED_STATUS], the task
    returned has the directory [taskdir/SUBMITTED_STATUS/ip/uuid] of two
    entries [ip] and [uuid] that are listed there, carries the record read
    from the record file of that directory, and reports the state
    [SUBMITTED_STATUS] and the uuid [uuid]. *)
Theorem get_next_task_returns_a_submitted_task
    (w w' : World) (f f' : FileBasedSubmittedTaskFactory.t) (taskdir : string)
    (task : FileBasedTask.t) :
  valid_names (fs w) = true →
  valid_name SUBMITTED_STATUS = true →
  FileBasedSubmittedTaskFactory._submitdir f =
    Some (posixpath.join taskdir [SUBMITTED_STATUS]) →
  FileBasedSubmittedTaskFactory.get_next_task (w, f) =
    (Return (Some task), (w', f')) →
  ∃ ip uuid jsondata,
    task = FileBasedTask.new
             (Some (posixpath.join taskdir [SUBMITTED_STATUS; ip; uuid])) jsondata ∧
    ip ∈ listing (fs w) (posixpath.join taskdir [SUBMITTED_STATUS]) ∧
    uuid ∈ listing (fs w) (posixpath.join taskdir [SUBMITTED_STATUS; ip]) ∧
    FS.resolve
      (FS.components
         (posixpath.join taskdir [SUBMITTED_STATUS; ip; uuid; TASK_JSON]))
      (fs w) = Some (File (JsonText jsondata)) ∧
    FileBasedTask.get_state (w', task) =
      (Return (Some SUBMITTED_STATUS), (w', task)) ∧
    FileBasedTask.get_task_uuid (w', task) = (Return (Some uuid), (w', task)).
Proof.
  intros Hv HS Hsub Hrun. rewrite (get_next_task_run w f _ Hsub) in Hrun.
  destruct (FS.isdir (fs w) _) eqn:Hdir; [|done].
  cbv zeta in Hrun.
  destruct (scan_spec (fs w) (FileBasedSubmittedTaskFactory._problemlist f)
              (candidates (fs w) (posixpath.join taskdir [SUBMITTED_STATUS])))
    as (scanned & rest & Hcands & _ & _ & _ & _ & Hres).
  destruct (scan (fs w) _ _) as [found pl'] eqn:Hscan. cbn [fst snd] in *.
  injection Hrun as -> <- <-.
  destruct rest as [|c rest]; [done|].
  destruct Hres as (jsondata & Hst & [= ->]).
  destruct (candidates_shape (fs w) (posixpath.join taskdir [SUBMITTED_STATUS]) c)
    as (ip & uuid & -> & Hip & Huuid).
  { rewrite Hcands. apply elem_of_app. right. left. }
  exists ip, uuid, jsondata.
  apply (listing_valid _ _ _ Hv) in Hip as Hipv, Huuid as Huuidv.
  destruct (path_facts.parse_join3 taskdir SUBMITTED_STATUS ip uuid)
    as (Hstate & _ & Hid);
    [done|done|by apply path_facts.valid_name_spec in Huuidv as [_ ?]|].
  repeat split; try done.
  - unfold record_status_of in Hst.
    change (posixpath.join taskdir [SUBMITTED_STATUS; ip; uuid; TASK_JSON])
      with (posixpath.join
              (posixpath.join (posixpath.join taskdir [SUBMITTED_STATUS]) [ip; uuid])
              [TASK_JSON]).
    destruct (FS.isdir (fs w) _) in Hst; [|done].
    destruct (FS.resolve _ (fs w)) as [[[j| |]|]|]; try done.
    by injection Hst as ->.
  - rewrite (get_state_run w _ (posixpath.join taskdir [SUBMITTED_STATUS; ip; uuid]))
      by done.
    by rewrite Hstate.
  - rewrite (get_task_uuid_run w _ (posixpath.join taskdir [SUBMITTED_STATUS; ip; uuid]))
      by done.
    by rewrite Hid.
Qed.

Lemma idle_fetch (w : World) (runner : NbgwasTaskRunner.t) (submitdir : string) :
  FileBasedSubmittedTaskFactory._submitdir (NbgwasTaskRunner._taskfactory runner) =
    Some submitdir →
  FS.isdir (fs w) submitdir = true →
  Forall (λ c, ¬ readable (fs w) c) (candidates (fs w) submitdir) →
  NbgwasTaskRunner.on_taskfactory FileBasedSubmittedTaskFactory.get_next_task
    (w, runner) =
  (Return None,
   (w, NbgwasTaskRunner.set_taskfactory
         (with_problemlist (NbgwasTaskRunner._taskfactory runner)
            (scan (fs w)
               (FileBasedSubmittedTaskFactory._problemlist
                  (NbgwasTaskRunner._taskfactory runner))
               (candidates (fs w) submitdir)).2)
         runner)).
Proof.
  intros Hsub Hdir Hnone.
  unfold NbgwasTaskRunner.on_taskfactory, on_field. cbn [fst snd].
  rewrite (get_next_task_run w _ _ Hsub), Hdir. cbv zeta.
  by rewrite (scan_none _ _ _ Hnone).
Qed.


(** X10: the third idle round.  When no task can be read, the problem
    list after the scan is not empty and the counter reaches 3, the round
    does not sleep: it runs [clean_up_problem_list] on that list, returns
    the counter 0 when the cleanup returns, and lets an exception of the
    cleanup out of the loop. *)
Theorem the_third_idle_round_cleans_up
    (w : World) (runner : NbgwasTaskRunner.t) (submitdir : string)
    (cleanupcounter : Z) :
  let factory := NbgwasTaskRunner._taskfactory runner in
  let problemlist :=
    (scan (fs w) (FileBasedSubmittedTaskFactory._problemlist factory)
       (candidates (fs w) submitdir)).2 in
  let cleaned :=
    FileBasedSubmittedTaskFactory.clean_up_problem_list
      (w, with_problemlist factory problemlist) in
  FileBasedSubmittedTaskFactory._submitdir factory = Some submitdir →
  FS.isdir (fs w) submitdir = true →
  Forall (λ c, ¬ readable (fs w) c) (candidates (fs w) submitdir) →
  problemlist ≠ [] → cleanupcounter + 1 >= 3 →
  NbgwasTaskRunner.run_tasks_round cleanupcounter (w, runner) =
  (match cleaned.1 with
   | Return _ => Return 0
   | Raise e => Raise e
   end,
   (cleaned.2.1, NbgwasTaskRunner.set_taskfactory cleaned.2.2 runner)).
Proof.
  intros factory problemlist cleaned Hsub Hdir Hnone Hpl Hc.
  unfold NbgwasTaskRunner.run_tasks_round.
  rewrite run_bind, (idle_fetch w runner submitdir Hsub Hdir Hnone).
  fold factory. fold problemlist.
  unfold NbgwasTaskRunner.on_taskfactory, on_field,
    FileBasedSubmittedTaskFactory.get_size_of_problem_list. run.
  cbn [NbgwasTaskRunner._taskfactory NbgwasTaskRunner.set_taskfactory
       FileBasedSubmittedTaskFactory._problemlist with_problemlist
       NbgwasTaskRunner._wait_time].
  rewrite bool_decide_eq_true_2
    by (destruct problemlist; [done|cbn [length]; lia]).
  rewrite bool_decide_eq_true_2 by lia.
  cbn [fst snd]. unfold NbgwasTaskRunner.set_taskfactory.
  cbn [NbgwasTaskRunner._taskfactory NbgwasTaskRunner._wait_time
       NbgwasTaskRunner._ndex_server].
  subst cleaned.
  by destruct (FileBasedSubmittedTaskFactory.clean_up_problem_list _)
    as [[[]|e] [w' f']].
Qed.

End fetch.

Lemma get_next_task_returns_a_submitted_task_witness :
  ∃ ip uuid jsondata,
    FileBasedTask.new (Some "/base/submitted/10.0.0.1/abc") (scenario_record "G1") =
      FileBasedTask.new (Some (posixpath.join "/base" ["submitted"; ip; uuid])) jsondata ∧
    ip ∈ listing (scenario_tree
                    [("abc", Dir [("task.json", File (JsonText (scenario_record "G1")))])])
           (posixpath.join "/base" ["submitted"]) ∧
    uuid ∈ listing (scenario_tree
                      [("abc", Dir [("task.json", File (JsonText (scenario_record "G1")))])])
             (posixpath.join "/base" ["submitted"; ip]) ∧
    FS.resolve
      (FS.components (posixpath.join "/base" ["submitted"; ip; uuid; "task.json"]))
      (scenario_tree
         [("abc", Dir [("task.json", File (JsonText (scenario_record "G1")))])]) =
      Some (File (JsonText jsondata)) ∧
    FileBasedTask.get_state
      (scenario_world
         [("abc", Dir [("task.json", File (JsonText (scenario_record "G1")))])],
       FileBasedTask.new (Some "/base/submitted/10.0.0.1/abc") (scenario_record "G1")) =
      (Return (Some "submitted"),
       (scenario_world
          [("abc", Dir [("task.json", File (JsonText (scenario_record "G1")))])],
        FileBasedTask.new (Some "/base/submitted/10.0.0.1/abc") (scenario_record "G1"))) ∧
    FileBasedTask.get_task_uuid
      (scenario_world
         [("abc", Dir [("task.json", File (JsonText (scenario_record "G1")))])],
       FileBasedTask.new (Some "/base/submitted/10.0.0.1/abc") (scenario_record "G1")) =
      (Return (Some uuid),
       (scenario_world
          [("abc", Dir [("task.json", File (JsonText (scenario_record "G1")))])],
        FileBasedTask.new (Some "/base/submitted/10.0.0.1/abc") (scenario_record "G1"))).
Proof.
  apply (get_next_task_returns_a_submitted_task (K:=nbgwas_rest)
           (scenario_world
              [("abc", Dir [("task.json", File (JsonText (scenario_record "G1")))])])
           (scenario_world
              [("abc", Dir [("task.json", File (JsonText (scenario_record "G1")))])])
           scenario_factory scenario_factory "/base"
           (FileBasedTask.new (Some "/base/submitted/10.0.0.1/abc") (scenario_record "G1")));
    reflexivity.
Defined.


Lemma the_third_idle_round_cleans_up_witness :
  ∃ w' runner',
    NbgwasTaskRunner.run_tasks_round (K:=nbgwas_rest) (E:=scenario_external) 2
      (scenario_world [("abc", Dir [("task.json", File (RawText "{"))])],
       scenario_runner) = (Return 0, (w', runner')) ∧
    trace w' =
      [EvWrite "/base/submitted/10.0.0.1/abc/task.json"
         (JsonText (JObj {[ "error" := JStr "Unknown error with task" ]}));
       EvMove "/base/submitted/10.0.0.1/abc" "/base/done/10.0.0.1/abc"] ∧
    FileBasedSubmittedTaskFactory._problemlist
      (NbgwasTaskRunner._taskfactory runner') = [].
Proof.
  eexists _, _. split.
  - rewrite (the_third_idle_round_cleans_up (K:=nbgwas_rest) (E:=scenario_external)
               (scenario_world [("abc", Dir [("task.json", File (RawText "{"))])])
               scenario_runner "/base/submitted" 2).
    + vm_compute. reflexivity.
    + reflexivity.
    + reflexivity.
    + repeat constructor. intros [jsondata Hj]. vm_compute in Hj. discriminate.
    + vm_compute. discriminate.
    + lia.
  - split; reflexivity.
Defined.

(** ** The accessors of the record, and the source of the network *)

Section accessors.
Context `{K : NbgwasRest} `{E : External}.

(** X11: the accessors on a record that is a mapping.  [get_alpha],
    [get_seeds] and [get_ipaddress] raise [KeyError] when their key is
    missing and return the stored value otherwise; [get_ndex] and
    [get_bigim] never raise: a missing key gives [None].  None of them
    changes the task or the world. *)
Theorem the_accessors_on_a_mapping
    (w : World) (task : FileBasedTask.t) (fields : gmap string json) :
  FileBasedTask._taskdict task = JObj fields →
  let required key :=
    (match fields !! key with
     | Some v => Return v
     | None => Raise (KeyError key)
     end, (w, task)) in
  let optional key := (Return (default JNull (fields !! key)), (w, task)) in
  FileBasedTask.get_alpha (w, task) = required ALPHA_PARAM ∧
  FileBasedTask.get_seeds (w, task) = required SEEDS_PARAM ∧
  FileBasedTask.get_ipaddress (w, task) = required REMOTEIP_PARAM ∧
  FileBasedTask.get_ndex (w, task) = optional NDEX_PARAM ∧
  FileBasedTask.get_bigim (w, task) = optional COLUMN_PARAM.
Proof.
  intros Hdict required optional.
  unfold FileBasedTask.get_alpha, FileBasedTask.get_seeds,
    FileBasedTask.get_ipaddress, FileBasedTask.get_ndex, FileBasedTask.get_bigim,
    required, optional.
  run. rewrite Hdict. cbn [py_getitem py_contains].
  repeat split;
    match goal with
    | |- context [fields !! ?k] => by destruct (fields !! k)
    end.
Qed.

(** X12: the network file of the task directory comes first.  When the
    task directory holds a network file, [_get_networkx_object] returns
    what [read_sif] makes of it, whatever the record of the task says and
    whichever NDEx server the runner has; task and world are unchanged. *)
Theorem the_network_file_comes_first
    (w : World) (task : FileBasedTask.t) (self : NbgwasTaskRunner.t)
    (taskdir : string) (data : filedata) :
  FileBasedTask._taskdir task = Some taskdir →
  FS.resolve (FS.components (posixpath.join taskdir [NETWORK_DATA])) (fs w) =
    Some (File data) →
  NbgwasTaskRunner._get_networkx_object self (w, task) =
  (match data with
   | Unreadable => Raise (PermissionError (posixpath.join taskdir [NETWORK_DATA]))
   | _ => match read_sif data with
          | Return network => Return (Some network)
          | Raise e => Raise e
          end
   end, (w, task)).
Proof.
  intros Hdir Hfile.
  unfold NbgwasTaskRunner._get_networkx_object, FileBasedTask.get_network,
    NbgwasTaskRunner._get_networkx_object_from_sif_file, os_path_isfile,
    open_read, FS.isfile.
  run. rewrite Hdir.
  repeat (first [progress run | progress cbn [negb] | rewrite Hfile]).
  destruct data as [j|raw|];
    repeat (first [progress run | progress cbn [negb] | rewrite Hfile]);
    try by destruct (read_sif _).
  reflexivity.
Qed.

(** X13: without a network file, the NDEx id of the record decides.  For a
    task whose directory holds no network file and whose record is a
    mapping: without the key, or with [null] under it, the result is
    [None] and no server is asked; otherwise the network is the one the
    runner's NDEx server gives for the id, and its exception is the
    exception of the call. *)
Theorem without_a_network_file_ndex_decides
    (w : World) (task : FileBasedTask.t) (self : NbgwasTaskRunner.t)
    (taskdir : string) (fields : gmap string json) :
  FileBasedTask._taskdir task = Some taskdir →
  FS.isfile (fs w) (posixpath.join taskdir [NETWORK_DATA]) = false →
  FileBasedTask._taskdict task = JObj fields →
  NbgwasTaskRunner._get_networkx_object self (w, task) =
  (match default JNull (fields !! NDEX_PARAM) with
   | JNull => Return None
   | ndex_id =>
       match ndex_network (NbgwasTaskRunner._ndex_server self) ndex_id with
       | Return network => Return (Some network)
       | Raise e => Raise e
       end
   end, (w, task)).
Proof.
  intros Hdir Hfile Hdict.
  unfold NbgwasTaskRunner._get_networkx_object, FileBasedTask.get_network,
    FileBasedTask.get_ndex, NbgwasTaskRunner._get_networkx_object_from_ndex,
    os_path_isfile.
  run. rewrite Hdir.
  repeat (first [progress run | progress cbn [negb] | rewrite Hfile]).
  rewrite Hdict. cbn [py_contains py_getitem].
  repeat (first [progress run | progress cbn [negb]]).
  destruct (fields !! NDEX_PARAM) as [[| | | | |]|]; cbn; try reflexivity;
    by destruct (ndex_network _ _).
Qed.

End accessors.

Lemma the_accessors_on_a_mapping_witness :
  FileBasedTask.get_ipaddress (K:=nbgwas_rest)
    (scenario_world [], scenario_task "submitted" (scenario_record "G1")) =
    (Raise (KeyError "remoteip"),
     (scenario_world [], scenario_task "submitted" (scenario_record "G1"))) ∧
  FileBasedTask.get_ndex (K:=nbgwas_rest)
    (scenario_world [], scenario_task "submitted" (scenario_record "G1")) =
    (Return JNull,
     (scenario_world [], scenario_task "submitted" (scenario_record "G1"))).
Proof.
  destruct (the_accessors_on_a_mapping (K:=nbgwas_rest) (scenario_world [])
              (scenario_task "submitted" (scenario_record "G1")) _ eq_refl)
    as (_ & _ & Hip & Hndex & _).
  split; [exact Hip|exact Hndex].
Defined.

Lemma the_network_file_comes_first_witness :
  NbgwasTaskRunner._get_networkx_object (K:=nbgwas_rest) (E:=scenario_external)
    scenario_runner
    (scenario_world [("abc", Dir [scenario_network])],
     scenario_task "submitted" (JObj {[ "ndex" := JStr "some-id" ]})) =
  (Return (Some scenario_graph),
   (scenario_world [("abc", Dir [scenario_network])],
    scenario_task "submitted" (JObj {[ "ndex" := JStr "some-id" ]}))).
Proof.
  apply (the_network_file_comes_first (K:=nbgwas_rest) (E:=scenario_external)
           (scenario_world [("abc", Dir [scenario_network])])
           (scenario_task "submitted" (JObj {[ "ndex" := JStr "some-id" ]}))
           scenario_runner "/base/submitted/10.0.0.1/abc"
           (RawText "G1	G2	1.0")); reflexivity.
Defined.

Lemma without_a_network_file_ndex_decides_witness :
  NbgwasTaskRunner._get_networkx_object (K:=nbgwas_rest) (E:=scenario_external)
    scenario_runner
    (scenario_world [("abc", Dir [])],
     scenario_task "submitted" (scenario_record "G1")) =
  (Return None,
   (scenario_world [("abc", Dir [])],
    scenario_task "submitted" (scenario_record "G1"))).
Proof.
  apply (without_a_network_file_ndex_decides (K:=nbgwas_rest) (E:=scenario_external)
           (scenario_world [("abc", Dir [])])
           (scenario_task "submitted" (scenario_record "G1"))
           scenario_runner "/base/submitted/10.0.0.1/abc" _ eq_refl eq_refl eq_refl).
Defined.

(** ** What is written can be read *)

Module FS_round_trip.
Import FS posixpath.

Lemma str_split_free (n : string) :
  has_sep n = false → str_split sep n = [n].
Proof.
  induction n as [|c n IH]; [done|]. cbn [has_sep str_split].
  intros [Hc Hn]%orb_false_iff. by rewrite Hc, (IH Hn).
Qed.

Lemma str_split_snoc (a n : string) :
  has_sep n = false →
  str_split sep (a +:+ String sep n) = str_split sep a ++ [n].
Proof.
  intros Hn. induction a as [|c a IH].
  - rewrite path_facts.append_nil_l. cbn [str_split].
    by rewrite Ascii.eqb_refl, (str_split_free n Hn).
  - rewrite path_facts.append_cons. cbn [str_split]. rewrite IH.
    destruct (Ascii.eqb c sep); [done|].
    pose proof (str_split_nonempty sep a) as Hne.
    by destruct (str_split sep a).
Qed.

Lemma components_snoc (a n : string) :
  has_sep n = false → n ≠ EmptyString →
  components (a +:+ String sep n) = components a ++ [n].
Proof.
  intros Hn Hne. unfold components.
  rewrite (str_split_snoc a n Hn), filter_app. f_equal.
  by rewrite filter_cons_True.
Qed.

Lemma components_trailing_sep (a : string) :
  components (a +:+ String sep EmptyString) = components a.
Proof.
  unfold components. rewrite (str_split_snoc a EmptyString eq_refl), filter_app.
  rewrite filter_cons_False by (by intros []). by rewrite app_nil_r.
Qed.

Lemma components_join2 (path n : string) :
  valid_name n = true →
  components (join2 path n) = components path ++ [n].
Proof.
  intros [Hne Hn]%path_facts.valid_name_spec. unfold join2.
  rewrite (path_facts.startswith_sep_free n Hn).
  destruct path as [|c path].
  { unfold components. rewrite (str_split_free n Hn). cbn [str_split].
    rewrite filter_cons_True by done.
    by rewrite filter_cons_False by (by intros []). }
  remember (String c path) as p eqn:Hp. clear Hp.
  destruct (endswith_sep p) eqn:He.
  - apply path_facts.endswith_sep_app in He as [a ->].
    rewrite path_facts.app_assoc_sep, components_trailing_sep.
    by apply components_snoc.
  - change (p +:+ "/" +:+ n) with (p +:+ String sep n).
    by apply components_snoc.
Qed.

Lemma entry_lookup_set (name name' : string) (n : node) (es : list (string * node)) :
  entry_lookup name (entry_set name' n es) =
  if decide (name = name') then Some n else entry_lookup name es.
Proof.
  induction es as [|[k m] es IH]; cbn [entry_set entry_lookup].
  - destruct (decide (name' = name)) as [->|?].
    + by rewrite decide_True.
    + by rewrite decide_False.
  - destruct (decide (k = name')) as [->|Hk]; cbn [entry_lookup].
    + destruct (decide (name' = name)) as [->|?].
      * by rewrite decide_True.
      * by rewrite decide_False.
    + rewrite IH. destruct (decide (k = name)) as [->|?]; [|done].
      by rewrite decide_False.
Qed.

(** the node put by [graft] is found where it was put *)
Lemma graft_resolve (parents : bool) (cs : list string) (new root root' : node) :
  graft parents cs new root = Some root' → resolve cs root' = Some new.
Proof.
  revert root root'. induction cs as [|c cs IH]; intros root root'.
  { by intros [= <-]. }
  cbn [graft]. destruct root as [|es]; [done|].
  destruct (entry_lookup c es) as [child|] eqn:Hl.
  - destruct (graft parents cs new child) as [child'|] eqn:Hg; [|done].
    intros [= <-]. cbn [resolve]. rewrite entry_lookup_set, decide_True by done.
    by eapply IH.
  - destruct cs as [|c' cs'].
    + intros [= <-]. cbn [resolve].
      by rewrite entry_lookup_set, decide_True.
    + destruct parents; [|done].
      destruct (graft true (c' :: cs') new (Dir [])) as [child'|] eqn:Hg; [|done].
      intros [= <-]. cbn [resolve]. rewrite entry_lookup_set, decide_True by done.
      by eapply IH.
Qed.

(** a file elsewhere is still there after a write *)
Lemma graft_resolve_other (cs1 cs2 : list string) (new root root' : node)
    (d : filedata) :
  graft false cs2 new root = Some root' →
  resolve cs1 root = Some (File d) →
  ¬ cs2 `prefix_of` cs1 →
  resolve cs1 root' = Some (File d).
Proof.
  revert cs1 root root'. induction cs2 as [|c2 cs2 IH]; intros cs1 root root'.
  { intros _ _ []. apply prefix_nil. }
  cbn [graft]. destruct root as [|es]; [done|].
  destruct cs1 as [|c1 cs1]; [done|]. cbn [resolve].
  destruct (entry_lookup c1 es) as [child1|] eqn:Hl1; [|done].
  intros Hg Hr Hpre.
  destruct (entry_lookup c2 es) as [child2|] eqn:Hl2.
  - destruct (graft false cs2 new child2) as [child2'|] eqn:Hg2; [|done].
    injection Hg as <-. cbn [resolve]. rewrite entry_lookup_set.
    destruct (decide (c1 = c2)) as [->|?]; [|by rewrite Hl1].
    rewrite Hl1 in Hl2. injection Hl2 as <-.
    eapply IH; [exact Hg2|exact Hr|].
    intros Hp. apply Hpre. by apply prefix_cons.
  - destruct cs2 as [|c2' cs2']; [|done].
    injection Hg as <-. cbn [resolve]. rewrite entry_lookup_set.
    destruct (decide (c1 = c2)) as [->|?]; [congruence|by rewrite Hl1].
Qed.

Lemma write_resolve (root root' : node) (p : string) (d : filedata) :
  write root p d = Return root' → resolve (components p) root' = Some (File d).
Proof.
  unfold write.
  destruct (resolve (components p) root) as [[|]|];
    destruct (components p) eqn:Hc; try done;
    destruct (graft false _ _ root) eqn:Hg; try done;
    intros [= <-]; by eapply graft_resolve.
Qed.

Lemma write_resolve_other (root root' : node) (p q : string) (d x : filedata) :
  write root p d = Return root' →
  resolve (components q) root = Some (File x) →
  ¬ components p `prefix_of` components q →
  resolve (components q) root' = Some (File x).
Proof.
  unfold write. intros Hw Hq Hpre.
  destruct (resolve (components p) root) as [[|]|];
    destruct (components p) eqn:Hc; try done;
    destruct (graft false _ _ root) eqn:Hg; try done;
    injection Hw as <-; by eapply graft_resolve_other.
Qed.

End FS_round_trip.

Section save_and_load.
Context `{K : NbgwasRest}.

Lemma json_load_file_run {O} (p : string) (w : World) (o : O) (j : json) :
  FS.resolve (FS.components p) (fs w) = Some (File (JsonText j)) →
  json_load_file p (w, o) = (Return j, (w, o)).
Proof.
  intros Hres. unfold json_load_file, open_read. run. by rewrite Hres.
Qed.

(** X14: what [save_task] writes can be read back.  When [save_task]
    returns, on a task with a directory, with record and result files of
    different valid names, it returned [None] and left the task as it was;
    the record file of the directory then loads as the record of the task,
    and, when the task has result data, the result file loads as that
    data. *)
Theorem save_task_then_load
    (w w' : World) (task task' : FileBasedTask.t) (taskdir : string)
    (x : option string) :
  valid_name TASK_JSON = true → valid_name RESULT = true → TASK_JSON ≠ RESULT →
  FileBasedTask._taskdir task = Some taskdir →
  FileBasedTask.save_task (w, task) = (Return x, (w', task')) →
  x = None ∧ task' = task ∧
  json_load_file (posixpath.join taskdir [TASK_JSON]) (w', task) =
    (Return (FileBasedTask._taskdict task), (w', task)) ∧
  (is_None (FileBasedTask._resultdata task) = false →
   json_load_file (posixpath.join taskdir [RESULT]) (w', task) =
     (Return (FileBasedTask._resultdata task), (w', task))).
Proof.
  intros HT HR Hne Hdir. unfold FileBasedTask.save_task.
  run. rewrite Hdir, json_dump_file_run.
  destruct (FS.write (fs w) _ _) as [root1|e1] eqn:Hw1; cbn [fst snd]; [|done].
  apply FS_round_trip.write_resolve in Hw1 as Hr1.
  destruct (is_None (FileBasedTask._resultdata task)) eqn:Hres; cbn [negb].
  - intros [= <- <- <-]. repeat split; [|done].
    by apply json_load_file_run.
  - rewrite json_dump_file_run. cbn [fs trace].
    destruct (FS.write root1 _ _) as [root2|e2] eqn:Hw2; [|done].
    intros [= <- <- <-]. repeat split.
    + apply json_load_file_run. cbn [fs].
      eapply FS_round_trip.write_resolve_other; [exact Hw2|exact Hr1|].
      unfold posixpath.join. cbn [foldl].
      rewrite !FS_round_trip.components_join2 by done.
      intros Hpre. apply prefix_app_inv in Hpre.
      apply prefix_cons_inv_1 in Hpre. congruence.
    + intros _. apply json_load_file_run. cbn [fs].
      by eapply FS_round_trip.write_resolve.
Qed.

End save_and_load.

Lemma save_task_then_load_witness :
  ∃ w',
    json_load_file "/base/done/10.0.0.1/abc/task.json"
      (w', FileBasedTask.mk (Some "/base/done/10.0.0.1/abc") (scenario_record "G1")
             None None None scenario_scores) =
      (Return (scenario_record "G1"),
       (w', FileBasedTask.mk (Some "/base/done/10.0.0.1/abc") (scenario_record "G1")
              None None None scenario_scores)) ∧
    json_load_file "/base/done/10.0.0.1/abc/result.json"
      (w', FileBasedTask.mk (Some "/base/done/10.0.0.1/abc") (scenario_record "G1")
             None None None scenario_scores) =
      (Return scenario_scores,
       (w', FileBasedTask.mk (Some "/base/done/10.0.0.1/abc") (scenario_record "G1")
              None None None scenario_scores)).
Proof.
  pose (w := mkWorld (Dir [("base", Dir [("done", Dir [("10.0.0.1", Dir [("abc", Dir [])])])])]) []).
  pose (task := FileBasedTask.mk (Some "/base/done/10.0.0.1/abc") (scenario_record "G1")
                  None None None scenario_scores).
  pose (w' := (FileBasedTask.save_task (K:=nbgwas_rest) (w, task)).2.1).
  exists w'.
  destruct (save_task_then_load (K:=nbgwas_rest) w w' task task
              "/base/done/10.0.0.1/abc" None eq_refl eq_refl) as (_ & _ & H1 & H2).
  - discriminate.
  - reflexivity.
  - vm_compute. reflexivity.
  - split; [exact H1|]. apply H2. reflexivity.
Defined.

(** ** Where a moved directory is found *)

Module FS_moves.
Import FS posixpath.

Lemma entry_lookup_delete_ne (name name' : string) (es : list (string * node)) :
  name ≠ name' → entry_lookup name (entry_delete name' es) = entry_lookup name es.
Proof.
  intros Hne. induction es as [|[k m] es IH]; [done|].
  cbn [entry_delete entry_lookup].
  destruct (decide (k = name')) as [->|Hk]; cbn [entry_lookup].
  - by rewrite decide_False.
  - by rewrite IH.
Qed.

Lemma resolve_app (cs1 cs2 : list string) (root : node) :
  resolve (cs1 ++ cs2) root = resolve cs1 root ≫= resolve cs2.
Proof.
  revert root. induction cs1 as [|c cs1 IH]; intros root; [done|].
  cbn [app resolve]. destruct root as [|es]; [done|].
  by destruct (entry_lookup c es).
Qed.

Lemma not_prefix_cons (c : string) (cs1 cs2 : list string) :
  ¬ (c :: cs1) `prefix_of` (c :: cs2) → ¬ cs1 `prefix_of` cs2.
Proof. intros H Hp. apply H. by apply prefix_cons. Qed.

(** what lies beside the place of a [graft] stays as it is *)
Lemma graft_resolve_disjoint (parents : bool) (cs1 cs2 : list string)
    (new root root' : node) :
  graft parents cs1 new root = Some root' →
  ¬ cs1 `prefix_of` cs2 → ¬ cs2 `prefix_of` cs1 →
  resolve cs2 root' = resolve cs2 root.
Proof.
  revert cs2 root root'. induction cs1 as [|c1 cs1 IH]; intros cs2 root root'.
  { intros _ []. apply prefix_nil. }
  destruct cs2 as [|c2 cs2]. { intros _ _ []. apply prefix_nil. }
  cbn [graft]. destruct root as [|es]; [done|].
  intros Hg H12 H21. cbn [resolve].
  destruct (entry_lookup c1 es) as [child|] eqn:Hl.
  - destruct (graft parents cs1 new child) as [child'|] eqn:Hg1; [|done].
    injection Hg as <-. cbn [resolve]. rewrite FS_round_trip.entry_lookup_set.
    destruct (decide (c2 = c1)) as [->|?]; [|done].
    rewrite Hl. eapply IH; [exact Hg1| |]; by eapply not_prefix_cons.
  - destruct cs1 as [|c1' cs1'].
    + injection Hg as <-. cbn [resolve]. rewrite FS_round_trip.entry_lookup_set.
      destruct (decide (c2 = c1)) as [->|?]; [|done].
      destruct H12. apply prefix_cons, prefix_nil.
    + destruct parents; [|done].
      destruct (graft true (c1' :: cs1') new (Dir [])) as [child'|] eqn:Hg1; [|done].
      injection Hg as <-. cbn [resolve]. rewrite FS_round_trip.entry_lookup_set.
      destruct (decide (c2 = c1)) as [->|?]; [|done].
      rewrite Hl.
      rewrite (IH cs2 (Dir []) child' Hg1);
        [|by eapply not_prefix_cons|by eapply not_prefix_cons].
      destruct cs2 as [|c2' cs2']; [|done].
      destruct H21. apply prefix_cons, prefix_nil.
Qed.

(** what lies beside the place of a [prune] stays as it is *)
Lemma prune_resolve_disjoint (cs1 cs2 : list string) (root root' : node) :
  prune cs1 root = Some root' →
  ¬ cs1 `prefix_of` cs2 → ¬ cs2 `prefix_of` cs1 →
  resolve cs2 root' = resolve cs2 root.
Proof.
  revert cs2 root root'. induction cs1 as [|c1 cs1 IH]; intros cs2 root root'.
  { done. }
  destruct cs2 as [|c2 cs2]. { intros _ _ []. apply prefix_nil. }
  cbn [prune]. destruct root as [|es]; [done|].
  destruct (entry_lookup c1 es) as [child|] eqn:Hl; [|done].
  intros Hp H12 H21. cbn [resolve].
  destruct cs1 as [|c1' cs1'].
  - injection Hp as <-. cbn [resolve].
    destruct (decide (c2 = c1)) as [->|?].
    + destruct H12. apply prefix_cons, prefix_nil.
    + by rewrite entry_lookup_delete_ne.
  - destruct (prune (c1' :: cs1') child) as [child'|] eqn:Hp1; [|done].
    injection Hp as <-. cbn [resolve]. rewrite FS_round_trip.entry_lookup_set.
    destruct (decide (c2 = c1)) as [->|?]; [|done].
    rewrite Hl. eapply IH; [exact Hp1| |]; by eapply not_prefix_cons.
Qed.

Lemma rename_resolve (src dst : list string) (root root' : node) :
  rename src dst root = Some root' →
  resolve dst root = None →
  resolve dst root' = resolve src root ∧ is_Some (resolve src root).
Proof.
  unfold rename. intros Hr Hdst.
  destruct (resolve src root) as [sn|] eqn:Hsrc; [|done].
  split; [|done].
  destruct (decide (src = dst)) as [->|?]; [congruence|].
  destruct (bool_decide _); [done|]. rewrite Hdst in Hr.
  destruct (prune src root) as [root1|]; [|done]. cbn in Hr.
  by eapply FS_round_trip.graft_resolve.
Qed.

End FS_moves.

Section moved_tree.
Context `{K : NbgwasRest}.

(** [shutil.move] to a path that does not exist yet, beside the source:
    when it returns, the tree of the source is at that path. *)
Lemma shutil_move_tree {O} (src dst : string) (w w' : World) (o o' : O)
    (p : string) :
  FS.resolve (FS.components dst) (fs w) = None →
  ¬ FS.components src `prefix_of` FS.components dst →
  ¬ FS.components dst `prefix_of` FS.components src →
  shutil_move src dst (w, o) = (Return p, (w', o')) →
  FS.resolve (FS.components dst) (fs w') = FS.resolve (FS.components src) (fs w) ∧
  is_Some (FS.resolve (FS.components src) (fs w)) ∧
  trace w' = trace w ++ [EvMove src dst].
Proof.
  intros Hdst H12 H21. unfold shutil_move, FS.isdir, FS.exists_. run.
  rewrite Hdst. cbn [andb].
  destruct (FS.rename _ _ (fs w)) as [root'|] eqn:Hr.
  - run. intros [= <- <- <-]. cbn [fs trace].
    destruct (FS_moves.rename_resolve _ _ _ _ Hr Hdst) as [? ?]. by repeat split.
  - destruct (FS.resolve (FS.components src) (fs w)) as [[|es]|] eqn:Hsrc; try done.
    rewrite (bool_decide_eq_false_2 _ H12), ?Hdst.
    rewrite bool_decide_eq_false_2 by (by intros [? ?]).
    cbn [default].
    destruct (FS.graft true _ _ (fs w)) as [root1|] eqn:Hg; [|done].
    destruct (FS.prune _ root1) as [root2|] eqn:Hp; [|done].
    run. intros [= <- <- <-]. cbn [fs trace]. repeat split; [|done].
    rewrite (FS_moves.prune_resolve_disjoint _ _ _ _ Hp H12 H21).
    by eapply FS_round_trip.graft_resolve.
Qed.

End moved_tree.

Section moved_task.
Context `{K : NbgwasRest}.

Lemma join3_parts (base st ip id : string) :
  base ≠ EmptyString → posixpath.endswith_sep base = false →
  valid_name st = true → valid_name ip = true → posixpath.has_sep id = false →
  let taskdir := posixpath.join base [st; ip; id] in
  basedir_of_path taskdir = base ∧ state_of_path taskdir = st ∧
  ipaddr_of_path taskdir = ip ∧ uuid_of_path taskdir = id.
Proof.
  intros Hbase Hend Hst Hip Hid taskdir.
  destruct (path_facts.parse_join3 base st ip id Hst Hip Hid) as (? & ? & ?).
  repeat split; try done.
  apply path_facts.valid_name_spec in Hst as [Hst1 Hst2].
  apply path_facts.valid_name_spec in Hip as [Hip1 Hip2].
  unfold basedir_of_path, taskdir, posixpath.join. cbn [foldl].
  destruct (path_facts.join2_proper base st Hst1 Hst2) as [? ?].
  destruct (path_facts.join2_proper (posixpath.join2 base st) ip Hip1 Hip2) as [? ?].
  by rewrite !path_facts.dirname_join2.
Qed.

Lemma components_join (base : string) (names : list string) :
  Forall (λ n, valid_name n = true) names →
  FS.components (posixpath.join base names) = FS.components base ++ names.
Proof.
  intros Hnames. revert base.
  induction Hnames as [|n names Hn _ IH]; intros base.
  - by rewrite app_nil_r.
  - unfold posixpath.join. cbn [foldl]. fold (posixpath.join (posixpath.join2 base n) names).
    rewrite IH, FS_round_trip.components_join2 by done.
    by rewrite <- app_assoc.
Qed.

(** two paths that part at one name: none is the start of the other *)
Lemma parted (cb : list string) (a b : string) (l1 l2 : list string) :
  a ≠ b → ¬ (cb ++ a :: l1) `prefix_of` (cb ++ b :: l2).
Proof.
  intros Hne Hpre. apply prefix_app_inv in Hpre.
  by apply prefix_cons_inv_1 in Hpre.
Qed.

Lemma write_resolve_disjoint (root root' : node) (p : string) (d : filedata)
    (cs : list string) :
  FS.write root p d = Return root' →
  ¬ FS.components p `prefix_of` cs → ¬ cs `prefix_of` FS.components p →
  FS.resolve cs root' = FS.resolve cs root.
Proof.
  unfold FS.write. intros Hw H1 H2.
  destruct (FS.resolve (FS.components p) root) as [[|]|];
    destruct (FS.components p) eqn:Hc; try done;
    destruct (FS.graft false _ _ root) eqn:Hg; try done;
    injection Hw as <-; by eapply FS_moves.graft_resolve_disjoint.
Qed.

(** what [save_task] leaves on the disk when it returns *)
Lemma save_task_disk (w w1 : World) (task task1 : FileBasedTask.t)
    (base st ip id : string) (x : option string) :
  valid_name TASK_JSON = true → valid_name RESULT = true → TASK_JSON ≠ RESULT →
  valid_name st = true → valid_name ip = true → valid_name id = true →
  FileBasedTask._taskdir task = Some (posixpath.join base [st; ip; id]) →
  FileBasedTask.save_task (w, task) = (Return x, (w1, task1)) →
  task1 = task ∧
  trace w1 = trace w ++ save_events (posixpath.join base [st; ip; id]) task ∧
  FS.resolve (FS.components base ++ [st; ip; id; TASK_JSON]) (fs w1) =
    Some (File (JsonText (FileBasedTask._taskdict task))) ∧
  ∀ st', st ≠ st' →
    FS.resolve (FS.components base ++ [st'; ip; id]) (fs w1) =
    FS.resolve (FS.components base ++ [st'; ip; id]) (fs w).
Proof.
  intros HT HR Hne Hst Hip Hid Hdir.
  assert (∀ n, valid_name n = true →
            FS.components (posixpath.join (posixpath.join base [st; ip; id]) [n]) =
            FS.components base ++ [st; ip; id; n]) as Hcomp.
  { intros n Hn.
    change (posixpath.join (posixpath.join base [st; ip; id]) [n])
      with (posixpath.join base [st; ip; id; n]).
    apply components_join. by repeat constructor. }
  unfold FileBasedTask.save_task, save_events.
  run. rewrite Hdir, json_dump_file_run.
  destruct (FS.write (fs w) _ _) as [root1|e1] eqn:Hw1; cbn [fst snd]; [|done].
  apply FS_round_trip.write_resolve in Hw1 as Hr1.
  rewrite (Hcomp _ HT) in Hr1.
  assert (∀ st', st ≠ st' →
            FS.resolve (FS.components base ++ [st'; ip; id]) root1 =
            FS.resolve (FS.components base ++ [st'; ip; id]) (fs w)) as Hbeside1.
  { intros st' Hst'. eapply write_resolve_disjoint; [exact Hw1| |];
      rewrite (Hcomp _ HT); by apply parted. }
  destruct (is_None (FileBasedTask._resultdata task)) eqn:Hres; cbn [negb].
  - intros [= <- <- <-]. cbn [fs trace]. by repeat split.
  - rewrite json_dump_file_run. cbn [fs trace].
    destruct (FS.write root1 _ _) as [root2|e2] eqn:Hw2; [|done].
    intros [= <- <- <-]. cbn [fs trace]. repeat split.
    + by rewrite <- app_assoc.
    + rewrite <- Hr1. eapply write_resolve_disjoint; [exact Hw2| |];
        rewrite (Hcomp _ HR);
        change (FS.components base ++ [st; ip; id; TASK_JSON])
          with (FS.components base ++ [st; ip; id] ++ [TASK_JSON]);
        change (FS.components base ++ [st; ip; id; RESULT])
          with (FS.components base ++ [st; ip; id] ++ [RESULT]);
        rewrite !app_assoc; apply parted; congruence.
    + intros st' Hst'. rewrite <- (Hbeside1 st' Hst').
      eapply write_resolve_disjoint; [exact Hw2| |];
        rewrite (Hcomp _ HR); by apply parted.
Qed.

(** X15: [move_task] moves the directory.  For a task in
    [base/st/ip/id], sent to another state than [st] and [ERROR_STATUS]
    whose directory [base/new_state/ip/id] does not exist yet: when the
    call returns, the tree that was at the old path is at the new one,
    which is the directory the task now has; the one event is the move. *)
Theorem move_task_moves_the_directory
    (w w' : World) (task task' : FileBasedTask.t) (base st ip id new_state : string)
    (error_message x : option string) :
  let taskdir := posixpath.join base [st; ip; id] in
  let target := posixpath.join base [new_state; ip; id] in
  base ≠ EmptyString → posixpath.endswith_sep base = false →
  valid_name st = true → valid_name ip = true → valid_name id = true →
  valid_name new_state = true →
  st ≠ new_state → new_state ≠ ERROR_STATUS →
  FileBasedTask._taskdir task = Some taskdir →
  FS.exists_ (fs w) target = false →
  FileBasedTask.move_task new_state error_message (w, task) =
    (Return x, (w', task')) →
  FileBasedTask._taskdir task' = Some target ∧
  FS.resolve (FS.components target) (fs w') =
    FS.resolve (FS.components taskdir) (fs w) ∧
  is_Some (FS.resolve (FS.components taskdir) (fs w)) ∧
  trace w' = trace w ++ [EvMove taskdir target].
Proof.
  intros taskdir target Hbase Hend Hst Hip Hid Hnew Hne Herr Hdir Hex.
  destruct (join3_parts base st ip id Hbase Hend Hst Hip) as (Hb & Hs & Hi & Hu).
  { by apply path_facts.valid_name_spec in Hid as [_ ?]. }
  fold taskdir in Hb, Hs, Hi, Hu.
  unfold FileBasedTask.move_task.
  rewrite run_bind, (attrib_run _ _ _ Hdir), Hb, Hs, Hi, Hu.
  cbn [FileBasedTask.basedir FileBasedTask.state FileBasedTask.ipaddr
       FileBasedTask.uuid].
  destruct (decide (Some st = Some new_state)) as [[=]|_]; [done|].
  rewrite (decide_False (P:=new_state = ERROR_STATUS)) by done.
  unfold FileBasedTask.join_attrib, FileBasedTask.set_taskdir. run.
  rewrite Hdir. fold target.
  destruct (shutil_move taskdir target (w, task)) as [[p|e] [w1 task1]] eqn:Hmove;
    [|done].
  apply shutil_move_events in Hmove as Hsame. destruct Hsame as [-> _].
  apply shutil_move_tree in Hmove as (Htree & Hsome & Htrace).
  - run. intros [= <- <- <-]. by repeat split.
  - unfold FS.exists_ in Hex. apply bool_decide_eq_false in Hex.
    destruct (FS.resolve _ (fs w)); [|done]. by destruct Hex.
  - unfold taskdir, target. rewrite !components_join by (by repeat constructor).
    by apply parted.
  - unfold taskdir, target. rewrite !components_join by (by repeat constructor).
    by apply parted.
Qed.

(** X16: the error reaches the record of the finished task.  For a task
    in [base/st/ip/id] with a mapping as record, sent to [ERROR_STATUS]
    from a state other than [DONE_STATUS] while [base/DONE_STATUS/ip/id]
    does not exist yet: when [move_task] returns, the task is in that
    directory and the record file there loads as the record with the error
    message under [ERROR_PARAM]. *)
Theorem move_task_error_leaves_the_record_at_done
    (w w' : World) (task task' : FileBasedTask.t) (base st ip id : string)
    (fields : gmap string json) (error_message x : option string) :
  let taskdir := posixpath.join base [st; ip; id] in
  let target := posixpath.join base [DONE_STATUS; ip; id] in
  let record := JObj (<[ERROR_PARAM := JStr (default "Unknown error" error_message)]>
                        fields) in
  base ≠ EmptyString → posixpath.endswith_sep base = false →
  valid_name st = true → valid_name ip = true → valid_name id = true →
  valid_name DONE_STATUS = true →
  valid_name TASK_JSON = true → valid_name RESULT = true → TASK_JSON ≠ RESULT →
  st ≠ DONE_STATUS → st ≠ ERROR_STATUS →
  FileBasedTask._taskdir task = Some taskdir →
  FileBasedTask._taskdict task = JObj fields →
  FS.exists_ (fs w) target = false →
  FileBasedTask.move_task ERROR_STATUS error_message (w, task) =
    (Return x, (w', task')) →
  FileBasedTask._taskdir task' = Some target ∧
  FileBasedTask._taskdict task' = record ∧
  json_load_file (posixpath.join target [TASK_JSON]) (w', task') =
    (Return record, (w', task')).
Proof.
  intros taskdir target record Hbase Hend Hst Hip Hid HD HT HR HTR Hne Herr
    Hdir Hdict Hex.
  destruct (join3_parts base st ip id Hbase Hend Hst Hip) as (Hb & Hs & Hi & Hu).
  { by apply path_facts.valid_name_spec in Hid as [_ ?]. }
  fold taskdir in Hb, Hs, Hi, Hu.
  unfold FileBasedTask.move_task.
  rewrite run_bind, (attrib_run _ _ _ Hdir), Hb, Hs, Hi, Hu.
  cbn [FileBasedTask.basedir FileBasedTask.state FileBasedTask.ipaddr
       FileBasedTask.uuid].
  destruct (decide (Some st = Some ERROR_STATUS)) as [[=]|_]; [done|].
  rewrite (decide_True (P:=ERROR_STATUS = ERROR_STATUS)) by done.
  unfold FileBasedTask.join_attrib, FileBasedTask.set_taskdir,
    FileBasedTask.set_taskdict.
  run. rewrite Hdict. cbn [py_setitem]. run. fold record.
  cbn [FileBasedTask._taskdir FileBasedTask._taskdict FileBasedTask._networkx_obj
       FileBasedTask._genelevelsummary FileBasedTask._filteredseedlist
       FileBasedTask._resultdata].
  set (task1 := FileBasedTask.mk _ _ _ _ _ _).
  destruct (FileBasedTask.save_task (w, task1)) as [[y|e] [w1 task2]] eqn:Hsave;
    [|done].
  apply (save_task_disk _ _ _ _ base st ip id) in Hsave
    as (-> & _ & Hrecord & Hbeside); try done.
  run. cbn [FileBasedTask._taskdir task1]. rewrite Hdir. fold target.
  destruct (shutil_move taskdir target (w1, task1)) as [[p|e] [w2 task3]] eqn:Hmove;
    [|done].
  apply shutil_move_events in Hmove as Hsame. destruct Hsame as [-> _].
  apply shutil_move_tree in Hmove as (Htree & _ & _).
  - run. intros [= <- <- <-]. repeat split.
    apply json_load_file_run. cbn [fs].
    change (posixpath.join target [TASK_JSON])
      with (posixpath.join base [DONE_STATUS; ip; id; TASK_JSON]).
    rewrite components_join by (by repeat constructor).
    change (FS.components base ++ [DONE_STATUS; ip; id; TASK_JSON])
      with (FS.components base ++ [DONE_STATUS; ip; id] ++ [TASK_JSON]).
    rewrite app_assoc, FS_moves.resolve_app.
    unfold target, taskdir in Htree.
    rewrite !components_join in Htree by (by repeat constructor).
    rewrite Htree, <- FS_moves.resolve_app, <- app_assoc. exact Hrecord.
  - unfold target. rewrite components_join by (by repeat constructor).
    rewrite (Hbeside DONE_STATUS Hne).
    unfold FS.exists_ in Hex. apply bool_decide_eq_false in Hex.
    unfold target in Hex. rewrite components_join in Hex by (by repeat constructor).
    destruct (FS.resolve _ (fs w)); [|done]. by destruct Hex.
  - unfold taskdir, target. rewrite !components_join by (by repeat constructor).
    by apply parted.
  - unfold taskdir, target. rewrite !components_join by (by repeat constructor).
    by apply parted.
Qed.

End moved_task.

Lemma move_task_moves_the_directory_witness :
  ∃ w' task',
    FileBasedTask.move_task (K:=nbgwas_rest) "processing" None
      (scenario_world [("abc", Dir [("task.json", File (JsonText (scenario_record "G1")))])],
       scenario_task "submitted" (scenario_record "G1")) = (Return None, (w', task')) ∧
    FileBasedTask._taskdir task' = Some "/base/processing/10.0.0.1/abc" ∧
    FS.resolve (FS.components "/base/processing/10.0.0.1/abc") (fs w') =
      Some (Dir [("task.json", File (JsonText (scenario_record "G1")))]).
Proof.
  pose (w := scenario_world
               [("abc", Dir [("task.json", File (JsonText (scenario_record "G1")))])]).
  pose (task := scenario_task "submitted" (scenario_record "G1")).
  pose (s' := (FileBasedTask.move_task (K:=nbgwas_rest) "processing" None (w, task)).2).
  exists s'.1, s'.2.
  destruct (move_task_moves_the_directory (K:=nbgwas_rest) w s'.1 task s'.2
              "/base" "submitted" "10.0.0.1" "abc" "processing" None None)
    as (Hdir & Htree & _ & _); try reflexivity; try discriminate.
  split; [reflexivity|]. split; [exact Hdir|].
  etrans; [exact Htree|reflexivity].
Defined.

Lemma move_task_error_leaves_the_record_at_done_witness :
  ∃ w' task',
    FileBasedTask.move_task (K:=nbgwas_rest) "error" (Some "No seeds are in network")
      (mkWorld
         (Dir [("base", Dir [("processing", Dir [("10.0.0.1",
            Dir [("abc", Dir [("task.json",
               File (JsonText (scenario_record "G1")))])])])])]) [],
       scenario_task "processing" (scenario_record "G1")) = (Return None, (w', task')) ∧
    json_load_file "/base/done/10.0.0.1/abc/task.json" (w', task') =
      (Return (JObj {[ "alpha" := JNum "0.1"; "seeds" := JStr "G1";
                       "error" := JStr "No seeds are in network" ]}),
       (w', task')).
Proof.
  pose (w := mkWorld
               (Dir [("base", Dir [("processing", Dir [("10.0.0.1",
                  Dir [("abc", Dir [("task.json",
                     File (JsonText (scenario_record "G1")))])])])])]) []).
  pose (task := scenario_task "processing" (scenario_record "G1")).
  pose (s' := (FileBasedTask.move_task (K:=nbgwas_rest) "error"
                 (Some "No seeds are in network") (w, task)).2).
  exists s'.1, s'.2.
  destruct (move_task_error_leaves_the_record_at_done (K:=nbgwas_rest) w s'.1 task s'.2
              "/base" "processing" "10.0.0.1" "abc"
              {[ "alpha" := JNum "0.1"; "seeds" := JStr "G1" ]}
              (Some "No seeds are in network") None)
    as (_ & _ & Hload); try reflexivity; try discriminate.
  split.
  - vm_compute. reflexivity.
  - etrans; [exact Hload|]. vm_compute. reflexivity.
Defined.

(** ** A task followed over the disk *)

Section disk.
Context `{K : NbgwasRest}.

Lemma rename_beside (src dst cs : list string) (root root' : node) :
  FS.rename src dst root = Some root' →
  FS.resolve dst root = None →
  beside cs src dst →
  FS.resolve cs root' = FS.resolve cs root.
Proof.
  unfold FS.rename. intros Hr Hdst (H1 & H2 & H3 & H4).
  destruct (FS.resolve src root) as [sn|] eqn:Hsrc; [|done].
  destruct (decide (src = dst)) as [->|?]; [congruence|].
  destruct (bool_decide _); [done|]. rewrite Hdst in Hr.
  destruct (FS.prune src root) as [root1|] eqn:Hp; [|done]. cbn in Hr.
  rewrite (FS_moves.graft_resolve_disjoint _ _ _ _ _ _ Hr H4 H3).
  by eapply FS_moves.prune_resolve_disjoint.
Qed.

(** [shutil.move] leaves what lies beside the source and the target *)
Lemma shutil_move_beside {O} (src dst : string) (w w' : World) (o o' : O)
    (p : string) (cs : list string) :
  FS.resolve (FS.components dst) (fs w) = None →
  beside cs (FS.components src) (FS.components dst) →
  shutil_move src dst (w, o) = (Return p, (w', o')) →
  FS.resolve cs (fs w') = FS.resolve cs (fs w).
Proof.
  intros Hdst Hbeside. pose proof Hbeside as (H1 & H2 & H3 & H4).
  unfold shutil_move, FS.isdir, FS.exists_. run. rewrite Hdst. cbn [andb].
  destruct (FS.rename _ _ (fs w)) as [root'|] eqn:Hr.
  - run. intros [= <- <- <-]. cbn [fs]. by eapply rename_beside.
  - destruct (FS.resolve (FS.components src) (fs w)) as [[|es]|] eqn:Hsrc; try done.
    destruct (bool_decide (_ `prefix_of` _)); [done|]. rewrite ?Hdst.
    rewrite bool_decide_eq_false_2 by (by intros [? ?]).
    cbn [default].
    destruct (FS.graft true _ _ (fs w)) as [root1|] eqn:Hg; [|done].
    destruct (FS.prune _ root1) as [root2|] eqn:Hp; [|done].
    run. intros [= <- <- <-]. cbn [fs].
    rewrite (FS_moves.prune_resolve_disjoint _ _ _ _ Hp H2 H1).
    by eapply FS_moves.graft_resolve_disjoint.
Qed.

(** the directories of one task in two states, and the files in them *)
Lemma beside_states (cb : list string) (st st1 st2 ip id : string)
    (rel : list string) :
  st ≠ st1 → st ≠ st2 →
  beside (cb ++ [st; ip; id] ++ rel) (cb ++ [st1; ip; id]) (cb ++ [st2; ip; id]).
Proof. intros H1 H2. repeat split; by apply parted. Qed.

(** [move_task] to a state other than [ERROR_STATUS], on the disk *)
Lemma move_task_disk (w w' : World) (task task' : FileBasedTask.t)
    (base st ip id new_state : string) (error_message x : option string) :
  let taskdir := posixpath.join base [st; ip; id] in
  let target := posixpath.join base [new_state; ip; id] in
  base ≠ EmptyString → posixpath.endswith_sep base = false →
  valid_name st = true → valid_name ip = true → valid_name id = true →
  valid_name new_state = true →
  st ≠ new_state → new_state ≠ ERROR_STATUS →
  FileBasedTask._taskdir task = Some taskdir →
  FS.resolve (FS.components base ++ [new_state; ip; id]) (fs w) = None →
  FileBasedTask.move_task new_state error_message (w, task) =
    (Return x, (w', task')) →
  task' = FileBasedTask.mk (Some target) (FileBasedTask._taskdict task)
            (FileBasedTask._networkx_obj task) (FileBasedTask._genelevelsummary task)
            (FileBasedTask._filteredseedlist task) (FileBasedTask._resultdata task) ∧
  trace w' = trace w ++ [EvMove taskdir target] ∧
  (∀ rel, FS.resolve (FS.components base ++ [new_state; ip; id] ++ rel) (fs w') =
          FS.resolve (FS.components base ++ [st; ip; id] ++ rel) (fs w)) ∧
  (∀ cs, beside cs (FS.components base ++ [st; ip; id])
           (FS.components base ++ [new_state; ip; id]) →
         FS.resolve cs (fs w') = FS.resolve cs (fs w)).
Proof.
  intros taskdir target Hbase Hend Hst Hip Hid Hnew Hne Herr Hdir Hex.
  destruct (join3_parts base st ip id Hbase Hend Hst Hip) as (Hb & Hs & Hi & Hu).
  { by apply path_facts.valid_name_spec in Hid as [_ ?]. }
  fold taskdir in Hb, Hs, Hi, Hu.
  assert (FS.components taskdir = FS.components base ++ [st; ip; id]) as Hcd.
  { unfold taskdir. apply components_join. by repeat constructor. }
  assert (FS.components target = FS.components base ++ [new_state; ip; id]) as Hct.
  { unfold target. apply components_join. by repeat constructor. }
  unfold FileBasedTask.move_task.
  rewrite run_bind, (attrib_run _ _ _ Hdir), Hb, Hs, Hi, Hu.
  cbn [FileBasedTask.basedir FileBasedTask.state FileBasedTask.ipaddr
       FileBasedTask.uuid].
  destruct (decide (Some st = Some new_state)) as [[=]|_]; [done|].
  rewrite (decide_False (P:=new_state = ERROR_STATUS)) by done.
  unfold FileBasedTask.join_attrib, FileBasedTask.set_taskdir. run.
  rewrite Hdir. fold target.
  destruct (shutil_move taskdir target (w, task)) as [[p|e] [w1 task1]] eqn:Hmove;
    [|done].
  apply shutil_move_events in Hmove as Hsame. destruct Hsame as [-> _].
  pose proof Hmove as Hmove'.
  apply shutil_move_tree in Hmove as (Htree & Hsome & Htrace);
    [|by rewrite Hct|rewrite Hcd, Hct; by apply parted
     |rewrite Hcd, Hct; by apply parted].
  run. intros [= <- <- <-]. repeat split; try done.
  - intros rel.
    rewrite (app_assoc (FS.components base) [new_state; ip; id] rel),
      (app_assoc (FS.components base) [st; ip; id] rel),
      (FS_moves.resolve_app (FS.components base ++ [new_state; ip; id])),
      (FS_moves.resolve_app (FS.components base ++ [st; ip; id])).
    by rewrite <- Hct, Htree, Hcd.
  - intros cs Hcs. eapply shutil_move_beside; [|by rewrite Hcd, Hct|exact Hmove'].
    by rewrite Hct.
Qed.

End disk.

Section disk_error.
Context `{K : NbgwasRest} `{E : External}.

(** [move_task] to [ERROR_STATUS], on the disk *)
Lemma move_task_error_disk (w w' : World) (task task' : FileBasedTask.t)
    (base st ip id : string) (fields : gmap string json)
    (error_message x : option string) :
  let taskdir := posixpath.join base [st; ip; id] in
  let target := posixpath.join base [DONE_STATUS; ip; id] in
  let record := JObj (<[ERROR_PARAM := JStr (default "Unknown error" error_message)]>
                        fields) in
  let task1 := FileBasedTask.mk (Some taskdir) record
                 (FileBasedTask._networkx_obj task)
                 (FileBasedTask._genelevelsummary task)
                 (FileBasedTask._filteredseedlist task)
                 (FileBasedTask._resultdata task) in
  base ≠ EmptyString → posixpath.endswith_sep base = false →
  valid_name st = true → valid_name ip = true → valid_name id = true →
  valid_name DONE_STATUS = true →
  valid_name TASK_JSON = true → valid_name RESULT = true → TASK_JSON ≠ RESULT →
  st ≠ DONE_STATUS → st ≠ ERROR_STATUS →
  FileBasedTask._taskdir task = Some taskdir →
  FileBasedTask._taskdict task = JObj fields →
  FS.resolve (FS.components base ++ [DONE_STATUS; ip; id]) (fs w) = None →
  FileBasedTask.move_task ERROR_STATUS error_message (w, task) =
    (Return x, (w', task')) →
  task' = FileBasedTask.mk (Some target) record
            (FileBasedTask._networkx_obj task)
            (FileBasedTask._genelevelsummary task)
            (FileBasedTask._filteredseedlist task)
            (FileBasedTask._resultdata task) ∧
  trace w' = trace w ++ save_events taskdir task1 ++ [EvMove taskdir target] ∧
  FS.resolve (FS.components base ++ [DONE_STATUS; ip; id; TASK_JSON]) (fs w') =
    Some (File (JsonText record)).
Proof.
  intros taskdir target record task1 Hbase Hend Hst Hip Hid HD HT HR HTR Hne Herr
    Hdir Hdict Hex.
  destruct (join3_parts base st ip id Hbase Hend Hst Hip) as (Hb & Hs & Hi & Hu).
  { by apply path_facts.valid_name_spec in Hid as [_ ?]. }
  fold taskdir in Hb, Hs, Hi, Hu.
  assert (FS.components taskdir = FS.components base ++ [st; ip; id]) as Hcd.
  { unfold taskdir. apply components_join. by repeat constructor. }
  assert (FS.components target = FS.components base ++ [DONE_STATUS; ip; id]) as Hct.
  { unfold target. apply components_join. by repeat constructor. }
  unfold FileBasedTask.move_task.
  rewrite run_bind, (attrib_run _ _ _ Hdir), Hb, Hs, Hi, Hu.
  cbn [FileBasedTask.basedir FileBasedTask.state FileBasedTask.ipaddr
       FileBasedTask.uuid].
  destruct (decide (Some st = Some ERROR_STATUS)) as [[=]|_]; [done|].
  rewrite (decide_True (P:=ERROR_STATUS = ERROR_STATUS)) by done.
  unfold FileBasedTask.join_attrib, FileBasedTask.set_taskdir,
    FileBasedTask.set_taskdict.
  run. rewrite Hdict. cbn [py_setitem]. run. fold record.
  cbn [FileBasedTask._taskdir FileBasedTask._taskdict FileBasedTask._networkx_obj
       FileBasedTask._genelevelsummary FileBasedTask._filteredseedlist
       FileBasedTask._resultdata].
  rewrite Hdir. fold task1.
  destruct (FileBasedTask.save_task (w, task1)) as [[y|e] [w1 task2]] eqn:Hsave;
    [|done].
  apply (save_task_disk _ _ _ _ base st ip id) in Hsave
    as (-> & Htrace1 & Hrecord & Hbeside); try done.
  run. cbn [FileBasedTask._taskdir task1]. fold target.
  destruct (shutil_move taskdir target (w1, task1)) as [[p|e] [w2 task3]] eqn:Hmove;
    [|done].
  apply shutil_move_events in Hmove as Hsame. destruct Hsame as [-> _].
  apply shutil_move_tree in Hmove as (Htree & _ & Htrace2);
    [|by rewrite Hct, (Hbeside DONE_STATUS Hne)
     |rewrite Hcd, Hct; by apply parted|rewrite Hcd, Hct; by apply parted].
  run. intros [= <- <- <-]. repeat split.
  - rewrite Htrace2, Htrace1. by rewrite <- app_assoc.
  - change (FS.components base ++ [DONE_STATUS; ip; id; TASK_JSON])
      with (FS.components base ++ [DONE_STATUS; ip; id] ++ [TASK_JSON]).
    rewrite app_assoc, FS_moves.resolve_app, <- Hct, Htree, Hcd.
    rewrite <- FS_moves.resolve_app, <- app_assoc. exact Hrecord.
Qed.

(** X17: a task without a network, followed to the end.  A task fresh
    from the factory, in [base/SUBMITTED_STATUS/ip/id], whose directory has
    no network file and whose record has no NDEx id, with no directory of
    its name yet under [PROCESSING_STATUS] and [DONE_STATUS]: when
    [_process_task] returns, the task has gone to processing and from
    there to done, the one error logged is that of the network, the one
    file written is the record, and the record file in the done directory
    loads as the record with that message under [ERROR_PARAM]. *)
Theorem process_task_without_network_ends_in_done
    (self : NbgwasTaskRunner.t) (w w' : World) (task' : FileBasedTask.t)
    (base ip id : string) (fields : gmap string json) :
  let dir st := posixpath.join base [st; ip; id] in
  let emsg := "Unable to get networkx object for task" in
  let record := JObj (<[ERROR_PARAM := JStr emsg]> fields) in
  states_distinct →
  valid_name TASK_JSON = true → valid_name RESULT = true → TASK_JSON ≠ RESULT →
  valid_name NETWORK_DATA = true →
  base ≠ EmptyString → posixpath.endswith_sep base = false →
  valid_name ip = true → valid_name id = true →
  default JNull (fields !! NDEX_PARAM) = JNull →
  FS.isfile (fs w) (posixpath.join (dir SUBMITTED_STATUS) [NETWORK_DATA]) = false →
  FS.exists_ (fs w) (dir PROCESSING_STATUS) = false →
  FS.exists_ (fs w) (dir DONE_STATUS) = false →
  NbgwasTaskRunner._process_task self
    (w, FileBasedTask.new (Some (dir SUBMITTED_STATUS)) (JObj fields)) =
    (Return tt, (w', task')) →
  task' = FileBasedTask.new (Some (dir DONE_STATUS)) record ∧
  trace w' = trace w ++
    [EvMove (dir SUBMITTED_STATUS) (dir PROCESSING_STATUS);
     EvLogError emsg;
     EvWrite (posixpath.join (dir PROCESSING_STATUS) [TASK_JSON]) (JsonText record);
     EvMove (dir PROCESSING_STATUS) (dir DONE_STATUS)] ∧
  json_load_file (posixpath.join (dir DONE_STATUS) [TASK_JSON]) (w', task') =
    (Return record, (w', task')).
Proof.
  intros dir emsg record Hstates HT HR HTR HN Hbase Hend Hip Hid Hndex Hnofile
    Hnoproc Hnodone.
  pose proof Hstates as (HS & HP & HD & Hnd).
  rewrite !NoDup_cons, !not_elem_of_cons in Hnd.
  destruct Hnd as [(HSP & HSD & HSE & _) [(HPD & HPE & _) [(HDE & _) _]]].
  assert (∀ st names, valid_name st = true →
            Forall (λ n, valid_name n = true) names →
            FS.components (posixpath.join (dir st) names) =
            FS.components base ++ [st; ip; id] ++ names) as Hcomp.
  { intros st names Hst Hnames.
    change (posixpath.join (dir st) names)
      with (posixpath.join base ([st; ip; id] ++ names)).
    apply components_join. by repeat constructor. }
  assert (∀ st, valid_name st = true → FS.exists_ (fs w) (dir st) = false →
            FS.resolve (FS.components base ++ [st; ip; id]) (fs w) = None) as Habsent.
  { intros st Hst Hex. unfold FS.exists_ in Hex. apply bool_decide_eq_false in Hex.
    unfold dir in Hex. rewrite components_join in Hex by (by repeat constructor).
    destruct (FS.resolve _ (fs w)); [|done]. by destruct Hex. }
  unfold NbgwasTaskRunner._process_task.
  rewrite run_bind. unfold FileBasedTask.get_taskdir at 1. run.
  cbn [FileBasedTask._taskdir FileBasedTask.new].
  match goal with
  | |- context [FileBasedTask.move_task PROCESSING_STATUS None ?s] =>
      destruct (FileBasedTask.move_task PROCESSING_STATUS None s)
        as [[x1|e1] [w1 task1]] eqn:Hmove1; [|done]
  end.
  apply (move_task_disk _ _ _ _ base SUBMITTED_STATUS ip id PROCESSING_STATUS)
    in Hmove1 as (-> & Htrace1 & Hmoved1 & Hbeside1);
    try done; [|by apply Habsent].
  cbn [FileBasedTask._taskdict FileBasedTask._networkx_obj FileBasedTask.new
       FileBasedTask._genelevelsummary FileBasedTask._filteredseedlist
       FileBasedTask._resultdata].
  fold (dir PROCESSING_STATUS).
  set (task1 := FileBasedTask.mk (Some (dir PROCESSING_STATUS)) (JObj fields)
                  None None None JNull).
  assert (NbgwasTaskRunner._get_networkx_object self (w1, task1) =
          (Return None, (w1, task1))) as Hnet.
  { unfold NbgwasTaskRunner._get_networkx_object, FileBasedTask.get_network,
      FileBasedTask.get_ndex, os_path_isfile, FS.isfile.
    run. cbn [FileBasedTask._taskdir FileBasedTask._taskdict task1].
    rewrite (Hcomp PROCESSING_STATUS [NETWORK_DATA] HP) by (by repeat constructor).
    rewrite (Hmoved1 [NETWORK_DATA]).
    unfold FS.isfile in Hnofile.
    rewrite (Hcomp SUBMITTED_STATUS [NETWORK_DATA] HS) in Hnofile
      by (by repeat constructor).
    destruct (FS.resolve _ (fs w)) as [[|]|]; try done;
      repeat (first [progress run
                    |progress cbn [negb py_contains py_getitem
                                   FileBasedTask._taskdict task1]]);
      (destruct (fields !! NDEX_PARAM) as [v|]; simpl in Hndex;
       [subst v; by rewrite bool_decide_eq_true_2
       |by rewrite bool_decide_eq_false_2 by (by intros [? ?])]). }
  rewrite Hnet. run.
  match goal with
  | |- context [FileBasedTask.move_task ERROR_STATUS (Some ?m) ?s] =>
      destruct (FileBasedTask.move_task ERROR_STATUS (Some m) s)
        as [[x2|e2] [w2 task2]] eqn:Hmove2; [|done]
  end.
  apply (move_task_error_disk _ _ _ _ base PROCESSING_STATUS ip id fields) in Hmove2
    as (-> & Htrace2 & Hrecord2); try done.
  2:{ cbn [fs]. rewrite Hbeside1; [by apply Habsent|].
      repeat split; by apply parted. }
  intros [= <- <-]. repeat split.
  - rewrite Htrace2. cbn [trace]. rewrite Htrace1.
    unfold save_events. cbn [FileBasedTask._taskdict FileBasedTask._resultdata is_None].
    by rewrite <- !app_assoc.
  - apply json_load_file_run. cbn [fs].
    rewrite (Hcomp DONE_STATUS [TASK_JSON] HD) by (by repeat constructor).
    exact Hrecord2.
Qed.

End disk_error.

Lemma process_task_without_network_ends_in_done_witness :
  ∃ w' task',
    task' = FileBasedTask.new
              (Some (posixpath.join "/base" ["done"; "10.0.0.1"; "abc"]))
              (JObj (<["error" := JStr "Unable to get networkx object for task"]>
                       {[ "alpha" := JNum "0.1"; "seeds" := JStr "G1" ]})) ∧
    trace w' =
      trace (scenario_world
               [("abc", Dir [("task.json", File (JsonText (scenario_record "G1")))])]) ++
      [EvMove (posixpath.join "/base" ["submitted"; "10.0.0.1"; "abc"])
         (posixpath.join "/base" ["processing"; "10.0.0.1"; "abc"]);
       EvLogError "Unable to get networkx object for task";
       EvWrite (posixpath.join (posixpath.join "/base" ["processing"; "10.0.0.1"; "abc"])
                  ["task.json"])
         (JsonText
            (JObj (<["error" := JStr "Unable to get networkx object for task"]>
                     {[ "alpha" := JNum "0.1"; "seeds" := JStr "G1" ]})));
       EvMove (posixpath.join "/base" ["processing"; "10.0.0.1"; "abc"])
         (posixpath.join "/base" ["done"; "10.0.0.1"; "abc"])] ∧
    json_load_file
      (posixpath.join (posixpath.join "/base" ["done"; "10.0.0.1"; "abc"]) ["task.json"])
      (w', task') =
      (Return (JObj (<["error" := JStr "Unable to get networkx object for task"]>
                       {[ "alpha" := JNum "0.1"; "seeds" := JStr "G1" ]})),
       (w', task')).
Proof.
  eexists _, _.
  eapply (process_task_without_network_ends_in_done (K:=nbgwas_rest)
            (E:=scenario_external) scenario_runner
            (scenario_world
               [("abc", Dir [("task.json", File (JsonText (scenario_record "G1")))])])
            _ _ "/base" "10.0.0.1" "abc"
            {[ "alpha" := JNum "0.1"; "seeds" := JStr "G1" ]}).
  - exact states_distinct_nbgwas_rest.
  - vm_compute. reflexivity.
  - vm_compute. reflexivity.
  - discriminate.
  - vm_compute. reflexivity.
  - discriminate.
  - vm_compute. reflexivity.
  - vm_compute. reflexivity.
  - vm_compute. reflexivity.
  - vm_compute. reflexivity.
  - vm_compute. reflexivity.
  - vm_compute. reflexivity.
  - vm_compute. reflexivity.
  - vm_compute. reflexivity.
Defined.

(** ** A moved directory is gone from where it was *)

Module FS_unique.
Import FS.

















End FS_unique.

(** ** When a write and a move succeed *)

Module FS_total.
Import FS.









End FS_total.

Section moves_return.
Context `{K : NbgwasRest}.




End moves_return.

Section saved_unique.
Context `{K : NbgwasRest}.



End saved_unique.

(** ** The error outcome, on the disk *)

Section error_outcome.
Context `{K : NbgwasRest}.




End error_outcome.

Section error_outcome_returns.
Context `{K : NbgwasRest}.




End error_outcome_returns.



(** ** The cleanup, on the disk *)

Lemma list_ind_pairs {A} (P : list A → Prop) :
  P [] → (∀ x, P [x]) → (∀ x y l, P l → P (x :: y :: l)) → ∀ l, P l.
Proof.
  intros H0 H1 H2 l.
  assert (P l ∧ ∀ x, P (x :: l)) as [? _]; [|done].
  induction l as [|y l [IH1 IH2]]; [by split|]. split; [apply IH2|].
  intros x. by apply H2.
Qed.




Lemma py_remove_loop_skipped {A} (g : A → string) (l : list A) :
  py_remove_loop (λ _, false) (g <$> l) = g <$> py_skipped l.
Proof.
  pattern l; apply list_ind_pairs; clear l; [done|done|]. intros x y l IH.
  cbn [fmap list_fmap py_remove_loop py_skipped]. f_equal. exact IH.
Qed.

Section cleanup_disk.
Context `{K : NbgwasRest}.
Variable base : string.
Hypothesis Hbase : base ≠ EmptyString.
Hypothesis Hend : posixpath.endswith_sep base = false.
Hypothesis HS : valid_name SUBMITTED_STATUS = true.
Hypothesis HD : valid_name DONE_STATUS = true.
Hypothesis HT : valid_name TASK_JSON = true.
Hypothesis HR : valid_name RESULT = true.
Hypothesis HTR : TASK_JSON ≠ RESULT.
Hypothesis HSD : SUBMITTED_STATUS ≠ DONE_STATUS.
Hypothesis HSE : SUBMITTED_STATUS ≠ ERROR_STATUS.

Local Abbreviation cb := (FS.components base).
Local Abbreviation valid_id :=
  (λ c : string * string, valid_name c.1 = true ∧ valid_name c.2 = true).










End cleanup_disk.


